(** * SilkLabel: the annotation geometry and state engine of [main.py]

    A shallow embedding of the non-GUI logic of [src/main.py] (class catalog
    loading, label resolution, hit-testing, zoom, the region mutation
    handlers of the detail dialog, saving, and the board layout), followed by
    the properties proved about it.

    Conventions of the embedding.
    - Python [int] is [Z]; Python [float] is the kernel's binary64 [float]
      ([PrimFloat]), so products, quotients and comparisons round exactly as
      CPython's do.
    - Python [str] is [string] (the UTF-8 bytes of the text); only ASCII
      separators, white space and digits are interpreted.
    - A [dict] read with [d.get(key, default)] is a record whose fields are
      [option]s: [None] is a missing key.
    - Exceptions are values of [exn]; code that can raise returns a
      [result].
    - Qt widgets are not modelled, except for what feeds back into the
      data: message boxes are appended to a log, and the spin box of the
      modification status re-enters its [valueChanged] handler. *)

From Stdlib Require Import ZArith List String Ascii Bool Floats Lia.
From Stdlib Require Import DecimalString Sorted.
From stdpp Require Import base option list gmap strings.

#[local] Set Warnings "-inexact-float".
#[local] Open Scope string_scope.
#[local] Open Scope list_scope.
#[local] Open Scope Z_scope.

(** ** Python primitives *)

Module Py.

(** The exception classes the modelled code can meet. *)
Inductive exn :=
| IndexError
| TypeError
| ValueError
| ZeroDivisionError
| OverflowError
| UnboundLocalError
| AttributeError
| FileNotFoundError
| PermissionError
| UnicodeDecodeError
| Exception (msg : string).

Inductive result (A : Type) :=
| Ok (a : A)
| Raise (e : exn).
Arguments Ok {A} a.
Arguments Raise {A} e.

#[export] Instance result_ret : MRet result := fun _ a => Ok a.
#[export] Instance result_bind : MBind result := fun _ _ f m =>
  match m with
  | Ok a => f a
  | Raise e => Raise e
  end.

(** [try: body except classes: handler] *)
Definition try_except {A} (body : result A) (catches : exn -> bool)
    (handler : exn -> result A) : result A :=
  match body with
  | Ok a => Ok a
  | Raise e => if catches e then handler e else Raise e
  end.

(** [d.get(key, default)] on a field that may be missing. *)
Definition get {A} (field : option A) (dflt : A) : A :=
  match field with
  | Some a => a
  | None => dflt
  end.

(** [len(l)] *)
Definition len {A} (l : list A) : Z := Z.of_nat (length l).

(** [l[i]]: negative indices count from the end; out of range raises. *)
Definition index {A} (l : list A) (i : Z) : result A :=
  let j := if i <? 0 then i + len l else i in
  if (0 <=? j) && (j <? len l) then
    match l !! Z.to_nat j with
    | Some a => Ok a
    | None => Raise IndexError
    end
  else Raise IndexError.

(** [l.pop(i)]: the element removed and the list without it. *)
Definition pop {A} (l : list A) (i : Z) : result (A * list A) :=
  let j := if i <? 0 then i + len l else i in
  a ← index l i;
  Ok (a, delete (Z.to_nat j) l).

(** [l[i] = a] *)
Definition setitem {A} (l : list A) (i : Z) (a : A) : result (list A) :=
  let j := if i <? 0 then i + len l else i in
  if (0 <=? j) && (j <? len l) then Ok (<[Z.to_nat j := a]> l)
  else Raise IndexError.

(** *** Strings *)

(** White space as [str.strip()] and [int()] see it, ASCII only:
    tab, line feed, vertical tab, form feed, carriage return, the four
    separators 0x1c-0x1f, and space. *)
Definition isspace (c : ascii) : bool :=
  let n := nat_of_ascii c in
  ((9 <=? n) && (n <=? 13) || (28 <=? n) && (n <=? 32))%nat.

Definition isdigit (c : ascii) : bool :=
  let n := nat_of_ascii c in ((48 <=? n) && (n <=? 57))%nat.

Fixpoint lstrip_with (drop : ascii -> bool) (s : string) : string :=
  match s with
  | String c s' => if drop c then lstrip_with drop s' else s
  | EmptyString => EmptyString
  end.

Fixpoint rstrip_with (drop : ascii -> bool) (s : string) : string :=
  match s with
  | String c s' =>
      match rstrip_with drop s' with
      | EmptyString => if drop c then EmptyString else String c EmptyString
      | t => String c t
      end
  | EmptyString => EmptyString
  end.

(** [s.strip()] *)
Definition strip (s : string) : string :=
  rstrip_with isspace (lstrip_with isspace s).

(** [s.strip(ch)] for a one-character argument *)
Definition strip_char (ch : ascii) (s : string) : string :=
  rstrip_with (Ascii.eqb ch) (lstrip_with (Ascii.eqb ch) s).

(** The double quote, the character [load_classes] strips from a name *)
Definition dquote : ascii := ascii_of_nat 34.

(** [s.startswith(prefix)] *)
Definition startswith (s pre : string) : bool := String.prefix pre s.

(** [ch in s] for a one-character [ch] *)
Fixpoint contains (ch : ascii) (s : string) : bool :=
  match s with
  | String c s' => Ascii.eqb ch c || contains ch s'
  | EmptyString => false
  end.

(** [s.split(sep)] for a one-character separator: never empty. *)
Fixpoint split (sep : ascii) (s : string) : list string :=
  match s with
  | EmptyString => [EmptyString]
  | String c s' =>
      if Ascii.eqb sep c then EmptyString :: split sep s'
      else
        match split sep s' with
        | p :: ps => String c p :: ps
        | [] => [String c EmptyString]
        end
  end.

(** [s.split(sep, 1)]: at most one cut, at the first separator. *)
Fixpoint split1 (sep : ascii) (s : string) : list string :=
  match s with
  | EmptyString => [EmptyString]
  | String c s' =>
      if Ascii.eqb sep c then [EmptyString; s']
      else
        match split1 sep s' with
        | p :: ps => String c p :: ps
        | [] => [String c EmptyString]
        end
  end.

(** [s[1:]] *)
Definition tail (s : string) : string :=
  match s with
  | String _ s' => s'
  | EmptyString => EmptyString
  end.

(** The digits of a decimal literal: one or more digits, single
    underscores allowed between two digits. [seen] tells whether the
    previous character was a digit. *)
Fixpoint digits (s : string) (acc : Z) (seen : bool) : option Z :=
  match s with
  | EmptyString => if seen then Some acc else None
  | String c s' =>
      if isdigit c then
        digits s' (10 * acc + (Z.of_nat (nat_of_ascii c) - 48)) true
      else if Ascii.eqb c "_" then
        if seen then digits s' acc false else None
      else None
  end.

(** [int(s)] in base 10: surrounding white space, an optional sign, then
    the digits; anything else raises [ValueError]. *)
Definition int (s : string) : result Z :=
  let body := strip s in
  let '(neg, ds) :=
    match body with
    | String "-" t => (true, t)
    | String "+" t => (false, t)
    | _ => (false, body)
    end in
  match digits ds 0 false with
  | Some n => Ok (if neg then - n else n)
  | None => Raise ValueError
  end.

(** [str(n)] for an integer *)
Definition str (n : Z) : string :=
  NilZero.string_of_int (Z.to_int n).

(** *** Floats *)

(** [float(n)] as the mixed arithmetic [n * f] and [n / f] performs it:
    round to nearest, ties to even; an integer beyond the binary64 range
    raises. *)
Definition float_of_int (n : Z) : result float :=
  let f := SF2Prim (binary_normalize prec emax n 0 false) in
  if PrimFloat.is_infinity f then Raise OverflowError else Ok f.

(** [int(f)]: truncation towards zero; infinities and NaN raise. *)
Definition int_of_float (f : float) : result Z :=
  match Prim2SF f with
  | S754_zero _ => Ok 0
  | S754_infinity _ => Raise OverflowError
  | S754_nan => Raise ValueError
  | S754_finite s m e =>
      let a := if 0 <=? e then Z.pos m * 2 ^ e else Z.pos m / 2 ^ (- e) in
      Ok (if s then - a else a)
  end.

(** [n * f] with [n] an integer *)
Definition int_mul_float (n : Z) (f : float) : result float :=
  x ← float_of_int n; Ok (x * f)%float.

(** [n / f] with [n] an integer: a zero divisor raises. *)
Definition int_div_float (n : Z) (f : float) : result float :=
  x ← float_of_int n;
  if (f =? 0)%float then Raise ZeroDivisionError else Ok (x / f)%float.

(** [a / b] on floats *)
Definition float_div (a b : float) : result float :=
  if (b =? 0)%float then Raise ZeroDivisionError else Ok (a / b)%float.

(** [min(a, b)] and [max(a, b)]: the first argument wins unless the
    second is strictly better. *)
Definition min (a b : float) : float := if (b <? a)%float then b else a.
Definition max (a b : float) : float := if (a <? b)%float then b else a.

(** *** More on strings *)

(** [s.replace(old, new)] for one-character [old] and [new] *)
Fixpoint replace (old new : ascii) (s : string) : string :=
  match s with
  | String c s' =>
      String (if Ascii.eqb c old then new else c) (replace old new s')
  | EmptyString => EmptyString
  end.

(** [sep.join(parts)] for a one-character separator *)
Fixpoint join (sep : ascii) (parts : list string) : string :=
  match parts with
  | [] => EmptyString
  | [part] => part
  | part :: rest => part +:+ String sep (join sep rest)
  end.

(** The backslash *)
Definition backslash : ascii := ascii_of_nat 92.

End Py.

Import Py.

(** ** The class catalog *)

Module ClassManager.

(** What [open(classes_file_path)] and the iteration over its lines can
    do: the file is missing, opening fails otherwise, or the lines are
    delivered, possibly followed by a decoding error. *)
Inductive file :=
| Missing
| Unreadable
| Lines (lines : list string) (decoded : bool).

(** The catalog used when the file is not found. *)
Definition default_classes : gmap Z string :=
  <[0 := "废丝"]> (<[1 := "大糙"]> (<[2 := "粘附糙"]> (<[3 := "大长结"]>
  (<[4 := "重螺旋"]> (<[5 := "小糙"]> (<[6 := "长结"]> (<[7 := "螺旋"]>
  (<[8 := "环及裂丝"]> (<[9 := "特大糙疵"]> (<[10 := "洁净度"]>
  (<[11 := "非缺陷"]> ∅))))))))))).

(** The catalog used when loading fails in any other way. *)
Definition error_classes : gmap Z string :=
  <[11 := "非缺陷"]> (<[1 := "缺陷"]> ∅).

(** The body of the loop over the lines of the file. *)
Definition load_line (classes : gmap Z string) (line : string)
    : result (gmap Z string) :=
  let line := Py.strip line in
  if negb (String.eqb line "") && Py.contains "," line then
    let parts := Py.split1 "," line in
    p0 ← Py.index parts 0;
    class_id ← Py.int p0;
    p1 ← Py.index parts 1;
    let class_name := Py.strip_char Py.dquote p1 in
    Ok (<[class_id := class_name]> classes)
  else Ok classes.

Fixpoint load_lines (classes : gmap Z string) (lines : list string)
    : result (gmap Z string) :=
  match lines with
  | [] => Ok classes
  | line :: rest => classes' ← load_line classes line; load_lines classes' rest
  end.

(** [load_classes]: [classes] is [self.classes] on entry ([{}] when called
    from [__init__]); the result is [self.classes] on return. The two
    handlers replace whatever the loop had stored. *)
Definition load_classes (classes : gmap Z string) (f : file) : gmap Z string :=
  let body :=
    match f with
    | Missing => Raise FileNotFoundError
    | Unreadable => Raise PermissionError
    | Lines lines decoded =>
        classes' ← load_lines classes lines;
        if decoded then Ok classes' else Raise UnicodeDecodeError
    end in
  match body with
  | Ok classes' => classes'
  | Raise FileNotFoundError => default_classes
  | Raise _ => error_classes
  end.

(** [ClassManager(classes_file_path)] *)
Definition init (f : file) : gmap Z string := load_classes ∅ f.



(** [get_class_name(class_id)] *)
Definition get_class_name (classes : gmap Z string) (class_id : Z) : string :=
  Py.get (classes !! class_id) ("未知类别(" +:+ Py.str class_id +:+ ")").

(** [get_all_classes()] *)
Definition get_all_classes (classes : gmap Z string) : gmap Z string :=
  classes.


End ClassManager.

(** ** The data model: the dicts of the JSON document

    Each record has the keys that the data model names; [eqb] is the
    equality of [==] on two such dicts, key by key, floats compared as
    IEEE numbers. *)

(** One candidate of [label_confidence]. *)
Module LabelConf.
Record t := mk {
  label : option Z;
  confidence : option float;
}.

(** [a == b] on two such dicts *)
Definition eqb (a b : t) : bool :=
  match label a, label b with
  | Some m, Some n => m =? n
  | None, None => true
  | _, _ => false
  end
  &&
  match confidence a, confidence b with
  | Some f, Some g => (f =? g)%float
  | None, None => true
  | _, _ => false
  end.

End LabelConf.

(** One defect region. *)
Module Region.
Record t := mk {
  final_label_index : option Z;
  height : option Z;
  imgPath : option string;
  isSure : option bool;
  label_confidence : option (list LabelConf.t);
  modified_status : option Z;
  width : option Z;
  x : option Z;
  y : option Z;
  yolo_confidence : option float;
}.

Definition set_modified_status (v : Z) (r : t) : t :=
  {| final_label_index := final_label_index r; height := height r;
     imgPath := imgPath r; isSure := isSure r;
     label_confidence := label_confidence r; modified_status := Some v;
     width := width r; x := x r; y := y r;
     yolo_confidence := yolo_confidence r |}.

Definition set_label_confidence (v : list LabelConf.t) (r : t) : t :=
  {| final_label_index := final_label_index r; height := height r;
     imgPath := imgPath r; isSure := isSure r;
     label_confidence := Some v; modified_status := modified_status r;
     width := width r; x := x r; y := y r;
     yolo_confidence := yolo_confidence r |}.

Definition opt_eqb {A} (e : A -> A -> bool) (a b : option A) : bool :=
  match a, b with
  | Some m, Some n => e m n
  | None, None => true
  | _, _ => false
  end.

Fixpoint list_eqb {A} (e : A -> A -> bool) (a b : list A) : bool :=
  match a, b with
  | [], [] => true
  | m :: a', n :: b' => e m n && list_eqb e a' b'
  | _, _ => false
  end.

(** [a == b] on two region dicts *)
Definition eqb (a b : t) : bool :=
  opt_eqb Z.eqb (final_label_index a) (final_label_index b)
  && opt_eqb Z.eqb (height a) (height b)
  && opt_eqb String.eqb (imgPath a) (imgPath b)
  && opt_eqb Bool.eqb (isSure a) (isSure b)
  && opt_eqb (list_eqb LabelConf.eqb) (label_confidence a) (label_confidence b)
  && opt_eqb Z.eqb (modified_status a) (modified_status b)
  && opt_eqb Z.eqb (width a) (width b)
  && opt_eqb Z.eqb (x a) (x b)
  && opt_eqb Z.eqb (y a) (y b)
  && opt_eqb PrimFloat.eqb (yolo_confidence a) (yolo_confidence b).
End Region.

(** One captured image, an element of [all_pic_info]. *)
Module PicInfo.
Record t := mk {
  connectButtonName : option string;
  column : option Z;
  index : option Z;
  imgPath : option string;
  regions : option (list Region.t);
}.

(** [a == b] on two such dicts *)
Definition eqb (a b : t) : bool :=
  Region.opt_eqb String.eqb (connectButtonName a) (connectButtonName b)
  && Region.opt_eqb Z.eqb (column a) (column b)
  && Region.opt_eqb Z.eqb (index a) (index b)
  && Region.opt_eqb String.eqb (imgPath a) (imgPath b)
  && Region.opt_eqb (Region.list_eqb Region.eqb) (regions a) (regions b).
End PicInfo.

(** The three copies of [get_region_class_id] (in [ImageLabel],
    [DetailDialog] and [ImageButton]) share this body. *)
Definition get_region_class_id_body (region : Region.t) : result Z :=
  Py.try_except
    (let final_label_index := Py.get (Region.final_label_index region) 0 in
     let label_confidence := Py.get (Region.label_confidence region) [] in
     if (0 <=? final_label_index) && (final_label_index <? Py.len label_confidence)
     then
       c ← Py.index label_confidence final_label_index;
       Ok (Py.get (LabelConf.label c) 11)
     else
       match label_confidence with
       | _ :: _ =>
           c ← Py.index label_confidence 0;
           Ok (Py.get (LabelConf.label c) 11)
       | [] => Ok 11
       end)
    (fun e => match e with IndexError | TypeError => true | _ => false end)
    (fun _ => Ok 11).

(** ** The image label: viewport state, hit-testing, wheel zoom *)

Module ImageLabel.

(** The attributes of the widget that the modelled code reads or writes.
    [self.regions] is the list object of the button, passed where needed.
    [original_pixmap] is the size of the loaded pixmap, [scroll_area]
    tells whether [set_scroll_area] has run. *)
Record t := mk {
  original_pixmap : option (Z * Z);
  scale_factor : float;
  zoom_factor : float;
  selected_region_index : Z;
  regions_visible : bool;
  add_defect_mode : bool;
  drawing : bool;
  scroll_area : bool;
}.

Definition set_scale_factor (v : float) (l : t) : t :=
  {| original_pixmap := original_pixmap l; scale_factor := v;
     zoom_factor := zoom_factor l;
     selected_region_index := selected_region_index l;
     regions_visible := regions_visible l;
     add_defect_mode := add_defect_mode l; drawing := drawing l;
     scroll_area := scroll_area l |}.

Definition set_zoom_factor (v : float) (l : t) : t :=
  {| original_pixmap := original_pixmap l; scale_factor := scale_factor l;
     zoom_factor := v;
     selected_region_index := selected_region_index l;
     regions_visible := regions_visible l;
     add_defect_mode := add_defect_mode l; drawing := drawing l;
     scroll_area := scroll_area l |}.

Definition set_selected_region_index (v : Z) (l : t) : t :=
  {| original_pixmap := original_pixmap l; scale_factor := scale_factor l;
     zoom_factor := zoom_factor l;
     selected_region_index := v;
     regions_visible := regions_visible l;
     add_defect_mode := add_defect_mode l; drawing := drawing l;
     scroll_area := scroll_area l |}.

Definition set_original_pixmap (v : option (Z * Z)) (l : t) : t :=
  {| original_pixmap := v; scale_factor := scale_factor l;
     zoom_factor := zoom_factor l;
     selected_region_index := selected_region_index l;
     regions_visible := regions_visible l;
     add_defect_mode := add_defect_mode l; drawing := drawing l;
     scroll_area := scroll_area l |}.

Definition set_mode (mode drawing' : bool) (l : t) : t :=
  {| original_pixmap := original_pixmap l; scale_factor := scale_factor l;
     zoom_factor := zoom_factor l;
     selected_region_index := selected_region_index l;
     regions_visible := regions_visible l;
     add_defect_mode := mode; drawing := drawing';
     scroll_area := scroll_area l |}.

(** [ImageLabel()] *)
Definition init : t :=
  {| original_pixmap := None; scale_factor := 1.0; zoom_factor := 1.0;
     selected_region_index := -1; regions_visible := true;
     add_defect_mode := false; drawing := false; scroll_area := false |}.

Definition get_region_class_id := get_region_class_id_body.

(** [int(n * f)] *)
Definition scaled (n : Z) (f : float) : result Z :=
  v ← Py.int_mul_float n f; Py.int_of_float v.

(** [update_display]: the part that feeds back into the state. Without a
    pixmap nothing happens; a displayed size with a dimension at or
    below zero returns early; an exception in the size computation is
    caught by the handler, which redraws the original pixmap. Only a
    positive size commits [scale_factor]. *)
Definition update_display (l : t) : t :=
  match original_pixmap l with
  | None => l
  | Some (w, h) =>
      match (new_width ← scaled w (zoom_factor l);
             new_height ← scaled h (zoom_factor l);
             Ok (new_width, new_height)) with
      | Ok (new_width, new_height) =>
          if (new_width <=? 0) || (new_height <=? 0) then l
          else set_scale_factor (zoom_factor l) l
      | Raise _ => l
      end
  end.

(** [set_image_and_regions]: [loaded] is what the path gives: [None] for
    an empty or missing path (early return), otherwise the size of the
    pixmap read, the null pixmap being [(0, 0)]. *)
Definition set_image_and_regions (loaded : option (Z * Z)) (l : t) : t :=
  match loaded with
  | None => l
  | Some (w, h) =>
      let l := set_original_pixmap (Some (w, h)) l in
      if (w =? 0) && (h =? 0) then l else update_display l
  end.

Definition set_selected_region (region_index : Z) (l : t) : t :=
  update_display (set_selected_region_index region_index l).

(** [focus_on_region]: the deferred scroll to the region is a timer
    callback that touches scroll bars only. *)
Definition focus_on_region (regions : list Region.t) (region_index : Z)
    (l : t) : t :=
  if (0 <=? region_index) && (region_index <? Py.len regions) then
    update_display
      (set_selected_region_index region_index (set_zoom_factor 1.0 l))
  else l.

Definition set_add_defect_mode (enabled : bool) (l : t) : t :=
  if enabled then set_mode true (drawing l) l
  else update_display (set_mode false false l).

(** The signals a left click can emit. *)
Inductive signal :=
| region_clicked (i : Z)
| region_unselected.

(** The screen-space box of a region: [(x, y, width, height)]. *)
Definition screen_box (scale : float) (region : Region.t)
    : result (Z * Z * Z * Z) :=
  x ← scaled (Py.get (Region.x region) 0) scale;
  y ← scaled (Py.get (Region.y region) 0) scale;
  width ← scaled (Py.get (Region.width region) 0) scale;
  height ← scaled (Py.get (Region.height region) 0) scale;
  Ok (x, y, width, height).

Definition box_contains (box : Z * Z * Z * Z) (px py : Z) : bool :=
  let '(x, y, width, height) := box in
  (x <=? px) && (px <=? x + width) && (y <=? py) && (py <=? y + height).

(** The loop [for i, region in enumerate(self.regions)] with its [break];
    [i] is the index of the head of [regions]. Falling off the end is
    [region_found = False]. *)
Fixpoint find_region (scale : float) (px py : Z) (regions : list Region.t)
    (i : Z) : result signal :=
  match regions with
  | [] => Ok region_unselected
  | region :: rest =>
      box ← screen_box scale region;
      if box_contains box px py then Ok (region_clicked i)
      else find_region scale px py rest (i + 1)
  end.

(** [mouseReleaseEvent], left button released without panning: the
    signal emitted for a click at [(px, py)]. *)
Definition mouseReleaseEvent_click (regions : list Region.t) (l : t)
    (px py : Z) : result signal :=
  match regions with
  | _ :: _ => find_region (scale_factor l) px py regions 0
  | [] => Ok region_unselected
  end.

(** [max(0.1, min(5.0, z))] *)
Definition clamp_zoom (z : float) : float := Py.max 0.1 (Py.min 5.0 z).

(** [wheelEvent]: [delta] is [event.angleDelta().y()]. The scroll bar
    arithmetic that follows the redraw does not feed back into the zoom
    and is left out. *)
Definition wheelEvent (delta : Z) (l : t) : t :=
  match original_pixmap l with
  | Some _ =>
      if scroll_area l then
        let old_zoom_factor := zoom_factor l in
        let zoom_step := 0.1%float in
        let z :=
          if 0 <? delta then (old_zoom_factor * (1 + zoom_step))%float
          else (old_zoom_factor * (1 - zoom_step))%float in
        let l := set_zoom_factor (clamp_zoom z) l in
        if (PrimFloat.abs (zoom_factor l - old_zoom_factor) <? 0.001)%float
        then l
        else update_display l
      else l
  | None => l
  end.

(** [self.regions_visible = v], written by the dialog. *)
Definition set_regions_visible (v : bool) (l : t) : t :=
  {| original_pixmap := original_pixmap l; scale_factor := scale_factor l;
     zoom_factor := zoom_factor l;
     selected_region_index := selected_region_index l;
     regions_visible := v;
     add_defect_mode := add_defect_mode l; drawing := drawing l;
     scroll_area := scroll_area l |}.

(** [set_scroll_area(scroll_area)] *)
Definition set_scroll_area (l : t) : t :=
  {| original_pixmap := original_pixmap l; scale_factor := scale_factor l;
     zoom_factor := zoom_factor l;
     selected_region_index := selected_region_index l;
     regions_visible := regions_visible l;
     add_defect_mode := add_defect_mode l; drawing := drawing l;
     scroll_area := true |}.

(** *** The mouse *)

(** A scroll bar: its value and its maximum; its minimum is 0. *)
Record scrollbar := mkScrollbar {
  value : Z;
  maximum : Z;
}.

(** [setValue(v)]: the bar stores the value brought into its range. *)
Definition setValue (v : Z) (bar : scrollbar) : scrollbar :=
  {| value := Z.max 0 (Z.min (maximum bar) v); maximum := maximum bar |}.

(** The scroll area around the label: the size of its viewport and its
    two scroll bars. *)
Record viewport := mkViewport {
  viewport_width : Z;
  viewport_height : Z;
  h_scrollbar : scrollbar;
  v_scrollbar : scrollbar;
}.

(** The label with the attributes that the mouse handlers use. [area] is
    the scroll area of [set_scroll_area], read only when [scroll_area] is
    set. The rectangle [current_rect] is painted and not read otherwise;
    it is left out. *)
Record view := mkView {
  label : t;
  panning : bool;
  pan_start_point : Z * Z;
  start_point : Z * Z;
  end_point : Z * Z;
  area : viewport;
}.

Inductive button := LeftButton | RightButton | OtherButton.

(** [self.click_threshold] *)
Definition click_threshold : Z := 5.

(** [(a - b).manhattanLength()] *)
Definition manhattanLength (a b : Z * Z) : Z :=
  Z.abs (a.1 - b.1) + Z.abs (a.2 - b.2).

(** [mousePressEvent]: [button] is [event.button()], [click_pos] the
    position. *)
Definition mousePressEvent (button : button) (click_pos : Z * Z) (s : view)
    : view :=
  match button with
  | RightButton =>
      if add_defect_mode (label s) then
        {| label := set_mode (add_defect_mode (label s)) true (label s);
           panning := panning s; pan_start_point := pan_start_point s;
           start_point := click_pos; end_point := click_pos;
           area := area s |}
      else s
  | LeftButton =>
      {| label := label s; panning := false; pan_start_point := click_pos;
         start_point := start_point s; end_point := end_point s;
         area := area s |}
  | OtherButton => s
  end.

(** [mouseMoveEvent]: [left_held] tells whether [event.buttons()] holds
    the left button, [current_pos] is the position. *)
Definition mouseMoveEvent (left_held : bool) (current_pos : Z * Z) (s : view)
    : view :=
  if drawing (label s) && add_defect_mode (label s) then
    {| label := label s; panning := panning s;
       pan_start_point := pan_start_point s;
       start_point := start_point s; end_point := current_pos;
       area := area s |}
  else if left_held then
    let panning' :=
      if negb (panning s) then
        let distance := manhattanLength current_pos (pan_start_point s) in
        if click_threshold <? distance then true else panning s
      else panning s in
    if panning' && scroll_area (label s) then
      let delta_x := current_pos.1 - (pan_start_point s).1 in
      let delta_y := current_pos.2 - (pan_start_point s).2 in
      let h_scroll := h_scrollbar (area s) in
      let v_scroll := v_scrollbar (area s) in
      {| label := label s; panning := panning';
         pan_start_point := current_pos;
         start_point := start_point s; end_point := end_point s;
         area :=
           {| viewport_width := viewport_width (area s);
              viewport_height := viewport_height (area s);
              h_scrollbar := setValue (value h_scroll - delta_x) h_scroll;
              v_scrollbar := setValue (value v_scroll - delta_y) v_scroll |}
      |}
    else
      {| label := label s; panning := panning';
         pan_start_point := pan_start_point s;
         start_point := start_point s; end_point := end_point s;
         area := area s |}
  else s.

(** What [mouseReleaseEvent] emits. *)
Inductive emission :=
| nothing
| new_region_created (x y width height : Z)
| selection (sig : signal).

Section Release.

(** [QRect(start_point, end_point).normalized()], by its [x()], [y()],
    [width()] and [height()]. *)
Variable normalized : Z * Z -> Z * Z -> Z * Z * Z * Z.

(** [mouseReleaseEvent]: [button] is [event.button()], [pos] the
    position, [regions] the list [self.regions]. *)
Definition mouseReleaseEvent (button : button) (pos : Z * Z)
    (regions : list Region.t) (s : view) : result (view * emission) :=
  match button with
  | RightButton =>
      if drawing (label s) && add_defect_mode (label s) then
        let s :=
          {| label := set_mode (add_defect_mode (label s)) false (label s);
             panning := panning s; pan_start_point := pan_start_point s;
             start_point := start_point s; end_point := pos;
             area := area s |} in
        let '(x, y, width, height) :=
          normalized (start_point s) (end_point s) in
        if (10 <=? width) && (10 <=? height)
        then Ok (s, new_region_created x y width height)
        else Ok (s, nothing)
      else Ok (s, nothing)
  | LeftButton =>
      if panning s then
        Ok ({| label := label s; panning := false;
               pan_start_point := pan_start_point s;
               start_point := start_point s; end_point := end_point s;
               area := area s |}, nothing)
      else
        sig ← mouseReleaseEvent_click regions (label s) pos.1 pos.2;
        Ok (s, selection sig)
  | OtherButton => Ok (s, nothing)
  end.

End Release.

(** [_scroll_to_region_center]: [found] tells whether a [QScrollArea] is
    among the ancestors of the label; it is then [area]. *)
Definition _scroll_to_region_center (regions : list Region.t)
    (region_index : Z) (found : bool) (s : view) : result view :=
  if (0 <=? region_index) && (region_index <? Py.len regions) then
    region ← Py.index regions region_index;
    '(x, y, width, height) ← screen_box (scale_factor (label s)) region;
    let center_x := x + width / 2 in
    let center_y := y + height / 2 in
    if found then
      let target_x := Z.max 0 (center_x - viewport_width (area s) / 2) in
      let target_y := Z.max 0 (center_y - viewport_height (area s) / 2) in
      let h_scrollbar' :=
        let max_h := maximum (h_scrollbar (area s)) in
        let target_x := Z.min target_x max_h in
        setValue target_x (h_scrollbar (area s)) in
      let v_scrollbar' :=
        let max_v := maximum (v_scrollbar (area s)) in
        let target_y := Z.min target_y max_v in
        setValue target_y (v_scrollbar (area s)) in
      Ok {| label := label s; panning := panning s;
            pan_start_point := pan_start_point s;
            start_point := start_point s; end_point := end_point s;
            area :=
              {| viewport_width := viewport_width (area s);
                 viewport_height := viewport_height (area s);
                 h_scrollbar := h_scrollbar';
                 v_scrollbar := v_scrollbar' |} |}
    else Ok s
  else Ok s.

End ImageLabel.

(** ** The image button *)

Module ImageButton.

Definition get_region_class_id := get_region_class_id_body.

(** [count_cleanliness_regions]: the regions of class 10. *)
Fixpoint count_cleanliness_regions (regions : list Region.t) : result Z :=
  match regions with
  | [] => Ok 0
  | region :: rest =>
      class_id ← get_region_class_id region;
      n ← count_cleanliness_regions rest;
      Ok (if class_id =? 10 then n + 1 else n)
  end.

(** The dict that [check_confirmation_status] returns. *)
Record confirmation := mkConfirmation {
  total : Z;
  confirmed : Z;
  unconfirmed : Z;
}.

(** The loop of [check_confirmation_status], from the two counters. *)
Fixpoint count_confirmed (regions : list Region.t) (confirmed unconfirmed : Z)
    : Z * Z :=
  match regions with
  | [] => (confirmed, unconfirmed)
  | region :: rest =>
      let modified_status := Py.get (Region.modified_status region) 0 in
      if 0 <? modified_status
      then count_confirmed rest (confirmed + 1) unconfirmed
      else count_confirmed rest confirmed (unconfirmed + 1)
  end.

Definition check_confirmation_status (regions : list Region.t)
    : confirmation :=
  match regions with
  | [] => mkConfirmation 0 0 0
  | _ :: _ =>
      let total := Py.len regions in
      let '(confirmed, unconfirmed) := count_confirmed regions 0 0 in
      mkConfirmation total confirmed unconfirmed
  end.

(** The three style sheets of a button: the orange one warns of regions
    not yet confirmed, the red one is for regions that are all confirmed,
    the green one for an image without regions. *)
Inductive style := Orange | Red | Green.

(** The line feed of the button text. *)
Definition nl : string := String (ascii_of_nat 10) EmptyString.

(** What the button shows: [setText] and [setStyleSheet]. *)
Record face := mkFace {
  text : string;
  style_sheet : style;
}.

(** The attributes of the button. [regions] is the list object that the
    detail dialog edits in place. *)
Record t := mk {
  button_name : string;
  img_path : string;
  regions : list Region.t;
  column : Z;
  index : Z;
  shown : face;
}.

(** [button.regions] after the dialog changed the list in place. *)
Definition set_regions (v : list Region.t) (b : t) : t :=
  {| button_name := button_name b; img_path := img_path b; regions := v;
     column := column b; index := index b; shown := shown b |}.

Definition set_shown (v : face) (b : t) : t :=
  {| button_name := button_name b; img_path := img_path b;
     regions := regions b; column := column b; index := index b;
     shown := v |}.

(** [ImageButton(button_name, pic_info)] *)
Definition init (button_name : string) (pic_info : PicInfo.t) : result t :=
  let img_path := Py.get (PicInfo.imgPath pic_info) "" in
  let regions := Py.get (PicInfo.regions pic_info) [] in
  let column := Py.get (PicInfo.column pic_info) 0 in
  let index := Py.get (PicInfo.index pic_info) 0 in
  cleanliness_count ← count_cleanliness_regions regions;
  let confirmation_status := check_confirmation_status regions in
  let confirmation_text :=
    if 0 <? total confirmation_status then
      nl +:+ "确认: " +:+ Py.str (confirmed confirmation_status)
      +:+ "/" +:+ Py.str (total confirmation_status)
    else "" in
  let text :=
    button_name +:+ nl +:+ "区域: " +:+ Py.str (Py.len regions)
    +:+ nl +:+ "洁净度: " +:+ Py.str cleanliness_count
    +:+ confirmation_text in
  let style_sheet :=
    if (0 <? total confirmation_status)
       && (0 <? unconfirmed confirmation_status)
    then Orange
    else match regions with
         | _ :: _ => Red
         | [] => Green
         end in
  Ok {| button_name := button_name; img_path := img_path;
        regions := regions; column := column; index := index;
        shown := mkFace text style_sheet |}.

End ImageButton.

(** ** What the user sees of Qt *)

Module Qt.

(** A [QMessageBox] shown to the user, by its kind and title. *)
Inductive message :=
| information (title : string)
| warning (title : string)
| critical (title : string).

(** The answer to a [QMessageBox.question]. *)
Inductive reply := Yes | No.

(** The value a [QSpinBox] of range [lo..hi] stores for [setValue(v)]. *)
Definition bound (lo hi v : Z) : Z := Z.max lo (Z.min hi v).

End Qt.

(** ** Sorting as [list.sort(key=...)] does: stable *)

Section Sort.
Context {A : Type} (le : A -> A -> bool).

(** [a] goes before the first element it is not greater than, hence
    before the elements of equal key that followed it in the input. *)
Fixpoint insert_sorted (a : A) (l : list A) : list A :=
  match l with
  | [] => [a]
  | b :: l' => if le a b then a :: b :: l' else b :: insert_sorted a l'
  end.

Definition sort (l : list A) : list A := foldr insert_sorted [] l.

(** The index of the first element that satisfies [f], as
    [list.index] finds it. *)
Fixpoint find_index (f : A -> bool) (l : list A) : option Z :=
  match l with
  | [] => None
  | a :: l' => if f a then Some 0 else Z.succ <$> find_index f l'
  end.

End Sort.

(** ** The board view: the layout of the buttons *)

Module BoardView.

(** A button added to the grid: [addWidget(button, row, col)]. *)
Record placement := mk {
  button_name : string;
  row : Z;
  col : Z;
}.

(** The nested function [extract_number]. Its body raises nothing but
    [ValueError] (from [int]) and [IndexError], and both are caught. *)
Definition extract_number (pic_info : PicInfo.t) : Z :=
  let button_name := Py.get (PicInfo.connectButtonName pic_info) "" in
  let parts := Py.split "_" button_name in
  if 2 <=? Py.len parts then
    match p ← Py.index parts 1; Py.int p with
    | Ok n => n
    | Raise _ => 0
    end
  else 0.

(** The elements of [pic_info_list] with their positions, which stand for
    the identity of the dict objects. *)
Definition enumerate (pic_info_list : list PicInfo.t)
    : list (nat * PicInfo.t) :=
  imap (fun i p => (i, p)) pic_info_list.

(** [[p for p in pic_info_list if p.get('column') == column and
     p.get('connectButtonName', '').startswith(camera)]], sorted by
    [extract_number]. *)
Definition pics_in_column (pic_info_list : list PicInfo.t) (column : Z)
    (camera : string) : list (nat * PicInfo.t) :=
  sort (fun a b => extract_number a.2 <=? extract_number b.2)
    (List.filter
       (fun e =>
          Region.opt_eqb Z.eqb (PicInfo.column e.2) (Some column)
          && Py.startswith (Py.get (PicInfo.connectButtonName e.2) "") camera)
       (enumerate pic_info_list)).

(** [e is pic_info or e == pic_info], the test of [in] and [index]. *)
Definition same (k : nat) (pic_info : PicInfo.t) (e : nat * PicInfo.t)
    : bool :=
  (e.1 =? k)%nat || PicInfo.eqb e.2 pic_info.

(** [pics_in_column.index(pic_info)], [None] when it is not [in] it. *)
Definition index_in_column (pic_info_list : list PicInfo.t) (column : Z)
    (camera : string) (k : nat) (pic_info : PicInfo.t) : option Z :=
  find_index (same k pic_info) (pics_in_column pic_info_list column camera).

(** [column in [3, 4, 7, 8]] *)
Definition reversed_column (column : Z) : bool :=
  (column =? 3) || (column =? 4) || (column =? 7) || (column =? 8).

(** The row chosen on the front side for one camera. *)
Definition front_row (pic_info_list : list PicInfo.t) (column : Z)
    (camera : string) (k : nat) (pic_info : PicInfo.t) : Z :=
  match index_in_column pic_info_list column camera k pic_info with
  | Some index_in_column =>
      if reversed_column column then index_in_column + 1
      else 5 - index_in_column
  | None => 1
  end.

(** The row chosen on the back side for one camera. *)
Definition back_row (pic_info_list : list PicInfo.t) (column : Z)
    (camera : string) (k : nat) (pic_info : PicInfo.t) : Z :=
  match index_in_column pic_info_list column camera k pic_info with
  | Some index_in_column =>
      if reversed_column column then 5 - index_in_column
      else index_in_column + 1
  | None => 1
  end.

(** [is_front]: decided once, from the first element. *)
Definition is_front (pic_info_list : list PicInfo.t) : bool :=
  match pic_info_list with
  | first :: _ => extract_number first <=? 25
  | [] => true
  end.

(** One turn of the loop over [pic_info_list]. [row] is the local
    variable of that name: it keeps its value from the previous turn
    when neither camera prefix matches, and is unbound before the first
    assignment. [buttons] is [self.buttons]. *)
Definition place (front : bool) (pic_info_list : list PicInfo.t)
    (k : nat) (pic_info : PicInfo.t) (row : option Z)
    (buttons : list placement) : result (option Z * list placement) :=
  let button_name :=
    Py.get (PicInfo.connectButtonName pic_info)
      ("img_" +:+ Py.str (Py.len buttons + 1)) in
  let column := Py.get (PicInfo.column pic_info) 1 in
  let row :=
    if front then
      if Py.startswith button_name "p1_" then
        Some (front_row pic_info_list column "p1_" k pic_info)
      else if Py.startswith button_name "p2_" then
        Some (front_row pic_info_list column "p2_" k pic_info)
      else row
    else
      if Py.startswith button_name "p1_" then
        Some (back_row pic_info_list column "p1_" k pic_info)
      else if Py.startswith button_name "p2_" then
        Some (back_row pic_info_list column "p2_" k pic_info)
      else row in
  let col := column - 1 in
  match row with
  | Some r => Ok (row, buttons ++ [mk button_name r col])
  | None => Raise UnboundLocalError
  end.

Fixpoint place_all (front : bool) (pic_info_list : list PicInfo.t)
    (todo : list (nat * PicInfo.t)) (row : option Z)
    (buttons : list placement) : result (list placement) :=
  match todo with
  | [] => Ok buttons
  | (k, pic_info) :: rest =>
      '(row', buttons') ← place front pic_info_list k pic_info row buttons;
      place_all front pic_info_list rest row' buttons'
  end.

(** [add_buttons]: the buttons of the grid, in the order they are
    added, after [clear_buttons]. *)
Definition add_buttons (pic_info_list : list PicInfo.t)
    : result (list placement) :=
  match pic_info_list with
  | [] => Ok []
  | _ :: _ =>
      place_all (is_front pic_info_list) pic_info_list
        (enumerate pic_info_list) None []
  end.

End BoardView.

(** ** The application: the document, saving, the two boards *)

Module SilkLabelApp.

(** [currentBlackboard] *)
Record Blackboard := mkBlackboard {
  all_pic_info : option (list PicInfo.t);
}.

(** The JSON document: the two keys that are read, and the names of the
    other keys of the dict. *)
Record Document := mkDocument {
  batchName : option string;
  currentBlackboard : option Blackboard;
  other_keys : list string;
}.

Record t := mk {
  selected_file_path : option string;
  json_data : option Document;
}.

(** Truth values of a path and of the dicts, as [not x] tests them. *)
Definition path_truthy (p : option string) : bool :=
  match p with
  | Some s => negb (String.eqb s "")
  | None => false
  end.

Definition document_truthy (d : option Document) : bool :=
  match d with
  | Some doc =>
      bool_decide (is_Some (batchName doc))
      || match other_keys doc with [] => false | _ :: _ => true end
      || bool_decide (is_Some (currentBlackboard doc))
  | None => false
  end.

(** [save_json_data]: [written] is what opening the file for writing and
    dumping the document does, [None] for success. The in-memory
    document is only read. *)
Definition save_json_data (app : t) (written : option exn) : result unit :=
  if negb (path_truthy (selected_file_path app))
     || negb (document_truthy (json_data app))
  then Raise (Exception "没有可保存的数据或文件路径")
  else
    match written with
    | None => Ok tt
    | Some _ => Raise (Exception "保存JSON文件失败")
    end.

(** Where the partition loop puts an element: [Some true] for
    [front_pics], [Some false] for [back_pics], [None] for neither
    (a number out of both ranges, or the [pass] of the handler). *)
Definition side_of_number (number : result Z) : option bool :=
  match number with
  | Ok number =>
      if (1 <=? number) && (number <=? 25) then Some true
      else if (26 <=? number) && (number <=? 50) then Some false
      else None
  | Raise _ => None
  end.

Definition side (pic_info : PicInfo.t) : option bool :=
  let button_name := Py.get (PicInfo.connectButtonName pic_info) "" in
  if Py.startswith button_name "p1_" then
    side_of_number (p ← Py.index (Py.split "_" button_name) 1; Py.int p)
  else if Py.startswith button_name "p2_" then
    side_of_number (p ← Py.index (Py.split "_" button_name) 1; Py.int p)
  else None.

(** The nested function [sort_key]: [(camera, number)]. *)
Definition sort_key (pic_info : PicInfo.t) : Z * Z :=
  let button_name := Py.get (PicInfo.connectButtonName pic_info) "" in
  let parts := Py.split "_" button_name in
  if 2 <=? Py.len parts then
    match (p0 ← Py.index parts 0;
           camera ← Py.int (Py.tail p0);
           p1 ← Py.index parts 1;
           number ← Py.int p1;
           Ok (camera, number)) with
    | Ok key => key
    | Raise _ => (0, 0)
    end
  else (0, 0).

(** [a <= b] on pairs *)
Definition pair_le (a b : Z * Z) : bool :=
  (a.1 <? b.1) || ((a.1 =? b.1) && (a.2 <=? b.2)).

Definition front_pics (all_pic_info : list PicInfo.t) : list PicInfo.t :=
  sort (fun a b => pair_le (sort_key a) (sort_key b))
    (List.filter (fun p => bool_decide (side p = Some true)) all_pic_info).

Definition back_pics (all_pic_info : list PicInfo.t) : list PicInfo.t :=
  sort (fun a b => pair_le (sort_key a) (sort_key b))
    (List.filter (fun p => bool_decide (side p = Some false)) all_pic_info).

(** What [process_board_data] leaves behind: the two button grids and
    the message boxes shown. *)
Record boards := mkBoards {
  front_view : list BoardView.placement;
  back_view : list BoardView.placement;
  messages : list Qt.message;
}.

Definition process_board_data (app : t) : boards :=
  match json_data app with
  | Some doc =>
      if negb (document_truthy (json_data app)) then mkBoards [] [] []
      else
        match currentBlackboard doc with
        | Some (mkBlackboard (Some (p :: ps))) =>
            let all_pic_info := p :: ps in
            match BoardView.add_buttons (front_pics all_pic_info) with
            | Ok front =>
                match BoardView.add_buttons (back_pics all_pic_info) with
                | Ok back => mkBoards front back []
                | Raise _ => mkBoards front [] [Qt.critical "处理数据错误"]
                end
            | Raise _ => mkBoards [] [] [Qt.critical "处理数据错误"]
            end
        | _ => mkBoards [] [] [Qt.warning "数据错误"]
        end
  | None => mkBoards [] [] []
  end.

(** [refresh_button_display(updated_button)]: the text and the style are
    computed again from the regions the button holds now; an exception
    is printed and leaves the button as it was. *)
Definition refresh_button_display (updated_button : ImageButton.t)
    : ImageButton.t :=
  match ImageButton.count_cleanliness_regions
          (ImageButton.regions updated_button) with
  | Ok cleanliness_count =>
      let confirmation_status :=
        ImageButton.check_confirmation_status
          (ImageButton.regions updated_button) in
      let confirmation_text :=
        if 0 <? ImageButton.total confirmation_status then
          ImageButton.nl +:+ "确认: "
          +:+ Py.str (ImageButton.confirmed confirmation_status)
          +:+ "/" +:+ Py.str (ImageButton.total confirmation_status)
        else "" in
      let text :=
        ImageButton.button_name updated_button +:+ ImageButton.nl
        +:+ "区域: " +:+ Py.str (Py.len (ImageButton.regions updated_button))
        +:+ ImageButton.nl +:+ "洁净度: " +:+ Py.str cleanliness_count
        +:+ confirmation_text in
      let style_sheet :=
        if (0 <? ImageButton.total confirmation_status)
           && (0 <? ImageButton.unconfirmed confirmation_status)
        then ImageButton.Orange
        else match ImageButton.regions updated_button with
             | _ :: _ => ImageButton.Red
             | [] => ImageButton.Green
             end in
      ImageButton.set_shown (ImageButton.mkFace text style_sheet)
        updated_button
  | Raise _ => updated_button
  end.

End SilkLabelApp.

(** ** The detail dialog: the region mutation handlers *)

Module DetailDialog.

(** The attributes of the dialog that the modelled handlers read or write.
    - [regions] is [self.button.regions], the list object that
      [self.image_label.regions] aliases;
    - [updating_class_selection] and [updating_modify_status] tell
      whether the attributes [_updating_class_selection] and
      [_updating_modify_status] exist ([hasattr]);
    - [modify_spin] is the value shown by the spin box, whose range is
      0..2 and whose [valueChanged] signal is connected to
      [on_modify_changed];
    - [image_label] is [None] when [init_ui] returned before creating it;
    - [image_on_disk] is what loading [actual_img_path] gives now (see
      [ImageLabel.set_image_and_regions]);
    - [parent_app] is [None] for a dialog created without a parent;
    - [messages] are the message boxes shown, oldest first;
    - [close_requested] records a call of [self.close()]. *)
Record t := mk {
  regions : list Region.t;
  current_region_index : Z;
  regions_modified : bool;
  add_defect_mode : bool;
  updating_class_selection : bool;
  updating_modify_status : bool;
  modify_spin : Z;
  image_label : option ImageLabel.t;
  image_on_disk : option (Z * Z);
  parent_app : option SilkLabelApp.t;
  messages : list Qt.message;
  close_requested : bool;
}.

Definition set_regions (v : list Region.t) (d : t) : t :=
  {| regions := v; current_region_index := current_region_index d;
     regions_modified := regions_modified d;
     add_defect_mode := add_defect_mode d;
     updating_class_selection := updating_class_selection d;
     updating_modify_status := updating_modify_status d;
     modify_spin := modify_spin d; image_label := image_label d;
     image_on_disk := image_on_disk d; parent_app := parent_app d;
     messages := messages d; close_requested := close_requested d |}.

Definition set_current_region_index (v : Z) (d : t) : t :=
  {| regions := regions d; current_region_index := v;
     regions_modified := regions_modified d;
     add_defect_mode := add_defect_mode d;
     updating_class_selection := updating_class_selection d;
     updating_modify_status := updating_modify_status d;
     modify_spin := modify_spin d; image_label := image_label d;
     image_on_disk := image_on_disk d; parent_app := parent_app d;
     messages := messages d; close_requested := close_requested d |}.

Definition set_regions_modified (v : bool) (d : t) : t :=
  {| regions := regions d; current_region_index := current_region_index d;
     regions_modified := v; add_defect_mode := add_defect_mode d;
     updating_class_selection := updating_class_selection d;
     updating_modify_status := updating_modify_status d;
     modify_spin := modify_spin d; image_label := image_label d;
     image_on_disk := image_on_disk d; parent_app := parent_app d;
     messages := messages d; close_requested := close_requested d |}.

Definition set_add_defect_mode (v : bool) (d : t) : t :=
  {| regions := regions d; current_region_index := current_region_index d;
     regions_modified := regions_modified d; add_defect_mode := v;
     updating_class_selection := updating_class_selection d;
     updating_modify_status := updating_modify_status d;
     modify_spin := modify_spin d; image_label := image_label d;
     image_on_disk := image_on_disk d; parent_app := parent_app d;
     messages := messages d; close_requested := close_requested d |}.

Definition set_updating_class_selection (v : bool) (d : t) : t :=
  {| regions := regions d; current_region_index := current_region_index d;
     regions_modified := regions_modified d;
     add_defect_mode := add_defect_mode d; updating_class_selection := v;
     updating_modify_status := updating_modify_status d;
     modify_spin := modify_spin d; image_label := image_label d;
     image_on_disk := image_on_disk d; parent_app := parent_app d;
     messages := messages d; close_requested := close_requested d |}.

Definition set_updating_modify_status (v : bool) (d : t) : t :=
  {| regions := regions d; current_region_index := current_region_index d;
     regions_modified := regions_modified d;
     add_defect_mode := add_defect_mode d;
     updating_class_selection := updating_class_selection d;
     updating_modify_status := v; modify_spin := modify_spin d;
     image_label := image_label d; image_on_disk := image_on_disk d;
     parent_app := parent_app d; messages := messages d;
     close_requested := close_requested d |}.

Definition set_modify_spin (v : Z) (d : t) : t :=
  {| regions := regions d; current_region_index := current_region_index d;
     regions_modified := regions_modified d;
     add_defect_mode := add_defect_mode d;
     updating_class_selection := updating_class_selection d;
     updating_modify_status := updating_modify_status d; modify_spin := v;
     image_label := image_label d; image_on_disk := image_on_disk d;
     parent_app := parent_app d; messages := messages d;
     close_requested := close_requested d |}.

Definition set_image_label (v : option ImageLabel.t) (d : t) : t :=
  {| regions := regions d; current_region_index := current_region_index d;
     regions_modified := regions_modified d;
     add_defect_mode := add_defect_mode d;
     updating_class_selection := updating_class_selection d;
     updating_modify_status := updating_modify_status d;
     modify_spin := modify_spin d; image_label := v;
     image_on_disk := image_on_disk d; parent_app := parent_app d;
     messages := messages d; close_requested := close_requested d |}.

Definition set_image_on_disk (v : option (Z * Z)) (d : t) : t :=
  {| regions := regions d; current_region_index := current_region_index d;
     regions_modified := regions_modified d;
     add_defect_mode := add_defect_mode d;
     updating_class_selection := updating_class_selection d;
     updating_modify_status := updating_modify_status d;
     modify_spin := modify_spin d; image_label := image_label d;
     image_on_disk := v; parent_app := parent_app d; messages := messages d;
     close_requested := close_requested d |}.

Definition set_parent_app (v : option SilkLabelApp.t) (d : t) : t :=
  {| regions := regions d; current_region_index := current_region_index d;
     regions_modified := regions_modified d;
     add_defect_mode := add_defect_mode d;
     updating_class_selection := updating_class_selection d;
     updating_modify_status := updating_modify_status d;
     modify_spin := modify_spin d; image_label := image_label d;
     image_on_disk := image_on_disk d; parent_app := v;
     messages := messages d; close_requested := close_requested d |}.

Definition set_messages (v : list Qt.message) (d : t) : t :=
  {| regions := regions d; current_region_index := current_region_index d;
     regions_modified := regions_modified d;
     add_defect_mode := add_defect_mode d;
     updating_class_selection := updating_class_selection d;
     updating_modify_status := updating_modify_status d;
     modify_spin := modify_spin d; image_label := image_label d;
     image_on_disk := image_on_disk d; parent_app := parent_app d;
     messages := v; close_requested := close_requested d |}.

Definition set_close_requested (v : bool) (d : t) : t :=
  {| regions := regions d; current_region_index := current_region_index d;
     regions_modified := regions_modified d;
     add_defect_mode := add_defect_mode d;
     updating_class_selection := updating_class_selection d;
     updating_modify_status := updating_modify_status d;
     modify_spin := modify_spin d; image_label := image_label d;
     image_on_disk := image_on_disk d; parent_app := parent_app d;
     messages := messages d; close_requested := v |}.

(** [QMessageBox.information], [.warning], [.critical] *)
Definition show (m : Qt.message) (d : t) : t :=
  set_messages (messages d ++ [m]) d.

(** A call on [self.image_label], when there is one. *)
Definition with_image_label (f : ImageLabel.t -> ImageLabel.t) (d : t) : t :=
  match image_label d with
  | Some l => set_image_label (Some (f l)) d
  | None => d
  end.

Definition get_region_class_id := get_region_class_id_body.

(** [on_modify_changed(value)], the slot of [modify_spin.valueChanged]. *)
Definition on_modify_changed (value : Z) (d : t) : result t :=
  if 0 <=? current_region_index d then
    if negb (updating_modify_status d) then
      region ← Py.index (regions d) (current_region_index d);
      regions' ← Py.setitem (regions d) (current_region_index d)
                   (Region.set_modified_status value region);
      Ok (set_regions_modified true (set_regions regions' d))
    else Ok d
  else Ok d.

(** [self.modify_spin.setValue(v)]: the value is brought into the range
    0..2, stored, and, when it changed, [valueChanged] runs its slot. *)
Definition modify_spin_setValue (v : Z) (d : t) : result t :=
  let v := Qt.bound 0 2 v in
  if v =? modify_spin d then Ok d
  else on_modify_changed v (set_modify_spin v d).

(** [load_region_data(region)]: the class lookup, then the spin box set
    under the guard attribute. The combo box is set under its own guard,
    so that [on_class_changed] returns at once; the labels are display. *)
Definition load_region_data (region : Region.t) (d : t) : result t :=
  class_id ← get_region_class_id region;
  let d := set_updating_modify_status true d in
  d ← modify_spin_setValue (Py.get (Region.modified_status region) 0) d;
  Ok (set_updating_modify_status false d).

(** [on_region_clicked(region_index)] *)
Definition on_region_clicked (region_index : Z) (d : t) : result t :=
  let d := set_current_region_index region_index d in
  if (0 <=? region_index) && (region_index <? Py.len (regions d)) then
    region ← Py.index (regions d) region_index;
    d ← load_region_data region d;
    Ok (with_image_label (ImageLabel.set_selected_region region_index) d)
  else Ok d.




(** [delete_current_region]: [reply] is the answer to the confirmation.
    Inside the [try] only [get_region_class_id], reached through
    [on_region_clicked] once the index is set, could raise; the handler
    then reports the failure. *)
Definition delete_current_region (reply : Qt.reply) (d : t) : result t :=
  if (current_region_index d <? 0)
     || (Py.len (regions d) <=? current_region_index d)
  then Ok (show (Qt.warning "删除失败") d)
  else
    region ← Py.index (regions d) (current_region_index d);
    class_id ← get_region_class_id region;
    match reply with
    | Qt.No => Ok d
    | Qt.Yes =>
        match Py.pop (regions d) (current_region_index d) with
        | Raise _ => Ok (show (Qt.critical "删除失败") d)
        | Ok (deleted_region, rest) =>
            let d := set_regions_modified true (set_regions rest d) in
            let d :=
              with_image_label
                (ImageLabel.set_image_and_regions (image_on_disk d)) d in
            match regions d with
            | _ :: _ =>
                let new_index :=
                  if Py.len (regions d) <=? current_region_index d
                  then Py.len (regions d) - 1
                  else current_region_index d in
                match on_region_clicked new_index d with
                | Ok d =>
                    let d :=
                      with_image_label
                        (ImageLabel.focus_on_region (regions d) new_index) d in
                    Ok (show (Qt.information "删除成功") d)
                | Raise _ =>
                    Ok (show (Qt.critical "删除失败")
                          (set_current_region_index new_index d))
                end
            | [] =>
                let d := set_current_region_index (-1) d in
                match modify_spin_setValue 0 d with
                | Ok d => Ok (show (Qt.information "删除成功") d)
                | Raise _ => Ok (show (Qt.critical "删除失败") d)
                end
            end
        end
    end.

Definition toggle_add_defect_mode (d : t) : t :=
  let d := set_add_defect_mode (negb (add_defect_mode d)) d in
  with_image_label (ImageLabel.set_add_defect_mode (add_defect_mode d)) d.

(** [int(n / scale_factor)] *)
Definition to_image (n : Z) (scale_factor : float) : result Z :=
  v ← Py.int_div_float n scale_factor; Py.int_of_float v.

(** The dict built by [add_new_defect_region]. *)
Definition new_region (original_x original_y original_width original_height : Z)
    : Region.t :=
  {| Region.final_label_index := Some 1;
     Region.height := Some original_height;
     Region.imgPath := Some "";
     Region.isSure := Some true;
     Region.label_confidence :=
       Some [ LabelConf.mk (Some 11) (Some 1.0%float);
              LabelConf.mk (Some 1) (Some 1.0%float);
              LabelConf.mk (Some 11) (Some 1.0%float);
              LabelConf.mk (Some 11) (Some 1.0%float) ];
     Region.modified_status := Some 2;
     Region.width := Some original_width;
     Region.x := Some original_x;
     Region.y := Some original_y;
     Region.yolo_confidence := Some 0.0%float |}.

(** The conversion of the drawn rectangle, first statement of the
    [try]. *)
Definition original_rect (x y width height : Z) (d : t)
    : result (Z * Z * Z * Z) :=
  match image_label d with
  | Some l =>
      original_x ← to_image x (ImageLabel.scale_factor l);
      original_y ← to_image y (ImageLabel.scale_factor l);
      original_width ← to_image width (ImageLabel.scale_factor l);
      original_height ← to_image height (ImageLabel.scale_factor l);
      Ok (original_x, original_y, original_width, original_height)
  | None => Ok (x, y, width, height)
  end.

(** [add_new_defect_region(x, y, width, height)], the slot of
    [new_region_created]; every exception is caught and reported. *)
Definition add_new_defect_region (x y width height : Z) (d : t) : t :=
  match original_rect x y width height d with
  | Raise _ => show (Qt.critical "添加失败") d
  | Ok (original_x, original_y, original_width, original_height) =>
      let d :=
        set_regions
          (regions d
           ++ [new_region original_x original_y original_width original_height])
          d in
      let d := set_regions_modified true d in
      let d :=
        with_image_label
          (ImageLabel.set_image_and_regions (image_on_disk d)) d in
      let new_index := Py.len (regions d) - 1 in
      match on_region_clicked new_index d with
      | Ok d =>
          let d :=
            with_image_label
              (ImageLabel.focus_on_region (regions d) new_index) d in
          show (Qt.information "添加成功") (toggle_add_defect_mode d)
      | Raise _ =>
          show (Qt.critical "添加失败") (set_current_region_index new_index d)
      end
  end.



(** [save_changes]: [reply] answers the question, [written] is the
    outcome of the write (see [SilkLabelApp.save_json_data]). *)
Definition save_changes (reply : Qt.reply) (written : option exn) (d : t)
    : t :=
  let d :=
    if regions_modified d then
      match reply with
      | Qt.Yes =>
          match parent_app d with
          | Some app =>
              match SilkLabelApp.save_json_data app written with
              | Ok _ =>
                  set_regions_modified false
                    (show (Qt.information "保存成功") d)
              | Raise _ => show (Qt.critical "保存错误") d
              end
          | None => show (Qt.warning "保存失败") d
          end
      | Qt.No => d
      end
    else d in
  set_close_requested true d.

(** [_zoom_with_center(zoom_multiplier)]; the scroll bars are left out as
    in [ImageLabel.wheelEvent]. *)
Definition _zoom_with_center (zoom_multiplier : float) (d : t) : t :=
  match image_label d with
  | Some l =>
      if ImageLabel.scroll_area l then
        let z := (ImageLabel.zoom_factor l * zoom_multiplier)%float in
        let l := ImageLabel.set_zoom_factor (ImageLabel.clamp_zoom z) l in
        set_image_label (Some (ImageLabel.update_display l)) d
      else d
  | None => d
  end.

Definition zoom_in (d : t) : t := _zoom_with_center 1.2 d.

Definition zoom_out (d : t) : t := _zoom_with_center 0.8 d.

Definition zoom_reset (d : t) : result t :=
  match image_label d with
  | Some l =>
      if (PrimFloat.abs (ImageLabel.zoom_factor l - 1.0) <? 0.01)%float
      then Ok d
      else
        reset_multiplier ← Py.float_div 1.0 (ImageLabel.zoom_factor l);
        Ok (_zoom_with_center reset_multiplier d)
  | None => Ok d
  end.








(** The keys that [keyPressEvent] tells apart. *)
Inductive key :=
| Key_Left | Key_Up | Key_Right | Key_Down | Key_Space
| Key_Delete | Key_Backspace | Key_H | Key_Escape | Key_other.


(** The answer to the question of [closeEvent]. *)
Inductive close_reply := Save | Discard | Cancel.

(** [closeEvent(event)]: the dialog, and whether the event was accepted.
    [reply] answers the question about the unsaved edits; [save_reply]
    and [written] are passed to [save_changes]. The refresh of the
    button and the reset of [parent_app.detail_dialog] act on the main
    window and leave the dialog as it is. *)
Definition closeEvent (reply : close_reply) (save_reply : Qt.reply)
    (written : option exn) (d : t) : t * bool :=
  if regions_modified d then
    match reply with
    | Save => (save_changes save_reply written d, true)
    | Discard => (d, true)
    | Cancel => (d, false)
    end
  else (d, true).

(** [DetailDialog(button, actual_img_path, parent)]: [button_regions] is
    [button.regions]; [actual_img] is [None] when the path is empty or
    names no file, otherwise the size of the pixmap read from it. The
    result carries the attribute [regions_visible]. *)
Definition init (button_regions : list Region.t)
    (actual_img : option (Z * Z)) (parent : option SilkLabelApp.t)
    : result (bool * t) :=
  let regions_visible := true in
  let image_label :=
    match actual_img with
    | Some size =>
        Some (ImageLabel.set_scroll_area
                (ImageLabel.set_image_and_regions (Some size)
                   (ImageLabel.set_regions_visible regions_visible
                      ImageLabel.init)))
    | None => None
    end in
  let d :=
    {| regions := button_regions; current_region_index := -1;
       regions_modified := false; add_defect_mode := false;
       updating_class_selection := false; updating_modify_status := false;
       modify_spin := 0; image_label := image_label;
       image_on_disk := actual_img; parent_app := parent;
       messages := []; close_requested := false |} in
  match button_regions with
  | _ :: _ =>
      d ← on_region_clicked 0 d;
      Ok (regions_visible,
          with_image_label (ImageLabel.focus_on_region (regions d) 0) d)
  | [] => Ok (regions_visible, d)
  end.

End DetailDialog.

(** ** The main window: what [SilkLabelApp] does besides saving and laying
    out the boards *)

Module MainWindow.

(** The attributes of [SilkLabelApp] that the handlers below read or
    write: the path and the document ([app]), the directory of the JSON
    file, the dialog that is open, the buttons of the two views, whether
    the clear button is enabled, and the message boxes shown, oldest
    first. *)
Record t := mk {
  app : SilkLabelApp.t;
  json_dir : option string;
  detail_dialog : option DetailDialog.t;
  front_view : list BoardView.placement;
  back_view : list BoardView.placement;
  clear_btn : bool;
  messages : list Qt.message;
}.

(** [SilkLabelApp()] *)
Definition init : t :=
  {| app := SilkLabelApp.mk None None; json_dir := None;
     detail_dialog := None; front_view := []; back_view := [];
     clear_btn := false; messages := [] |}.

(** What opening the chosen file and [json.load] can do: the document is
    read, the text is not JSON, the file is missing, or reading fails in
    another way. *)
Inductive loaded :=
| Parsed (doc : SilkLabelApp.Document)
| NotJSON
| NotFound
| Failed.

Section Files.

(** [os.path.dirname] and [os.path.join] *)
Variable dirname : string -> string.
Variable join : string -> string -> string.

(** What is found at a path: nothing, or an image of some size. *)
Variable image_at : string -> option (Z * Z).

(** [get_actual_image_path(original_img_path)]; nothing in the [try]
    raises for a path that is a string. *)
Definition get_actual_image_path (w : t) (original_img_path : string)
    : string :=
  if String.eqb original_img_path "" then original_img_path
  else
    let json_dir :=
      if negb (SilkLabelApp.path_truthy (json_dir w))
         && SilkLabelApp.path_truthy (SilkLabelApp.selected_file_path (app w))
      then Some (dirname
                   (Py.get (SilkLabelApp.selected_file_path (app w)) ""))
      else json_dir w in
    if negb (SilkLabelApp.path_truthy json_dir) then original_img_path
    else
      let path_parts :=
        Py.split "/" (Py.replace Py.backslash "/" original_img_path) in
      match find_index (fun part => Py.startswith part "camera") path_parts
      with
      | Some camera_index =>
          let relative_path :=
            Py.join "/" (drop (Z.to_nat camera_index) path_parts) in
          let actual_path := join (Py.get json_dir "") relative_path in
          Py.replace Py.backslash "/" actual_path
      | None => original_img_path
      end.

(** [load_json_file(file_path)]: [read] is the outcome of reading the
    file. The dialog that is open is closed, which may save (see
    [DetailDialog.closeEvent]), and forgotten either way. *)
Definition load_json_file (file_path : string) (read : loaded) (w : t) : t :=
  let w :=
    {| app := app w; json_dir := json_dir w; detail_dialog := None;
       front_view := []; back_view := [];
       clear_btn := clear_btn w; messages := messages w |} in
  match read with
  | Parsed doc =>
      let app' :=
        SilkLabelApp.mk (SilkLabelApp.selected_file_path (app w)) (Some doc) in
      let shown := SilkLabelApp.process_board_data app' in
      {| app := app'; json_dir := Some (dirname file_path);
         detail_dialog := None;
         front_view := SilkLabelApp.front_view shown;
         back_view := SilkLabelApp.back_view shown;
         clear_btn := true;
         messages := messages w ++ SilkLabelApp.messages shown |}
  | NotJSON =>
      {| app := app w; json_dir := json_dir w; detail_dialog := None;
         front_view := []; back_view := []; clear_btn := clear_btn w;
         messages := messages w ++ [Qt.warning "JSON解析错误"] |}
  | NotFound =>
      {| app := app w; json_dir := json_dir w; detail_dialog := None;
         front_view := []; back_view := []; clear_btn := clear_btn w;
         messages := messages w ++ [Qt.critical "文件错误"] |}
  | Failed =>
      {| app := app w; json_dir := json_dir w; detail_dialog := None;
         front_view := []; back_view := []; clear_btn := clear_btn w;
         messages := messages w ++ [Qt.critical "错误"] |}
  end.

(** [select_json_file]: [file_path] is the path chosen in the file
    dialog, empty when the dialog was cancelled. *)
Definition select_json_file (file_path : string) (read : loaded) (w : t) : t :=
  if negb (String.eqb file_path "") then
    load_json_file file_path read
      {| app := SilkLabelApp.mk (Some file_path)
                  (SilkLabelApp.json_data (app w));
         json_dir := json_dir w; detail_dialog := detail_dialog w;
         front_view := front_view w; back_view := back_view w;
         clear_btn := clear_btn w; messages := messages w |}
  else w.

(** [clear_content] *)
Definition clear_content (w : t) : t :=
  {| app := SilkLabelApp.mk None None; json_dir := None;
     detail_dialog := None; front_view := []; back_view := [];
     clear_btn := false; messages := messages w |}.


End Files.

End MainWindow.

(** ** The vocabulary of the specification *)

Module Spec.

(** The effective class id, in the words of the data model: the label at
    [final_label_index] if the index is in range, else the label of the
    first candidate if there is one, else the non-defect id 11. The
    label of a candidate and the two fields of the region are read as
    the code reads them, with their defaults. *)
Definition candidate_label (c : LabelConf.t) : Z := Py.get (LabelConf.label c) 11.

Definition effective_class_id (region : Region.t) : Z :=
  let i := Py.get (Region.final_label_index region) 0 in
  let candidates := Py.get (Region.label_confidence region) [] in
  if (0 <=? i) && (i <? Py.len candidates) then
    match candidates !! Z.to_nat i with
    | Some c => candidate_label c
    | None => 11
    end
  else
    match candidates with
    | c :: _ => candidate_label c
    | [] => 11
    end.

(** The zoom range [0.1, 5.0]. *)
Definition zoom_in_range (z : float) : Prop :=
  (0.1 <=? z)%float = true /\ (z <=? 5.0)%float = true.

(** A coordinate of the image on the screen: the integer part of the
    coordinate times the scale factor, when both can be computed. *)
Definition on_screen (n : Z) (scale : float) (v : Z) : Prop :=
  exists product,
    Py.int_mul_float n scale = Ok product /\ Py.int_of_float product = Ok v.

(** The box of a region on the screen: its four numbers, each scaled. *)
Definition screen_box (scale : float) (region : Region.t)
    (box : Z * Z * Z * Z) : Prop :=
  let '(x, y, width, height) := box in
  on_screen (Py.get (Region.x region) 0) scale x
  /\ on_screen (Py.get (Region.y region) 0) scale y
  /\ on_screen (Py.get (Region.width region) 0) scale width
  /\ on_screen (Py.get (Region.height region) 0) scale height.

(** A coordinate of the screen in the image: the integer part of the
    coordinate divided by the scale factor, when both can be computed. *)
Definition in_image (n : Z) (scale : float) (v : Z) : Prop :=
  exists quotient,
    Py.int_div_float n scale = Ok quotient /\ Py.int_of_float quotient = Ok v.

(** The serpentine rule of the layout, for the 0-based position of an
    image in the sorted sequence of its camera and column: on the front
    side columns 1, 2, 5, 6, 9, 10 run bottom to top and columns 3, 4, 7,
    8 top to bottom; the back side inverts the two. *)
Definition serpentine_row (front : bool) (column position : Z) : option Z :=
  if bool_decide (column ∈ [1; 2; 5; 6; 9; 10]) then
    Some (if front then 5 - position else position + 1)
  else if bool_decide (column ∈ [3; 4; 7; 8]) then
    Some (if front then position + 1 else 5 - position)
  else None.

(** The two camera prefixes. *)
Definition cameras : list string := ["p1_"; "p2_"].

(** The field of a button name that is read as the number: the text
    between the first underscore and the next one, or the end. *)
Definition number_field (pic_info : PicInfo.t) : result string :=
  Py.index (Py.split "_" (Py.get (PicInfo.connectButtonName pic_info) "")) 1.

(** The number of an image: its number field as an integer, 0 when
    there is no such field or it is not an integer. *)
Definition number (pic_info : PicInfo.t) : Z :=
  match number_field pic_info ≫= Py.int with
  | Ok n => n
  | Raise _ => 0
  end.

(** The sequence of one camera in one column: the images of the list,
    each with its place in the list, that are in column [c] and bear the
    prefix of the camera, in the order of their numbers, images of equal
    number in the order of the list. *)
Definition column_sequence (pic_info_list : list PicInfo.t) (c : Z)
    (camera : string) (sequence : list (nat * PicInfo.t)) : Prop :=
  sequence
  ≡ₚ List.filter
       (fun e =>
          bool_decide (PicInfo.column e.2 = Some c)
          && Py.startswith (Py.get (PicInfo.connectButtonName e.2) "") camera)
       (imap (fun i pic_info => (i, pic_info)) pic_info_list)
  /\ Sorted
       (fun a b =>
          number a.2 < number b.2
          \/ (number a.2 = number b.2 /\ (a.1 < b.1)%nat))
       sequence.

(** The position of the image at place [k] of the list in a sequence:
    the 0-based index of the first element that is the image itself or
    an image equal to it. *)
Definition position_in (sequence : list (nat * PicInfo.t)) (k : nat)
    (pic_info : PicInfo.t) (position : Z) : Prop :=
  0 <= position
  /\ exists e,
       sequence !! Z.to_nat position = Some e
       /\ (e.1 = k \/ PicInfo.eqb e.2 pic_info = true)
       /\ forall (j : nat) e', (j < Z.to_nat position)%nat ->
            sequence !! j = Some e' ->
            e'.1 <> k /\ PicInfo.eqb e'.2 pic_info = false.

(** [placed] is the layout of [pic_info_list] on the side [front]: one
    button per image, in order; an image with a column [c] sits in grid
    column [c - 1], in the row the serpentine rule gives for its position
    in the sequence of its camera and column. *)
Definition laid_out (front : bool) (pic_info_list : list PicInfo.t)
    (placed : list BoardView.placement) : Prop :=
  length placed = length pic_info_list
  /\ forall (k : nat) (pic_info : PicInfo.t) (c : Z),
       pic_info_list !! k = Some pic_info ->
       PicInfo.column pic_info = Some c ->
       exists name camera sequence position row,
         PicInfo.connectButtonName pic_info = Some name
         /\ camera ∈ cameras /\ Py.startswith name camera = true
         /\ column_sequence pic_info_list c camera sequence
         /\ position_in sequence k pic_info position
         /\ placed !! k = Some (BoardView.mk name row (c - 1))
         /\ forall r, serpentine_row front c position = Some r -> row = r.

(** An image the partition accepts on the side [front]: a camera prefix,
    a number field that [int] reads, and a number in 1..25 for the front,
    26..50 for the back. *)
Definition accepted (front : bool) (pic_info : PicInfo.t) : Prop :=
  (exists camera,
     camera ∈ cameras
     /\ Py.startswith (Py.get (PicInfo.connectButtonName pic_info) "") camera
        = true)
  /\ exists field n,
       number_field pic_info = Ok field /\ Py.int field = Ok n
       /\ if front then 1 <= n <= 25 else 26 <= n <= 50.

(** The [modified_status] of a region, 0 when the key is missing. *)
Definition status (region : Region.t) : Z :=
  Py.get (Region.modified_status region) 0.


(** An image the partition leaves out, by the three reasons it has: no
    camera prefix, a number field that is missing or that [int] does not
    read, or a number outside 1..50. *)
Definition excluded (pic_info : PicInfo.t) : Prop :=
  (forall camera, camera ∈ cameras ->
     Py.startswith (Py.get (PicInfo.connectButtonName pic_info) "") camera
     = false)
  \/ (exists e, (number_field pic_info ≫= Py.int) = Raise e)
  \/ (exists n, (number_field pic_info ≫= Py.int) = Ok n /\ ~ 1 <= n <= 50).

End Spec.

(** ** The vocabulary of the further properties *)

Module Inv.


(** What a dialog holds besides the selection and what its widgets
    display (the spin box, the two guard attributes, the state of the
    image label): the regions, the dirty flag, the add-defect mode, the
    image, the parent, the message boxes shown, the request to close, and
    whether there is an image label. *)
Definition data (d : DetailDialog.t) :=
  (DetailDialog.regions d, DetailDialog.regions_modified d,
   DetailDialog.add_defect_mode d, DetailDialog.image_on_disk d,
   DetailDialog.parent_app d, DetailDialog.messages d,
   DetailDialog.close_requested d,
   bool_decide (is_Some (DetailDialog.image_label d))).



(** The add-defect mode of the image label is that of the dialog. *)
Definition mode_synced (d : DetailDialog.t) : Prop :=
  forall l, DetailDialog.image_label d = Some l ->
            ImageLabel.add_defect_mode l = DetailDialog.add_defect_mode d.

(** The image label of [d'], when there is one, has the add-defect mode
    and the drawing flag of the image label of [d]. *)
Definition same_mode (d d' : DetailDialog.t) : Prop :=
  forall l', DetailDialog.image_label d' = Some l' ->
    exists l,
      DetailDialog.image_label d = Some l
      /\ ImageLabel.add_defect_mode l' = ImageLabel.add_defect_mode l
      /\ ImageLabel.drawing l' = ImageLabel.drawing l.

End Inv.

(** ** Sample data *)

Module Examples.

Definition pic (name : string) (column : Z) : PicInfo.t :=
  {| PicInfo.connectButtonName := Some name;
     PicInfo.column := Some column;
     PicInfo.index := Some 0;
     PicInfo.imgPath := Some "";
     PicInfo.regions := Some [] |}.

(** Front-side images of one camera: five in column 1, five in column 3. *)
Definition two_columns : list PicInfo.t :=
  [ pic "p1_1" 1; pic "p1_2" 1; pic "p1_3" 1; pic "p1_4" 1; pic "p1_5" 1;
    pic "p1_11" 3; pic "p1_12" 3; pic "p1_13" 3; pic "p1_14" 3;
    pic "p1_15" 3 ].

(** A document with the given images. *)
Definition app_with (all_pic_info : list PicInfo.t) : SilkLabelApp.t :=
  {| SilkLabelApp.selected_file_path := Some "batch.json";
     SilkLabelApp.json_data :=
       Some (SilkLabelApp.mkDocument (Some "batch")
               (Some (SilkLabelApp.mkBlackboard (Some all_pic_info)))
               []) |}.

(** A detected region with three candidates, and a region added by hand. *)
Definition detected (x y width height status : Z) : Region.t :=
  {| Region.final_label_index := Some 0;
     Region.height := Some height;
     Region.imgPath := Some "";
     Region.isSure := Some false;
     Region.label_confidence :=
       Some [ LabelConf.mk (Some 5) (Some 0.8%float);
              LabelConf.mk (Some 10) (Some 0.15%float);
              LabelConf.mk (Some 11) (Some 0.05%float) ];
     Region.modified_status := Some status;
     Region.width := Some width;
     Region.x := Some x;
     Region.y := Some y;
     Region.yolo_confidence := Some 0.9%float |}.

Definition regions : list Region.t :=
  [ detected 10 10 40 40 0; detected 30 30 40 40 0; detected 200 100 50 20 2 ].

(** An image of the document with the regions above, and a button for
    it whose face is still to be computed. *)
Definition pic_with_regions : PicInfo.t :=
  {| PicInfo.connectButtonName := Some "p1_1";
     PicInfo.column := Some 1;
     PicInfo.index := Some 0;
     PicInfo.imgPath := Some "E:/img/20250805/2/camera1/img1.bmp";
     PicInfo.regions := Some regions |}.

Definition button : ImageButton.t :=
  {| ImageButton.button_name := "p1_1";
     ImageButton.img_path := "E:/img/20250805/2/camera1/img1.bmp";
     ImageButton.regions := regions;
     ImageButton.column := 1;
     ImageButton.index := 0;
     ImageButton.shown := ImageButton.mkFace "" ImageButton.Green |}.

(** An image label showing a 640 by 480 pixmap at 100%. *)
Definition label : ImageLabel.t :=
  {| ImageLabel.original_pixmap := Some (640, 480);
     ImageLabel.scale_factor := 1.0;
     ImageLabel.zoom_factor := 1.0;
     ImageLabel.selected_region_index := 0;
     ImageLabel.regions_visible := true;
     ImageLabel.add_defect_mode := false;
     ImageLabel.drawing := false;
     ImageLabel.scroll_area := true |}.

(** The same label at 200%. *)
Definition zoomed : ImageLabel.t :=
  {| ImageLabel.original_pixmap := Some (640, 480);
     ImageLabel.scale_factor := 2.0;
     ImageLabel.zoom_factor := 2.0;
     ImageLabel.selected_region_index := 0;
     ImageLabel.regions_visible := true;
     ImageLabel.add_defect_mode := true;
     ImageLabel.drawing := false;
     ImageLabel.scroll_area := true |}.

(** A dialog on [regions] with the region [selected]. *)
Definition dialog (selected : Z) : DetailDialog.t :=
  {| DetailDialog.regions := regions;
     DetailDialog.current_region_index := selected;
     DetailDialog.regions_modified := false;
     DetailDialog.add_defect_mode := false;
     DetailDialog.updating_class_selection := false;
     DetailDialog.updating_modify_status := false;
     DetailDialog.modify_spin := 0;
     DetailDialog.image_label := Some label;
     DetailDialog.image_on_disk := Some (640, 480);
     DetailDialog.parent_app := Some (app_with two_columns);
     DetailDialog.messages := [];
     DetailDialog.close_requested := false |}.

(** The same dialog in add-defect mode, showing the image at 200%. *)
Definition dialog_zoomed : DetailDialog.t :=
  {| DetailDialog.regions := regions;
     DetailDialog.current_region_index := 0;
     DetailDialog.regions_modified := false;
     DetailDialog.add_defect_mode := true;
     DetailDialog.updating_class_selection := false;
     DetailDialog.updating_modify_status := false;
     DetailDialog.modify_spin := 0;
     DetailDialog.image_label := Some zoomed;
     DetailDialog.image_on_disk := Some (640, 480);
     DetailDialog.parent_app := Some (app_with two_columns);
     DetailDialog.messages := [];
     DetailDialog.close_requested := false |}.

(** [QRect(a, b).normalized()] as Qt 6 computes it, by its [x()], [y()],
    [width()] and [height()]: a rectangle is stored by its two corners,
    both inside it, and corners in the wrong order are exchanged. *)
Definition normalized (a b : Z * Z) : Z * Z * Z * Z :=
  let '(x1, x2) :=
    if b.1 <? a.1 then (b.1 + 1, a.1 - 1) else (a.1, b.1) in
  let '(y1, y2) :=
    if b.2 <? a.2 then (b.2 + 1, a.2 - 1) else (a.2, b.2) in
  (x1, y1, x2 - x1 + 1, y2 - y1 + 1).

(** The image label in its scroll area, with a viewport of 600 by 400
    and the scroll bars at (100, 50). *)
Definition view : ImageLabel.view :=
  {| ImageLabel.label := label;
     ImageLabel.panning := false;
     ImageLabel.pan_start_point := (0, 0);
     ImageLabel.start_point := (0, 0);
     ImageLabel.end_point := (0, 0);
     ImageLabel.area :=
       {| ImageLabel.viewport_width := 600;
          ImageLabel.viewport_height := 400;
          ImageLabel.h_scrollbar := ImageLabel.mkScrollbar 100 400;
          ImageLabel.v_scrollbar := ImageLabel.mkScrollbar 50 300 |} |}.

End Examples.

(** * Properties *)

(** ** Python primitives *)

(** [int], [split] and the float conversions on sample inputs. *)
Example int_examples :
  Py.int "7" = Ok 7 /\ Py.int " 25 " = Ok 25 /\ Py.int "-3" = Ok (-3)
  /\ Py.int "1_0" = Ok 10 /\ Py.int "7_x" = Raise ValueError
  /\ Py.int "" = Raise ValueError /\ Py.int "x" = Raise ValueError.
Proof. repeat split; reflexivity. Qed.

Example split_examples :
  Py.split "_" "p1_7" = ["p1"; "7"] /\ Py.split "_" "p1_7_x" = ["p1"; "7"; "x"]
  /\ Py.split "_" "" = [""] /\ Py.split1 "," "3,a,b" = ["3"; "a,b"].
Proof. repeat split; reflexivity. Qed.

Example float_examples :
  Py.int_div_float 40 2.0 = Ok 20.0%float
  /\ (x ← Py.int_div_float 30 2.0; Py.int_of_float x) = Ok 15
  /\ (x ← Py.int_mul_float 7 0.1; Py.int_of_float x) = Ok 0
  /\ Py.int_of_float (-2.5)%float = Ok (-2).
Proof. repeat split; vm_compute; reflexivity. Qed.

Lemma index_lookup {A} (l : list A) (i : Z) :
  0 <= i < Py.len l ->
  exists a, l !! Z.to_nat i = Some a /\ Py.index l i = Ok a.
Proof.
  intros Hi. unfold Py.index, Py.len in *.
  destruct (Z.ltb_spec i 0) as [?|_]; [lia|].
  destruct (Z.leb_spec 0 i) as [_|?]; [|lia].
  destruct (Z.ltb_spec i (Z.of_nat (length l))) as [_|?]; [|lia].
  destruct (lookup_lt_is_Some_2 l (Z.to_nat i)) as [a Ha]; [lia|].
  exists a. rewrite Ha. done.
Qed.

Lemma index_head {A} (a : A) (l : list A) : Py.index (a :: l) 0 = Ok a.
Proof.
  destruct (index_lookup (a :: l) 0) as (b & Hb & ->).
  - unfold Py.len. simpl. lia.
  - simpl in Hb. congruence.
Qed.



(** ** Label resolution *)

Lemma get_region_class_id_body_ok (region : Region.t) :
  get_region_class_id_body region = Ok (Spec.effective_class_id region).
Proof.
  unfold get_region_class_id_body, Spec.effective_class_id.
  set (i := Py.get (Region.final_label_index region) 0).
  set (cs := Py.get (Region.label_confidence region) []).
  destruct ((0 <=? i) && (i <? Py.len cs)) eqn:Hrange.
  - apply andb_true_iff in Hrange as [H0 H1].
    apply Z.leb_le in H0. apply Z.ltb_lt in H1.
    destruct (index_lookup cs i) as (c & Hc & ->); [lia|].
    rewrite Hc. reflexivity.
  - destruct cs as [|c rest]; [reflexivity|].
    rewrite index_head. reflexivity.
Qed.

(** C1. The copies of [get_region_class_id] return, for every region and
    without raising: the label of the candidate at [final_label_index]
    when the index is in range; otherwise the label of the first
    candidate when there is one; otherwise 11. *)
Theorem get_region_class_id_total (region : Region.t) :
  let i := Py.get (Region.final_label_index region) 0 in
  let candidates := Py.get (Region.label_confidence region) [] in
  exists class_id,
    ImageLabel.get_region_class_id region = Ok class_id
    /\ DetailDialog.get_region_class_id region = Ok class_id
    /\ ImageButton.get_region_class_id region = Ok class_id
    /\ (0 <= i < Py.len candidates ->
        exists c, candidates !! Z.to_nat i = Some c
                  /\ class_id = Spec.candidate_label c)
    /\ (~ 0 <= i < Py.len candidates ->
        forall c rest, candidates = c :: rest ->
                       class_id = Spec.candidate_label c)
    /\ (candidates = [] -> class_id = 11).
Proof.
  intros i candidates. exists (Spec.effective_class_id region).
  split; [apply get_region_class_id_body_ok|].
  split; [apply get_region_class_id_body_ok|].
  split; [apply get_region_class_id_body_ok|].
  unfold Spec.effective_class_id. fold i candidates.
  repeat split.
  - intros Hi. destruct (index_lookup candidates i Hi) as (c & Hc & _).
    exists c. split; [done|].
    destruct (Z.leb_spec 0 i); [|lia].
    destruct (Z.ltb_spec i (Py.len candidates)); [|lia].
    simpl. rewrite Hc. done.
  - intros Hi c rest Hcs.
    destruct (Z.leb_spec 0 i); destruct (Z.ltb_spec i (Py.len candidates));
      simpl; try lia; rewrite Hcs; done.
  - intros Hcs. rewrite Hcs.
    destruct ((0 <=? i) && (i <? Py.len [])); reflexivity.
Qed.

(** ** The class catalog *)

Lemma int_raises (s : string) (e : exn) :
  Py.int s = Raise e -> e = ValueError.
Proof.
  unfold Py.int.
  destruct (match Py.strip s with EmptyString => _ | String _ _ => _ end)
    as [neg ds].
  destruct (Py.digits ds 0 false); congruence.
Qed.

Lemma index_raises {A} (l : list A) (i : Z) (e : exn) :
  Py.index l i = Raise e -> e = IndexError.
Proof.
  unfold Py.index. destruct (_ && _); [|congruence].
  destruct (l !! _); congruence.
Qed.

Lemma load_line_raises (classes : gmap Z string) (line : string) (e : exn) :
  ClassManager.load_line classes line = Raise e ->
  e = ValueError \/ e = IndexError.
Proof.
  unfold ClassManager.load_line.
  destruct (negb _ && _); [|discriminate].
  destruct (Py.index _ 0) as [p0|e0] eqn:H0; simpl;
    [|intros [= <-]; right; eauto using index_raises].
  destruct (Py.int p0) as [n|e1] eqn:H1; simpl;
    [|intros [= <-]; left; eauto using int_raises].
  destruct (Py.index _ 1) as [p1|e2] eqn:H2; simpl;
    [discriminate|intros [= <-]; right; eauto using index_raises].
Qed.

Lemma load_lines_raises (lines : list string) (classes : gmap Z string)
    (e : exn) :
  ClassManager.load_lines classes lines = Raise e ->
  e = ValueError \/ e = IndexError.
Proof.
  revert classes. induction lines as [|line rest IH]; intros classes; simpl.
  - discriminate.
  - destruct (ClassManager.load_line classes line) as [c|e'] eqn:Hline; simpl.
    + apply IH.
    + intros [= <-]. eauto using load_line_raises.
Qed.

(** C8, as the code has it. A missing file gives the built-in catalog of
    twelve classes, ids 0 to 11, with 10 the cleanliness class and 11 the
    non-defect class. Every other failure (the file cannot be opened or
    decoded, or a line with a comma has no integer before it) gives the
    catalog of two classes, 1 and 11. A load without failure gives the
    classes read. *)
Theorem load_classes_fallback (classes : gmap Z string)
    (f : ClassManager.file) :
  match f with
  | ClassManager.Missing =>
      ClassManager.load_classes classes f = ClassManager.default_classes
  | ClassManager.Unreadable =>
      ClassManager.load_classes classes f = ClassManager.error_classes
  | ClassManager.Lines lines decoded =>
      match ClassManager.load_lines classes lines with
      | Ok read =>
          ClassManager.load_classes classes f
          = if decoded then read else ClassManager.error_classes
      | Raise _ =>
          ClassManager.load_classes classes f = ClassManager.error_classes
      end
  end
  /\ dom ClassManager.default_classes = list_to_set (seqZ 0 12)
  /\ ClassManager.default_classes !! 10 = Some "洁净度"
  /\ ClassManager.default_classes !! 11 = Some "非缺陷"
  /\ dom ClassManager.error_classes = {[1; 11]}
  /\ ClassManager.error_classes !! 11 = Some "非缺陷".
Proof.
  split; [|repeat split; reflexivity].
  destruct f as [| |lines decoded]; try reflexivity.
  unfold ClassManager.load_classes.
  destruct (ClassManager.load_lines classes lines) as [read|e] eqn:Hread;
    simpl.
  - destruct decoded; reflexivity.
  - destruct (load_lines_raises _ _ _ Hread) as [-> | ->]; reflexivity.
Qed.

(** C8, as stated, fails: a catalog file whose only line has no integer
    before the comma is a load that fails to parse, and the catalog it
    leaves is not the one of twelve classes (class 0 is missing). *)
Lemma load_classes_parse_failure :
  ClassManager.load_lines ∅ ["x,a"] = Raise ValueError
  /\ ClassManager.init (ClassManager.Lines ["x,a"] true)
     = ClassManager.error_classes
  /\ ClassManager.init (ClassManager.Lines ["x,a"] true)
     <> ClassManager.default_classes.
Proof.
  repeat split; try (vm_compute; reflexivity).
  intros H. apply (f_equal (fun classes : gmap Z string => classes !! 0)) in H.
  vm_compute in H. discriminate.
Qed.

(** ** Zoom *)

Lemma float_ltb_leb (a b : float) :
  (a <? b)%float = true -> (a <=? b)%float = true.
Proof.
  rewrite FloatAxioms.ltb_spec, FloatAxioms.leb_spec. unfold SFltb, SFleb.
  destruct (SFcompare _ _) as [[]|]; congruence.
Qed.

Lemma in_range_nonzero (z : float) :
  (0.1 <=? z)%float = true -> (z =? 0)%float = false.
Proof.
  rewrite FloatAxioms.leb_spec, FloatAxioms.eqb_spec. unfold SFleb, SFeqb.
  replace (Prim2SF 0.1) with (S754_finite false 7205759403792794 (-56))
    by (vm_compute; reflexivity).
  replace (Prim2SF 0) with (S754_zero false) by (vm_compute; reflexivity).
  destruct (Prim2SF z) as [[]|[]| |[] m e]; simpl; congruence.
Qed.

Lemma clamp_zoom_in_range (z : float) :
  Spec.zoom_in_range (ImageLabel.clamp_zoom z).
Proof.
  unfold ImageLabel.clamp_zoom, Py.min.
  destruct (z <? 5.0)%float eqn:Hhi.
  - unfold Py.max. destruct (0.1 <? z)%float eqn:Hlo.
    + split; apply float_ltb_leb; assumption.
    + split; vm_compute; reflexivity.
  - split; vm_compute; reflexivity.
Qed.

Lemma update_display_zoom_factor (l : ImageLabel.t) :
  ImageLabel.zoom_factor (ImageLabel.update_display l)
  = ImageLabel.zoom_factor l.
Proof.
  unfold ImageLabel.update_display.
  destruct (ImageLabel.original_pixmap l) as [[w h]|]; [|reflexivity].
  destruct (_ ← _; _) as [[nw nh]|e]; [|reflexivity].
  destruct (_ || _); reflexivity.
Qed.

Lemma update_display_scroll_area (l : ImageLabel.t) :
  ImageLabel.scroll_area (ImageLabel.update_display l)
  = ImageLabel.scroll_area l.
Proof.
  unfold ImageLabel.update_display.
  destruct (ImageLabel.original_pixmap l) as [[w h]|]; [|reflexivity].
  destruct (_ ← _; _) as [[nw nh]|e]; [|reflexivity].
  destruct (_ || _); reflexivity.
Qed.

Lemma update_display_original_pixmap (l : ImageLabel.t) :
  ImageLabel.original_pixmap (ImageLabel.update_display l)
  = ImageLabel.original_pixmap l.
Proof.
  unfold ImageLabel.update_display.
  destruct (ImageLabel.original_pixmap l) as [[w h]|] eqn:Hp; [|done].
  destruct (_ ← _; _) as [[nw nh]|e]; [|done].
  destruct (_ || _); done.
Qed.

(** The zoom factor after a wheel step: the clamped product whenever a
    pixmap and a scroll area are there, the old factor otherwise. *)
Lemma wheelEvent_zoom_factor (delta : Z) (l : ImageLabel.t) :
  ImageLabel.zoom_factor (ImageLabel.wheelEvent delta l)
  = match ImageLabel.original_pixmap l with
    | Some _ =>
        if ImageLabel.scroll_area l then
          ImageLabel.clamp_zoom
            (if 0 <? delta
             then (ImageLabel.zoom_factor l * (1 + 0.1))%float
             else (ImageLabel.zoom_factor l * (1 - 0.1))%float)
        else ImageLabel.zoom_factor l
    | None => ImageLabel.zoom_factor l
    end.
Proof.
  unfold ImageLabel.wheelEvent.
  destruct (ImageLabel.original_pixmap l); [|reflexivity].
  destruct (ImageLabel.scroll_area l); [|reflexivity].
  match goal with |- context [if (PrimFloat.abs ?a <? ?b)%float then _ else _] =>
    destruct (PrimFloat.abs a <? b)%float end.
  - reflexivity.
  - rewrite update_display_zoom_factor. reflexivity.
Qed.

(** The image label after [_zoom_with_center]. *)
Lemma zoom_with_center_image_label (m : float) (d : DetailDialog.t)
    (l : ImageLabel.t) :
  DetailDialog.image_label d = Some l ->
  exists l',
    DetailDialog.image_label (DetailDialog._zoom_with_center m d) = Some l'
    /\ ImageLabel.scroll_area l' = ImageLabel.scroll_area l
    /\ ImageLabel.original_pixmap l' = ImageLabel.original_pixmap l
    /\ ImageLabel.zoom_factor l'
       = if ImageLabel.scroll_area l
         then ImageLabel.clamp_zoom (ImageLabel.zoom_factor l * m)
         else ImageLabel.zoom_factor l.
Proof.
  intros Hl. unfold DetailDialog._zoom_with_center. rewrite Hl.
  destruct (ImageLabel.scroll_area l) eqn:Hs.
  - eexists. split; [reflexivity|].
    rewrite update_display_scroll_area, update_display_original_pixmap,
      update_display_zoom_factor.
    simpl. rewrite Hs. done.
  - exists l. rewrite Hs. done.
Qed.

Lemma wheelEvent_at_max (delta : Z) (l : ImageLabel.t) :
  0 < delta -> ImageLabel.zoom_factor l = 5.0%float ->
  ImageLabel.zoom_factor (ImageLabel.wheelEvent delta l) = 5.0%float.
Proof.
  intros Hd Hz. rewrite wheelEvent_zoom_factor, Hz.
  destruct (Z.ltb_spec 0 delta); [|lia].
  destruct (ImageLabel.original_pixmap l); [|reflexivity].
  destruct (ImageLabel.scroll_area l); [|reflexivity].
  vm_compute. reflexivity.
Qed.

Lemma wheelEvent_at_min (delta : Z) (l : ImageLabel.t) :
  delta <= 0 -> ImageLabel.zoom_factor l = 0.1%float ->
  ImageLabel.zoom_factor (ImageLabel.wheelEvent delta l) = 0.1%float.
Proof.
  intros Hd Hz. rewrite wheelEvent_zoom_factor, Hz.
  destruct (Z.ltb_spec 0 delta); [lia|].
  destruct (ImageLabel.original_pixmap l); [|reflexivity].
  destruct (ImageLabel.scroll_area l); [|reflexivity].
  vm_compute. reflexivity.
Qed.

Lemma zoom_with_center_fixed (m z : float) (d : DetailDialog.t)
    (l : ImageLabel.t) :
  ImageLabel.clamp_zoom (z * m) = z ->
  DetailDialog.image_label d = Some l -> ImageLabel.zoom_factor l = z ->
  exists l',
    DetailDialog.image_label (DetailDialog._zoom_with_center m d) = Some l'
    /\ ImageLabel.zoom_factor l' = z.
Proof.
  intros Hfix Hl Hz.
  destruct (zoom_with_center_image_label m d l Hl) as (l' & Hl' & _ & _ & Hz').
  exists l'. split; [done|]. rewrite Hz', Hz, Hfix.
  destruct (ImageLabel.scroll_area l); reflexivity.
Qed.

Lemma iter_zoom_with_center_fixed (m z : float) (n : nat)
    (d : DetailDialog.t) (l : ImageLabel.t) :
  ImageLabel.clamp_zoom (z * m) = z ->
  DetailDialog.image_label d = Some l -> ImageLabel.zoom_factor l = z ->
  exists l',
    DetailDialog.image_label (Nat.iter n (DetailDialog._zoom_with_center m) d)
    = Some l'
    /\ ImageLabel.zoom_factor l' = z.
Proof.
  intros Hfix Hl Hz. induction n as [|n (l' & Hl' & Hz')]; simpl.
  - eauto.
  - eapply zoom_with_center_fixed; eauto.
Qed.

(** C6. From a zoom factor within [0.1, 5.0]: a wheel step, a zoom about
    the centre with any multiplier, and a reset all return (none raises
    or refuses) with a factor within [0.1, 5.0]; with a pixmap and a
    scroll area in place the factor is the clamped product. Zooming in
    from 5.0 stays at 5.0 and zooming out from 0.1 stays at 0.1, however
    often it is repeated. *)
Theorem zoom_clamped (d : DetailDialog.t) (l : ImageLabel.t) :
  DetailDialog.image_label d = Some l ->
  Spec.zoom_in_range (ImageLabel.zoom_factor l) ->
  (forall delta,
     Spec.zoom_in_range (ImageLabel.zoom_factor (ImageLabel.wheelEvent delta l))
     /\ (is_Some (ImageLabel.original_pixmap l) ->
         ImageLabel.scroll_area l = true ->
         ImageLabel.zoom_factor (ImageLabel.wheelEvent delta l)
         = ImageLabel.clamp_zoom
             (if 0 <? delta
              then (ImageLabel.zoom_factor l * (1 + 0.1))%float
              else (ImageLabel.zoom_factor l * (1 - 0.1))%float)))
  /\ (forall m, exists l',
        DetailDialog.image_label (DetailDialog._zoom_with_center m d) = Some l'
        /\ Spec.zoom_in_range (ImageLabel.zoom_factor l')
        /\ (ImageLabel.scroll_area l = true ->
            ImageLabel.zoom_factor l'
            = ImageLabel.clamp_zoom (ImageLabel.zoom_factor l * m)))
  /\ (exists d' l',
        DetailDialog.zoom_reset d = Ok d'
        /\ DetailDialog.image_label d' = Some l'
        /\ Spec.zoom_in_range (ImageLabel.zoom_factor l'))
  /\ (ImageLabel.zoom_factor l = 5.0%float ->
      forall n : nat,
        (forall delta, 0 < delta ->
           ImageLabel.zoom_factor (Nat.iter n (ImageLabel.wheelEvent delta) l)
           = 5.0%float)
        /\ exists l',
             DetailDialog.image_label (Nat.iter n DetailDialog.zoom_in d)
             = Some l'
             /\ ImageLabel.zoom_factor l' = 5.0%float)
  /\ (ImageLabel.zoom_factor l = 0.1%float ->
      forall n : nat,
        (forall delta, delta <= 0 ->
           ImageLabel.zoom_factor (Nat.iter n (ImageLabel.wheelEvent delta) l)
           = 0.1%float)
        /\ exists l',
             DetailDialog.image_label (Nat.iter n DetailDialog.zoom_out d)
             = Some l'
             /\ ImageLabel.zoom_factor l' = 0.1%float).
Proof.
  intros Hl Hrange.
  assert (Hcenter : forall m, exists l',
    DetailDialog.image_label (DetailDialog._zoom_with_center m d) = Some l'
    /\ Spec.zoom_in_range (ImageLabel.zoom_factor l')
    /\ (ImageLabel.scroll_area l = true ->
        ImageLabel.zoom_factor l'
        = ImageLabel.clamp_zoom (ImageLabel.zoom_factor l * m))).
  { intros m.
    destruct (zoom_with_center_image_label m d l Hl) as (l' & Hl' & _ & _ & Hz).
    exists l'. split; [done|]. rewrite Hz.
    destruct (ImageLabel.scroll_area l); split;
      auto using clamp_zoom_in_range; discriminate. }
  repeat apply conj.
  - intros delta. rewrite wheelEvent_zoom_factor. split.
    + destruct (ImageLabel.original_pixmap l); [|done].
      destruct (ImageLabel.scroll_area l); [|done].
      apply clamp_zoom_in_range.
    + intros [p ->] ->. reflexivity.
  - exact Hcenter.
  - unfold DetailDialog.zoom_reset. rewrite Hl.
    destruct (PrimFloat.abs _ <? _)%float.
    + exists d, l. done.
    + unfold Py.float_div.
      rewrite (in_range_nonzero _ (proj1 Hrange)). simpl.
      destruct (Hcenter (1.0 / ImageLabel.zoom_factor l)%float)
        as (l' & Hl' & Hr' & _).
      eauto.
  - intros Hz n. split.
    + intros delta Hd. induction n as [|n IH]; simpl;
        auto using wheelEvent_at_max.
    + apply (iter_zoom_with_center_fixed 1.2 5.0 n d l);
        [vm_compute; reflexivity|assumption|assumption].
  - intros Hz n. split.
    + intros delta Hd. induction n as [|n IH]; simpl;
        auto using wheelEvent_at_min.
    + apply (iter_zoom_with_center_fixed 0.8 0.1 n d l);
        [vm_compute; reflexivity|assumption|assumption].
Qed.

(** ** Hit-testing *)

Lemma box_contains_spec (x y width height px py : Z) :
  ImageLabel.box_contains (x, y, width, height) px py = true
  <-> x <= px <= x + width /\ y <= py <= y + height.
Proof. unfold ImageLabel.box_contains. rewrite !andb_true_iff, !Z.leb_le. lia. Qed.

(** What [find_region] answers when every box can be computed: the
    first region, counted from [i0], whose box holds the point. *)
Lemma find_region_first (scale : float) (px py : Z)
    (regions : list Region.t) (i0 : Z) :
  Forall (fun r => exists box, ImageLabel.screen_box scale r = Ok box) regions ->
  (exists (k : nat) r box,
     ImageLabel.find_region scale px py regions i0
     = Ok (ImageLabel.region_clicked (i0 + Z.of_nat k))
     /\ regions !! k = Some r
     /\ ImageLabel.screen_box scale r = Ok box
     /\ ImageLabel.box_contains box px py = true
     /\ forall (j : nat) r' box',
          (j < k)%nat -> regions !! j = Some r' ->
          ImageLabel.screen_box scale r' = Ok box' ->
          ImageLabel.box_contains box' px py = false)
  \/ (ImageLabel.find_region scale px py regions i0
      = Ok ImageLabel.region_unselected
      /\ forall (j : nat) r' box',
           regions !! j = Some r' ->
           ImageLabel.screen_box scale r' = Ok box' ->
           ImageLabel.box_contains box' px py = false).
Proof.
  intros Hok. revert i0.
  induction Hok as [|r rest [box Hbox] _ IH]; intros i0; simpl.
  - right. split; [done|]. intros j r' box' Hj. done.
  - rewrite Hbox. simpl.
    destruct (ImageLabel.box_contains box px py) eqn:Hin.
    + left. exists 0%nat, r, box. rewrite Z.add_0_r.
      repeat split; try done. intros j r' box' Hj. lia.
    + destruct (IH (i0 + 1)) as [(k & r1 & box1 & Hf & Hk & Hb & Hc & Hfirst)
                                 |[Hf Hnone]].
      * left. exists (S k), r1, box1.
        replace (i0 + Z.of_nat (S k)) with (i0 + 1 + Z.of_nat k) by lia.
        repeat split; try done.
        intros [|j] r' box' Hj Hr' Hb'; simpl in Hr'.
        -- congruence.
        -- eapply Hfirst; eauto. lia.
      * right. split; [done|].
        intros [|j] r' box' Hr' Hb'; simpl in Hr'.
        -- congruence.
        -- eapply Hnone; eauto.
Qed.

(** The code's scaling is the integer part of the product. *)
Lemma scaled_on_screen (n : Z) (scale : float) (v : Z) :
  ImageLabel.scaled n scale = Ok v <-> Spec.on_screen n scale v.
Proof.
  unfold ImageLabel.scaled, Spec.on_screen.
  destruct (Py.int_mul_float n scale) as [product|e]; simpl; split.
  - intros H. by exists product.
  - intros (q & [= <-] & H). done.
  - done.
  - intros (q & H & _). done.
Qed.

Lemma screen_box_spec (scale : float) (region : Region.t)
    (box : Z * Z * Z * Z) :
  ImageLabel.screen_box scale region = Ok box
  <-> Spec.screen_box scale region box.
Proof.
  unfold ImageLabel.screen_box, Spec.screen_box.
  destruct box as [[[x y] width] height]. rewrite <- !scaled_on_screen.
  destruct (ImageLabel.scaled (Py.get (Region.x region) 0) scale);
    simpl; [|split; [done|by intros [? _]]].
  destruct (ImageLabel.scaled (Py.get (Region.y region) 0) scale);
    simpl; [|split; [done|by intros (_ & ? & _)]].
  destruct (ImageLabel.scaled (Py.get (Region.width region) 0) scale);
    simpl; [|split; [done|by intros (_ & _ & ? & _)]].
  destruct (ImageLabel.scaled (Py.get (Region.height region) 0) scale);
    simpl; [|split; [done|by intros (_ & _ & _ & ?)]].
  split.
  - intros [= -> -> -> ->]. done.
  - intros ([= ->] & [= ->] & [= ->] & [= ->]). done.
Qed.

(** C7. The box of a region on the screen has the four numbers of the
    region, each multiplied by the scale factor and cut to its integer
    part. When these boxes can be computed, a click emits either
    [region_clicked i], where region [i] is the first of the list whose
    box, borders included, holds the point, or [region_unselected], and
    then no box holds it; an empty list gives [region_unselected]. Of
    two regions that both hold the point the later one is never the
    answer. *)
Theorem hit_test_first_region (regions : list Region.t) (l : ImageLabel.t)
    (px py : Z) :
  Forall (fun r => exists box,
            Spec.screen_box (ImageLabel.scale_factor l) r box)
    regions ->
  let holds (r : Region.t) :=
    exists x y width height,
      Spec.screen_box (ImageLabel.scale_factor l) r (x, y, width, height)
      /\ x <= px <= x + width /\ y <= py <= y + height in
  exists signal,
    ImageLabel.mouseReleaseEvent_click regions l px py = Ok signal
    /\ match signal with
       | ImageLabel.region_clicked i =>
           exists r, 0 <= i /\ regions !! Z.to_nat i = Some r /\ holds r
             /\ forall (j : nat) r', (j < Z.to_nat i)%nat ->
                  regions !! j = Some r' -> ~ holds r'
       | ImageLabel.region_unselected =>
           forall (j : nat) r', regions !! j = Some r' -> ~ holds r'
       end
    /\ (forall (i j : nat) ri rj, (i < j)%nat ->
          regions !! i = Some ri -> regions !! j = Some rj ->
          holds ri -> holds rj ->
          exists k, signal = ImageLabel.region_clicked k /\ k <= Z.of_nat i)
    /\ (regions = [] -> signal = ImageLabel.region_unselected).
Proof.
  intros Hspec holds.
  assert (Hok : Forall (fun r => exists box,
                          ImageLabel.screen_box (ImageLabel.scale_factor l) r
                          = Ok box) regions).
  { eapply Forall_impl; [exact Hspec|]. intros r [box Hbox].
    exists box. by apply screen_box_spec. }
  assert (Hholds : forall r box,
            ImageLabel.screen_box (ImageLabel.scale_factor l) r = Ok box ->
            ImageLabel.box_contains box px py = true <-> holds r).
  { intros r [[[x y] w] h] Hbox. rewrite box_contains_spec. split.
    - intros H. exists x, y, w, h. split; [by apply screen_box_spec|done].
    - intros (x' & y' & w' & h' & Hbox' & H).
      apply screen_box_spec in Hbox'. rewrite Hbox in Hbox'.
      injection Hbox' as <- <- <- <-. done. }
  assert (Hnot : forall r box,
            ImageLabel.screen_box (ImageLabel.scale_factor l) r = Ok box ->
            ImageLabel.box_contains box px py = false -> ~ holds r).
  { intros r box Hbox Hf Hh. apply (Hholds r box Hbox) in Hh. congruence. }
  assert (Hclick : ImageLabel.mouseReleaseEvent_click regions l px py
                   = ImageLabel.find_region (ImageLabel.scale_factor l)
                       px py regions 0).
  { destruct regions; reflexivity. }
  rewrite Hclick.
  destruct (find_region_first (ImageLabel.scale_factor l) px py regions 0 Hok)
    as [(k & r & box & Hf & Hk & Hb & Hc & Hfirst)|[Hf Hnone]].
  - exists (ImageLabel.region_clicked (Z.of_nat k)).
    rewrite Hf, Z.add_0_l, Nat2Z.id. repeat split; try done.
    + exists r. repeat split; try done; [lia|by eapply Hholds|].
      intros j r' Hj Hr'.
      destruct (Forall_lookup_1 _ _ _ _ Hok Hr') as [box' Hb'].
      eauto.
    + intros i j ri rj Hij Hi Hj Hri Hrj. exists (Z.of_nat k). split; [done|].
      destruct (Nat.le_gt_cases k i) as [?|Hlt]; [lia|].
      destruct (Forall_lookup_1 _ _ _ _ Hok Hi) as [bi Hbi].
      exfalso. eapply Hnot; eauto.
    + intros ->. simpl in Hk. done.
  - exists ImageLabel.region_unselected. rewrite Hf. repeat split; try done.
    + intros j r' Hr'.
      destruct (Forall_lookup_1 _ _ _ _ Hok Hr') as [box' Hb'].
      eauto.
    + intros i j ri rj Hij Hi Hj Hri Hrj.
      destruct (Forall_lookup_1 _ _ _ _ Hok Hi) as [bi Hbi].
      exfalso. eapply Hnot; eauto.
Qed.

(** ** The handlers of the detail dialog: what they do to the region
    list and to the selection *)

Lemma with_image_label_regions f (d : DetailDialog.t) :
  DetailDialog.regions (DetailDialog.with_image_label f d)
  = DetailDialog.regions d.
Proof. unfold DetailDialog.with_image_label. destruct (DetailDialog.image_label d); done. Qed.

Lemma with_image_label_index f (d : DetailDialog.t) :
  DetailDialog.current_region_index (DetailDialog.with_image_label f d)
  = DetailDialog.current_region_index d.
Proof. unfold DetailDialog.with_image_label. destruct (DetailDialog.image_label d); done. Qed.

Lemma with_image_label_status f (d : DetailDialog.t) :
  DetailDialog.updating_modify_status (DetailDialog.with_image_label f d)
  = DetailDialog.updating_modify_status d.
Proof. unfold DetailDialog.with_image_label. destruct (DetailDialog.image_label d); done. Qed.

Lemma with_image_label_modified f (d : DetailDialog.t) :
  DetailDialog.regions_modified (DetailDialog.with_image_label f d)
  = DetailDialog.regions_modified d.
Proof. unfold DetailDialog.with_image_label. destruct (DetailDialog.image_label d); done. Qed.

(** The slot of the spin box does nothing while the guard attribute is
    set or while nothing is selected. *)
Lemma modify_spin_setValue_guarded (v : Z) (d : DetailDialog.t) :
  DetailDialog.updating_modify_status d = true
  \/ DetailDialog.current_region_index d < 0 ->
  exists d',
    DetailDialog.modify_spin_setValue v d = Ok d'
    /\ DetailDialog.regions d' = DetailDialog.regions d
    /\ DetailDialog.current_region_index d'
       = DetailDialog.current_region_index d
    /\ DetailDialog.regions_modified d' = DetailDialog.regions_modified d
    /\ DetailDialog.updating_modify_status d'
       = DetailDialog.updating_modify_status d
    /\ DetailDialog.image_label d' = DetailDialog.image_label d.
Proof.
  intros Hguard. unfold DetailDialog.modify_spin_setValue.
  destruct (_ =? _); [by exists d|].
  unfold DetailDialog.on_modify_changed. simpl.
  destruct (Z.leb_spec 0 (DetailDialog.current_region_index d)).
  - destruct Hguard as [Hg | ?]; [|lia]. rewrite Hg. simpl.
    eexists. split; [done|]. simpl. by rewrite ?Hg.
  - eexists. by split.
Qed.


Lemma load_region_data_ok (region : Region.t) (d : DetailDialog.t) :
  exists d',
    DetailDialog.load_region_data region d = Ok d'
    /\ DetailDialog.regions d' = DetailDialog.regions d
    /\ DetailDialog.current_region_index d'
       = DetailDialog.current_region_index d
    /\ DetailDialog.regions_modified d' = DetailDialog.regions_modified d.
Proof.
  unfold DetailDialog.load_region_data, DetailDialog.get_region_class_id.
  rewrite get_region_class_id_body_ok. simpl.
  edestruct (modify_spin_setValue_guarded
               (Py.get (Region.modified_status region) 0)
               (DetailDialog.set_updating_modify_status true d))
    as (d' & -> & Hr & Hi & Hm & _ & _); [by left|].
  simpl. eexists. split; [done|]. simpl. done.
Qed.

Lemma on_region_clicked_ok (region_index : Z) (d : DetailDialog.t) :
  exists d',
    DetailDialog.on_region_clicked region_index d = Ok d'
    /\ DetailDialog.regions d' = DetailDialog.regions d
    /\ DetailDialog.current_region_index d' = region_index
    /\ DetailDialog.regions_modified d' = DetailDialog.regions_modified d.
Proof.
  unfold DetailDialog.on_region_clicked. simpl.
  destruct (_ && _) eqn:Hrange; [|by eexists].
  apply andb_true_iff in Hrange as [H0 H1].
  apply Z.leb_le in H0. apply Z.ltb_lt in H1.
  destruct (index_lookup (DetailDialog.regions d) region_index)
    as (r & _ & ->); [done|]. simpl.
  destruct (load_region_data_ok r
              (DetailDialog.set_current_region_index region_index d))
    as (d' & -> & Hr & Hi & Hm).
  simpl. eexists. split; [done|].
  rewrite with_image_label_regions, with_image_label_index,
    with_image_label_modified. done.
Qed.


Lemma pop_delete {A} (l : list A) (i : nat) (a : A) :
  l !! i = Some a -> Py.pop l (Z.of_nat i) = Ok (a, delete i l).
Proof.
  intros Ha. unfold Py.pop.
  destruct (index_lookup l (Z.of_nat i)) as (b & Hb & ->).
  { unfold Py.len. apply lookup_lt_Some in Ha. lia. }
  rewrite Nat2Z.id in Hb. simpl.
  destruct (Z.ltb_spec (Z.of_nat i) 0); [lia|].
  rewrite Nat2Z.id. congruence.
Qed.

(** C4. Deleting the selected region [i] of a list of [n] regions, once
    confirmed, removes exactly that element; the selection becomes -1
    when the list is emptied ([n = 1]), [n - 2] when the last region was
    deleted, and stays [i] otherwise. *)
Theorem delete_current_region_reselects (d : DetailDialog.t) (i : nat) :
  DetailDialog.current_region_index d = Z.of_nat i ->
  (i < length (DetailDialog.regions d))%nat ->
  let n := Py.len (DetailDialog.regions d) in
  exists d',
    DetailDialog.delete_current_region Qt.Yes d = Ok d'
    /\ DetailDialog.regions d' = delete i (DetailDialog.regions d)
    /\ Py.len (DetailDialog.regions d') = n - 1
    /\ DetailDialog.current_region_index d'
       = if n =? 1 then -1
         else if Z.of_nat i =? n - 1 then n - 2
         else Z.of_nat i.
Proof.
  intros Hi Hlt n.
  destruct (lookup_lt_is_Some_2 _ _ Hlt) as [r Hr].
  assert (Hn : n = Z.of_nat (length (DetailDialog.regions d))) by done.
  unfold DetailDialog.delete_current_region. rewrite Hi.
  destruct (Z.ltb_spec (Z.of_nat i) 0); [lia|].
  destruct (Z.leb_spec (Py.len (DetailDialog.regions d)) (Z.of_nat i));
    [unfold Py.len in *; lia|].
  simpl.
  destruct (index_lookup (DetailDialog.regions d) (Z.of_nat i))
    as (r0 & _ & ->); [lia|].
  simpl. unfold DetailDialog.get_region_class_id.
  rewrite get_region_class_id_body_ok. simpl.
  rewrite (pop_delete _ _ _ Hr).
  rewrite with_image_label_regions, with_image_label_index. simpl.
  assert (Hlen : Py.len (delete i (DetailDialog.regions d)) = n - 1).
  { unfold Py.len. rewrite length_delete by eauto. lia. }
  destruct (delete i (DetailDialog.regions d)) as [|r1 rest] eqn:Hrest.
  - edestruct (modify_spin_setValue_guarded 0) as (d' & -> & Hr' & Hi' & _);
      [right; simpl; lia|].
    eexists. split; [done|]. simpl. rewrite Hr', Hi'. simpl.
    rewrite ?with_image_label_regions, ?with_image_label_index. simpl.
    unfold Py.len in Hlen. simpl in Hlen.
    destruct (Z.eqb_spec n 1); [|lia]. done.
  - rewrite Hi.
    set (new_index := if Py.len (r1 :: rest) <=? Z.of_nat i
                      then Py.len (r1 :: rest) - 1 else Z.of_nat i).
    edestruct (on_region_clicked_ok new_index) as (d' & -> & Hr' & Hi' & _).
    eexists. split; [done|]. simpl.
    rewrite ?with_image_label_regions, ?with_image_label_index, Hr', Hi'.
    rewrite ?with_image_label_regions. simpl.
    split; [done|]. split; [done|].
    unfold new_index. rewrite Hlen.
    assert (2 <= n) by (unfold Py.len in Hlen; simpl in Hlen; lia).
    destruct (Z.eqb_spec n 1); [lia|].
    destruct (Z.leb_spec (n - 1) (Z.of_nat i));
      destruct (Z.eqb_spec (Z.of_nat i) (n - 1)); lia.
Qed.

Lemma toggle_add_defect_mode_regions (d : DetailDialog.t) :
  DetailDialog.regions (DetailDialog.toggle_add_defect_mode d)
  = DetailDialog.regions d
  /\ DetailDialog.current_region_index (DetailDialog.toggle_add_defect_mode d)
     = DetailDialog.current_region_index d
  /\ DetailDialog.regions_modified (DetailDialog.toggle_add_defect_mode d)
     = DetailDialog.regions_modified d.
Proof.
  unfold DetailDialog.toggle_add_defect_mode.
  rewrite with_image_label_regions, with_image_label_index,
    with_image_label_modified. done.
Qed.

(** The code's conversion is the integer part of the quotient. *)
Lemma to_image_in_image (n : Z) (scale : float) (v : Z) :
  DetailDialog.to_image n scale = Ok v <-> Spec.in_image n scale v.
Proof.
  unfold DetailDialog.to_image, Spec.in_image.
  destruct (Py.int_div_float n scale) as [quotient|e]; simpl; split.
  - intros H. by exists quotient.
  - intros (q & [= <-] & H). done.
  - done.
  - intros (q & H & _). done.
Qed.

(** What [add_new_defect_region] does with the converted rectangle. *)
Lemma add_new_defect_region_converted (x y width height : Z)
    (d : DetailDialog.t) :
  let d' := DetailDialog.add_new_defect_region x y width height d in
  match DetailDialog.original_rect x y width height d with
  | Ok (ox, oy, ow, oh) =>
      DetailDialog.regions d'
      = DetailDialog.regions d ++ [DetailDialog.new_region ox oy ow oh]
      /\ DetailDialog.current_region_index d'
         = Py.len (DetailDialog.regions d)
      /\ DetailDialog.regions_modified d' = true
  | Raise _ => DetailDialog.regions d' = DetailDialog.regions d
  end.
Proof.
  intros d'. subst d'. unfold DetailDialog.add_new_defect_region.
  destruct (DetailDialog.original_rect x y width height d)
    as [[[[ox oy] ow] oh]|e]; [|reflexivity].
  rewrite with_image_label_regions. simpl.
  match goal with |- context [DetailDialog.on_region_clicked ?i ?d0] =>
    destruct (on_region_clicked_ok i d0) as (d1 & -> & Hr & Hi & Hm)
  end.
  rewrite with_image_label_regions, with_image_label_modified in *.
  simpl in *.
  destruct (toggle_add_defect_mode_regions
              (DetailDialog.with_image_label
                 (ImageLabel.focus_on_region (DetailDialog.regions d1)
                    (Py.len (DetailDialog.regions d
                             ++ [DetailDialog.new_region ox oy ow oh]) - 1))
                 d1)) as (Hr2 & Hi2 & Hm2).
  rewrite with_image_label_regions, with_image_label_index,
    with_image_label_modified in *.
  rewrite Hr2, Hi2, Hm2, Hr, Hi, Hm.
  repeat split.
  unfold Py.len. rewrite length_app. simpl. lia.
Qed.

(** C5. Each of the four numbers of a completed drag is divided by the
    scale factor of the image label and cut to its integer part. When
    the four numbers can be converted the region list grows by one
    region at its end, with those image-space numbers,
    [modified_status] 2, [final_label_index] 1, [yolo_confidence] 0 and
    four candidates of which the second has label 1 and the other three
    label 11, and that region becomes the selection; when one of them
    cannot, the list is left as it was. Without an image label the
    numbers are stored as they are. At scale factor 2.0 a drag of 40 by
    30 at (80, 60) is stored at (40, 30) with width 20 and height 15. *)
Theorem add_new_defect_region_appends (x y width height : Z)
    (d : DetailDialog.t) :
  let d' := DetailDialog.add_new_defect_region x y width height d in
  let added (ox oy ow oh : Z) :=
    exists c0 c1 c2 c3 r,
      DetailDialog.regions d' = DetailDialog.regions d ++ [r]
      /\ DetailDialog.current_region_index d'
         = Py.len (DetailDialog.regions d)
      /\ DetailDialog.regions_modified d' = true
      /\ Region.x r = Some ox /\ Region.y r = Some oy
      /\ Region.width r = Some ow /\ Region.height r = Some oh
      /\ Region.modified_status r = Some 2
      /\ Region.final_label_index r = Some 1
      /\ Region.yolo_confidence r = Some 0.0%float
      /\ Region.label_confidence r = Some [c0; c1; c2; c3]
      /\ LabelConf.label c1 = Some 1
      /\ LabelConf.label c0 = Some 11
      /\ LabelConf.label c2 = Some 11
      /\ LabelConf.label c3 = Some 11 in
  match DetailDialog.image_label d with
  | Some l =>
      (forall ox oy ow oh,
         Spec.in_image x (ImageLabel.scale_factor l) ox ->
         Spec.in_image y (ImageLabel.scale_factor l) oy ->
         Spec.in_image width (ImageLabel.scale_factor l) ow ->
         Spec.in_image height (ImageLabel.scale_factor l) oh ->
         added ox oy ow oh)
      /\ ((forall ox oy ow oh,
             ~ (Spec.in_image x (ImageLabel.scale_factor l) ox
                /\ Spec.in_image y (ImageLabel.scale_factor l) oy
                /\ Spec.in_image width (ImageLabel.scale_factor l) ow
                /\ Spec.in_image height (ImageLabel.scale_factor l) oh)) ->
          DetailDialog.regions d' = DetailDialog.regions d)
  | None => added x y width height
  end
  /\ Spec.in_image 40 2.0 20
  /\ Spec.in_image 30 2.0 15
  /\ exists r,
       DetailDialog.regions
         (DetailDialog.add_new_defect_region 80 60 40 30
            Examples.dialog_zoomed)
       = Examples.regions ++ [r]
       /\ Region.x r = Some 40 /\ Region.y r = Some 30
       /\ Region.width r = Some 20 /\ Region.height r = Some 15
       /\ Region.modified_status r = Some 2
       /\ Region.final_label_index r = Some 1.
Proof.
  intros d' added.
  assert (Hadded : forall ox oy ow oh,
            DetailDialog.original_rect x y width height d
            = Ok (ox, oy, ow, oh) -> added ox oy ow oh).
  { intros ox oy ow oh Hrect.
    pose proof (add_new_defect_region_converted x y width height d) as H.
    cbv zeta in H. rewrite Hrect in H. destruct H as (Hr & Hi & Hm).
    subst added d'. cbv beta.
    do 4 eexists. exists (DetailDialog.new_region ox oy ow oh).
    rewrite Hr, Hi, Hm. repeat split. }
  split; [|split; [|split]].
  - destruct (DetailDialog.image_label d) as [l|] eqn:Hl.
    + split.
      * intros ox oy ow oh Hx Hy Hw Hh. apply Hadded.
        apply to_image_in_image in Hx, Hy, Hw, Hh.
        unfold DetailDialog.original_rect. rewrite Hl, Hx. simpl.
        rewrite Hy. simpl. rewrite Hw. simpl. rewrite Hh. done.
      * intros Hnone.
        pose proof (add_new_defect_region_converted x y width height d) as H.
        cbv zeta in H.
        destruct (DetailDialog.original_rect x y width height d)
          as [[[[ox oy] ow] oh]|e] eqn:Hrect; [|exact H].
        exfalso. apply (Hnone ox oy ow oh).
        unfold DetailDialog.original_rect in Hrect. rewrite Hl in Hrect.
        rewrite <- !to_image_in_image.
        destruct (DetailDialog.to_image x _); simpl in Hrect; [|done].
        destruct (DetailDialog.to_image y _); simpl in Hrect; [|done].
        destruct (DetailDialog.to_image width _); simpl in Hrect; [|done].
        destruct (DetailDialog.to_image height _); simpl in Hrect; [|done].
        injection Hrect as -> -> -> ->. done.
    + apply Hadded. unfold DetailDialog.original_rect. by rewrite Hl.
  - apply to_image_in_image. vm_compute. reflexivity.
  - apply to_image_in_image. vm_compute. reflexivity.
  - exists (DetailDialog.new_region 40 30 20 15).
    split; [vm_compute; reflexivity|]. repeat split.
Qed.

(** ** The modification status *)






Lemma set_label_confidence_status (v : list LabelConf.t) (r : Region.t) :
  Spec.status (Region.set_label_confidence v r) = Spec.status r.
Proof. reflexivity. Qed.






(** ** Saving *)

(** C9. A write that fails makes [save_json_data] raise; [save_changes]
    catches it, reports it in a critical message box and leaves the dirty
    flag set. The flag is cleared only when the user agreed to save and
    [save_json_data] returned. Whatever happens, the regions and the
    document held in memory are left as they were. *)
Theorem save_failure_keeps_dirty_flag (reply : Qt.reply)
    (written : option exn) (d : DetailDialog.t) :
  let d' := DetailDialog.save_changes reply written d in
  (forall app e, written = Some e ->
     exists msg, SilkLabelApp.save_json_data app written
                 = Raise (Exception msg))
  /\ (forall app e,
        DetailDialog.regions_modified d = true -> reply = Qt.Yes ->
        DetailDialog.parent_app d = Some app ->
        SilkLabelApp.save_json_data app written = Raise e ->
        DetailDialog.regions_modified d' = true
        /\ DetailDialog.messages d'
           = DetailDialog.messages d ++ [Qt.critical "保存错误"])
  /\ (DetailDialog.regions_modified d = true ->
      DetailDialog.regions_modified d' = false ->
      exists app,
        reply = Qt.Yes /\ DetailDialog.parent_app d = Some app
        /\ SilkLabelApp.save_json_data app written = Ok tt)
  /\ DetailDialog.regions d' = DetailDialog.regions d
  /\ DetailDialog.parent_app d' = DetailDialog.parent_app d.
Proof.
  intros d'. subst d'. unfold DetailDialog.save_changes. repeat apply conj.
  - intros app e ->. unfold SilkLabelApp.save_json_data.
    destruct (_ || _); eauto.
  - intros app e Hm -> Happ Hsave. rewrite Hm, Happ, Hsave. simpl. done.
  - intros Hm. rewrite Hm.
    destruct reply; [|simpl; congruence].
    destruct (DetailDialog.parent_app d) as [app|]; [|simpl; congruence].
    destruct (SilkLabelApp.save_json_data app written) as [[]|e] eqn:Hsave;
      [|simpl; congruence].
    eauto.
  - destruct (DetailDialog.regions_modified d), reply,
      (DetailDialog.parent_app d) as [app|]; try reflexivity.
    destruct (SilkLabelApp.save_json_data app written); reflexivity.
  - destruct (DetailDialog.regions_modified d), reply,
      (DetailDialog.parent_app d) as [app|] eqn:Happ; simpl; try done.
    destruct (SilkLabelApp.save_json_data app written); simpl; done.
Qed.

(** ** Sorting *)

Section SortFacts.
Context {A : Type} (le : A -> A -> bool).

Lemma insert_sorted_perm (a : A) (l : list A) :
  insert_sorted le a l ≡ₚ a :: l.
Proof.
  induction l as [|b l IH]; simpl; [done|].
  destruct (le a b); [done|]. rewrite IH. apply Permutation_swap.
Qed.

Lemma sort_perm (l : list A) : sort le l ≡ₚ l.
Proof.
  induction l as [|a l IH]; simpl; [done|].
  unfold sort in *. simpl. rewrite insert_sorted_perm. by rewrite IH.
Qed.

Lemma sort_elem_of (a : A) (l : list A) : a ∈ sort le l <-> a ∈ l.
Proof. by rewrite sort_perm. Qed.

Lemma sort_length (l : list A) : length (sort le l) = length l.
Proof. by rewrite sort_perm. Qed.

Lemma sort_head (l : list A) (a : A) (rest : list A) :
  sort le l = a :: rest -> a ∈ l.
Proof. intros H. apply sort_elem_of. rewrite H. left. Qed.

(** [find_index] answers the first position that satisfies the test. *)
Lemma find_index_Some (f : A -> bool) (l : list A) (i : Z) :
  find_index f l = Some i ->
  0 <= i
  /\ exists a, l !! Z.to_nat i = Some a /\ f a = true
     /\ forall (j : nat) b, (j < Z.to_nat i)%nat -> l !! j = Some b ->
          f b = false.
Proof.
  revert i. induction l as [|a l IH]; intros i; simpl; [done|].
  destruct (f a) eqn:Hfa.
  - intros [= <-]. split; [done|]. exists a. repeat split; try done.
    intros j b Hj. simpl in Hj. lia.
  - destruct (find_index f l) as [i'|]; [|done]. simpl. intros [= <-].
    destruct (IH i' eq_refl) as (H0 & b & Hb & Hfb & Hfirst).
    split; [lia|]. exists b.
    replace (Z.to_nat (Z.succ i')) with (S (Z.to_nat i')) by lia.
    repeat split; try done.
    intros [|j] c Hj Hc; simpl in Hc; [congruence|].
    eapply Hfirst; [|done]. lia.
Qed.

Lemma find_index_is_Some (f : A -> bool) (l : list A) (a : A) :
  a ∈ l -> f a = true -> is_Some (find_index f l).
Proof.
  induction 1 as [a l|a b l _ IH]; simpl; intros Hfa.
  - rewrite Hfa. eauto.
  - destruct (f b); [eauto|]. destruct (IH Hfa) as [i ->]. simpl. eauto.
Qed.

End SortFacts.

(** Sorting by an integer key gives a sorted list. *)
Lemma sort_by_key_sorted {A} (key : A -> Z) (l : list A) :
  Sorted (fun a b => key a <= key b) (sort (fun a b => key a <=? key b) l).
Proof.
  induction l as [|a l IH]; [constructor|].
  change (sort (fun a b => key a <=? key b) (a :: l))
    with (insert_sorted (fun a b => key a <=? key b) a
            (sort (fun a b => key a <=? key b) l)).
  induction IH as [|b m Hm IHm Hhd]; simpl.
  - repeat constructor.
  - destruct (Z.leb_spec (key a) (key b)).
    + constructor; [by constructor|by constructor].
    + constructor; [exact IHm|].
      destruct m as [|c m]; simpl.
      * constructor. lia.
      * destruct (Z.leb_spec (key a) (key c)); constructor; [lia|].
        by inversion Hhd.
Qed.

(** ** The two boards *)

Lemma camera_cases (camera : string) :
  camera ∈ Spec.cameras -> camera = "p1_" \/ camera = "p2_".
Proof. unfold Spec.cameras. rewrite !elem_of_cons, elem_of_nil. tauto. Qed.

(** A name has at most one camera prefix. *)
Lemma startswith_p2_not_p1 (name : string) :
  Py.startswith name "p2_" = true -> Py.startswith name "p1_" = false.
Proof.
  unfold Py.startswith.
  intros H2. destruct (String.prefix "p1_" name) eqn:H1; [|done].
  apply String.prefix_correct in H1, H2.
  change (String.length "p1_") with 3%nat in H1.
  change (String.length "p2_") with 3%nat in H2. congruence.
Qed.

Lemma index_Ok_range {A} (l : list A) (i : Z) (a : A) :
  Py.index l i = Ok a -> 0 <= i -> i < Py.len l.
Proof.
  unfold Py.index. destruct (Z.ltb_spec i 0); [lia|].
  destruct (Z.leb_spec 0 i); [|done].
  destruct (Z.ltb_spec i (Py.len l)); done.
Qed.

Lemma side_of_number_spec (number : result Z) (front : bool) :
  SilkLabelApp.side_of_number number = Some front
  <-> exists n, number = Ok n
                /\ if front then 1 <= n <= 25 else 26 <= n <= 50.
Proof.
  unfold SilkLabelApp.side_of_number. split.
  - destruct number as [n|e]; [|done].
    destruct (Z.leb_spec 1 n), (Z.leb_spec n 25), (Z.leb_spec 26 n),
      (Z.leb_spec n 50); simpl; intros [= <-]; exists n; split; done || lia.
  - intros (n & -> & Hn).
    destruct front, (Z.leb_spec 1 n), (Z.leb_spec n 25), (Z.leb_spec 26 n),
      (Z.leb_spec n 50); simpl; done || lia.
Qed.

(** The partition accepts exactly the images of [Spec.accepted]. *)
Lemma side_accepted (pic_info : PicInfo.t) (front : bool) :
  SilkLabelApp.side pic_info = Some front <-> Spec.accepted front pic_info.
Proof.
  unfold SilkLabelApp.side, Spec.accepted, Spec.number_field.
  set (name := Py.get (PicInfo.connectButtonName pic_info) "").
  set (field := Py.index (Py.split "_" name) 1).
  assert (Hnum : (exists n, (field ≫= Py.int) = Ok n
                    /\ if front then 1 <= n <= 25 else 26 <= n <= 50)
                 <-> exists f n, field = Ok f /\ Py.int f = Ok n
                       /\ if front then 1 <= n <= 25 else 26 <= n <= 50).
  { split.
    - intros (n & Hn & Hr). destruct field as [f|e]; [|done]. eauto.
    - intros (f & n & -> & Hn & Hr). eauto. }
  destruct (Py.startswith name "p1_") eqn:H1;
    [|destruct (Py.startswith name "p2_") eqn:H2].
  - rewrite side_of_number_spec, Hnum. split; [|tauto].
    intros H. split; [|done]. exists "p1_". split; [|done].
    unfold Spec.cameras. repeat constructor.
  - rewrite side_of_number_spec, Hnum. split; [|tauto].
    intros H. split; [|done]. exists "p2_". split; [|done].
    unfold Spec.cameras. repeat constructor.
  - split; [done|]. intros [(camera & Hc & Hs) _].
    destruct (camera_cases _ Hc) as [-> | ->]; congruence.
Qed.

Lemma accepted_extract_number (front : bool) (pic_info : PicInfo.t) :
  Spec.accepted front pic_info ->
  if front then 1 <= BoardView.extract_number pic_info <= 25
  else 26 <= BoardView.extract_number pic_info <= 50.
Proof.
  intros [_ (f & n & Hf & Hn & Hr)]. unfold BoardView.extract_number.
  unfold Spec.number_field in Hf.
  pose proof (index_Ok_range _ _ _ Hf) as Hlen.
  destruct (Z.leb_spec 2 (Py.len (Py.split "_"
              (Py.get (PicInfo.connectButtonName pic_info) "")))); [|lia].
  rewrite Hf. simpl. rewrite Hn. done.
Qed.

Lemma accepted_name (front : bool) (pic_info : PicInfo.t) :
  Spec.accepted front pic_info ->
  exists name camera,
    PicInfo.connectButtonName pic_info = Some name
    /\ camera ∈ Spec.cameras /\ Py.startswith name camera = true.
Proof.
  intros [(camera & Hc & Hs) _].
  destruct (PicInfo.connectButtonName pic_info) as [name|]; simpl in Hs.
  - eauto.
  - destruct (camera_cases _ Hc) as [-> | ->]; done.
Qed.

Lemma elem_of_filter_bool {A} (f : A -> bool) (l : list A) (a : A) :
  a ∈ List.filter f l <-> a ∈ l /\ f a = true.
Proof. rewrite !list_elem_of_In. apply filter_In. Qed.

Lemma front_pics_elem_of (all_pic_info : list PicInfo.t) (p : PicInfo.t) :
  p ∈ SilkLabelApp.front_pics all_pic_info
  <-> p ∈ all_pic_info /\ Spec.accepted true p.
Proof.
  unfold SilkLabelApp.front_pics.
  rewrite sort_elem_of, elem_of_filter_bool, bool_decide_eq_true.
  by rewrite side_accepted.
Qed.

Lemma back_pics_elem_of (all_pic_info : list PicInfo.t) (p : PicInfo.t) :
  p ∈ SilkLabelApp.back_pics all_pic_info
  <-> p ∈ all_pic_info /\ Spec.accepted false p.
Proof.
  unfold SilkLabelApp.back_pics.
  rewrite sort_elem_of, elem_of_filter_bool, bool_decide_eq_true.
  by rewrite side_accepted.
Qed.

Lemma camera_unique (name c1 c2 : string) :
  c1 ∈ Spec.cameras -> c2 ∈ Spec.cameras ->
  Py.startswith name c1 = true -> Py.startswith name c2 = true -> c1 = c2.
Proof.
  intros H1 H2 Hs1 Hs2.
  destruct (camera_cases _ H1) as [-> | ->],
    (camera_cases _ H2) as [-> | ->]; try done.
  - apply startswith_p2_not_p1 in Hs2. congruence.
  - apply startswith_p2_not_p1 in Hs1. congruence.
Qed.

(** One turn of the loop for an image with a camera prefix: the row is
    assigned, whatever it was, and the button is added. *)
Lemma place_camera (front : bool) (l : list PicInfo.t) (k : nat)
    (p : PicInfo.t) (name camera : string) (row : option Z)
    (buttons : list BoardView.placement) :
  PicInfo.connectButtonName p = Some name ->
  camera ∈ Spec.cameras -> Py.startswith name camera = true ->
  let c := Py.get (PicInfo.column p) 1 in
  let r := if front then BoardView.front_row l c camera k p
           else BoardView.back_row l c camera k p in
  BoardView.place front l k p row buttons
  = Ok (Some r, buttons ++ [BoardView.mk name r (c - 1)]).
Proof.
  intros Hname Hc Hs c r. subst r c. unfold BoardView.place.
  rewrite Hname. simpl.
  destruct (camera_cases _ Hc) as [-> | ->].
  - rewrite Hs. destruct front; reflexivity.
  - rewrite (startswith_p2_not_p1 _ Hs), Hs. destruct front; reflexivity.
Qed.

Lemma place_all_ok (front : bool) (l : list PicInfo.t)
    (todo : list (nat * PicInfo.t)) :
  (forall k p, (k, p) ∈ todo ->
     exists name camera,
       PicInfo.connectButtonName p = Some name
       /\ camera ∈ Spec.cameras /\ Py.startswith name camera = true) ->
  forall row buttons, exists placed,
    BoardView.place_all front l todo row buttons = Ok (buttons ++ placed)
    /\ length placed = length todo
    /\ forall (j k : nat) p name camera,
         todo !! j = Some (k, p) ->
         PicInfo.connectButtonName p = Some name ->
         camera ∈ Spec.cameras -> Py.startswith name camera = true ->
         placed !! j
         = Some (BoardView.mk name
                   (if front
                    then BoardView.front_row l (Py.get (PicInfo.column p) 1)
                           camera k p
                    else BoardView.back_row l (Py.get (PicInfo.column p) 1)
                           camera k p)
                   (Py.get (PicInfo.column p) 1 - 1)).
Proof.
  induction todo as [|[k p] rest IH]; intros Hcam row buttons; simpl.
  - exists []. rewrite app_nil_r. repeat split; done.
  - destruct (Hcam k p) as (name0 & cam0 & Hn0 & Hc0 & Hs0); [left|].
    rewrite (place_camera front l k p name0 cam0 row buttons Hn0 Hc0 Hs0).
    simpl.
    assert (Hrest : forall k' p', (k', p') ∈ rest ->
              exists name camera,
                PicInfo.connectButtonName p' = Some name
                /\ camera ∈ Spec.cameras
                /\ Py.startswith name camera = true).
    { intros k' p' Hin. apply (Hcam k' p'). by right. }
    match goal with
    | |- context [BoardView.place_all _ _ _ ?row' ?buttons'] =>
        destruct (IH Hrest row' buttons') as (placed & -> & Hlen & Hplaced)
    end.
    eexists (_ :: placed). rewrite <- app_assoc. simpl.
    split; [done|]. split; [by rewrite Hlen|].
    intros [|j] k' p' name camera Hj Hn Hc Hs; simpl in *.
    + injection Hj as <- <-.
      assert (name = name0) as -> by congruence.
      by rewrite (camera_unique name0 camera cam0).
    + eauto.
Qed.

Lemma enumerate_lookup (l : list PicInfo.t) (k : nat) (p : PicInfo.t) :
  l !! k = Some p -> BoardView.enumerate l !! k = Some (k, p).
Proof.
  intros H. unfold BoardView.enumerate. rewrite list_lookup_imap, H. done.
Qed.

Lemma enumerate_elem_of (l : list PicInfo.t) (k : nat) (p : PicInfo.t) :
  (k, p) ∈ BoardView.enumerate l <-> l !! k = Some p.
Proof.
  unfold BoardView.enumerate. rewrite elem_of_lookup_imap. split.
  - intros (i & x & [= -> ->] & Hx). done.
  - intros H. eauto.
Qed.

(** An image with a column and a camera prefix is found in the sorted
    list of its column and camera. *)
Lemma index_in_column_is_Some (l : list PicInfo.t) (k : nat) (p : PicInfo.t)
    (c : Z) (name camera : string) :
  l !! k = Some p -> PicInfo.column p = Some c ->
  PicInfo.connectButtonName p = Some name ->
  Py.startswith name camera = true ->
  is_Some (BoardView.index_in_column l c camera k p).
Proof.
  intros Hk Hc Hn Hs. unfold BoardView.index_in_column.
  apply (find_index_is_Some _ _ (k, p)).
  - unfold BoardView.pics_in_column.
    rewrite sort_elem_of, elem_of_filter_bool, enumerate_elem_of.
    split; [done|]. simpl. rewrite Hc, Hn. simpl.
    rewrite Z.eqb_refl, Hs. done.
  - unfold BoardView.same. simpl. by rewrite Nat.eqb_refl.
Qed.

Lemma serpentine_front_row (l : list PicInfo.t) (c : Z) (camera : string)
    (k : nat) (p : PicInfo.t) (i r : Z) :
  BoardView.index_in_column l c camera k p = Some i ->
  (Spec.serpentine_row true c i = Some r ->
   BoardView.front_row l c camera k p = r)
  /\ (Spec.serpentine_row false c i = Some r ->
      BoardView.back_row l c camera k p = r).
Proof.
  intros Hi. unfold BoardView.front_row, BoardView.back_row,
    Spec.serpentine_row, BoardView.reversed_column.
  rewrite Hi.
  repeat case_bool_decide;
    repeat match goal with
           | H : _ ∈ _ :: _ |- _ => apply elem_of_cons in H as [->|H]
           | H : _ ∈ [] |- _ => apply elem_of_nil in H; destruct H
           end;
    simpl; split; try done; try (intros [= <-]; done).
  all: exfalso;
    repeat match goal with
           | H : ¬ _ ∈ _ :: _ |- _ => apply not_elem_of_cons in H as [? H]
           end;
    destruct (Z.eqb_spec c 3), (Z.eqb_spec c 4), (Z.eqb_spec c 7),
      (Z.eqb_spec c 8); simpl in *; try lia.
Qed.

(** *** The sequence of a camera in a column *)

Section Stable.
Context {A : Type} (key : A -> Z) (place : A -> nat).

(** Inserting an element that comes first in the list keeps the order
    by key and, among equal keys, by place. *)
Lemma insert_sorted_stable (a : A) (l : list A) :
  Sorted (fun a b => key a < key b \/ (key a = key b /\ (place a < place b)%nat))
    l ->
  Forall (fun b => (place a < place b)%nat) l ->
  Sorted (fun a b => key a < key b \/ (key a = key b /\ (place a < place b)%nat))
    (insert_sorted (fun a b => key a <=? key b) a l).
Proof.
  induction 1 as [|b m Hm IHm Hhd]; intros Hall; simpl.
  - repeat constructor.
  - apply Forall_cons in Hall as [Hab Hall].
    destruct (Z.leb_spec (key a) (key b)).
    + constructor; [by constructor|]. constructor. lia.
    + constructor; [by apply IHm|].
      destruct m as [|c m]; simpl.
      * constructor. lia.
      * destruct (Z.leb_spec (key a) (key c)); constructor; [lia|].
        by inversion Hhd.
Qed.

(** The sort is stable. *)
Lemma sort_stable (l : list A) :
  StronglySorted (fun a b => (place a < place b)%nat) l ->
  Sorted (fun a b => key a < key b \/ (key a = key b /\ (place a < place b)%nat))
    (sort (fun a b => key a <=? key b) l).
Proof.
  induction 1 as [|a l Hl IH Hall]; [constructor|].
  change (sort (fun a b => key a <=? key b) (a :: l))
    with (insert_sorted (fun a b => key a <=? key b) a
            (sort (fun a b => key a <=? key b) l)).
  apply insert_sorted_stable; [exact IH|].
  apply Forall_lookup. intros i b Hb.
  apply list_elem_of_lookup_2, sort_elem_of in Hb.
  apply list_elem_of_lookup in Hb as [j Hj].
  by apply (Forall_lookup_1 _ _ _ _ Hall Hj).
Qed.

End Stable.

Lemma StronglySorted_filter {A} (R : A -> A -> Prop) (f : A -> bool)
    (l : list A) :
  StronglySorted R l -> StronglySorted R (List.filter f l).
Proof.
  induction 1 as [|a l Hl IH Hall]; simpl; [constructor|].
  destruct (f a); [|exact IH]. constructor; [exact IH|].
  apply Forall_lookup. intros i b Hb.
  apply list_elem_of_lookup_2, elem_of_filter_bool in Hb as [Hb _].
  apply list_elem_of_lookup in Hb as [j Hj].
  by apply (Forall_lookup_1 _ _ _ _ Hall Hj).
Qed.

Lemma Sorted_weaken {A} (R R' : A -> A -> Prop) (l : list A) :
  (forall a b, R a b -> R' a b) -> Sorted R l -> Sorted R' l.
Proof.
  intros HR. induction 1 as [|a l Hl IH Hhd]; constructor; [exact IH|].
  destruct Hhd; constructor. by apply HR.
Qed.

(** The places of an enumerated list increase. *)
Lemma imap_places {A} (l : list A) (n : nat) :
  StronglySorted (fun a b : nat * A => (a.1 < b.1)%nat)
    (imap (fun i p => ((n + i)%nat, p)) l).
Proof.
  revert n. induction l as [|x l IH]; intros n; simpl; constructor.
  - rewrite (imap_ext _ (fun i p => ((S n + i)%nat, p))); [apply IH|].
    intros i p _. simpl. f_equal. lia.
  - apply Forall_lookup. intros i [k q] H.
    rewrite list_lookup_imap in H.
    destruct (l !! i); simpl in H; [|done].
    injection H as <- <-. simpl. lia.
Qed.

Lemma extract_number_number (pic_info : PicInfo.t) :
  BoardView.extract_number pic_info = Spec.number pic_info.
Proof.
  unfold BoardView.extract_number, Spec.number, Spec.number_field.
  set (parts := Py.split "_" _).
  destruct (Z.leb_spec 2 (Py.len parts)); [reflexivity|].
  unfold Py.index. simpl.
  destruct (Z.ltb_spec 1 (Py.len parts)); [lia|]. reflexivity.
Qed.

(** The list in which the code looks an image up is the sequence of the
    camera in the column. *)
Lemma pics_in_column_sequence (l : list PicInfo.t) (c : Z) (camera : string) :
  Spec.column_sequence l c camera (BoardView.pics_in_column l c camera).
Proof.
  unfold Spec.column_sequence, BoardView.pics_in_column, BoardView.enumerate.
  split.
  - rewrite sort_perm.
    erewrite List.filter_ext; [reflexivity|].
    intros [k p]. cbn [fst snd]. f_equal.
    destruct (PicInfo.column p) as [c'|]; cbn [Region.opt_eqb].
    + destruct (Z.eqb_spec c' c) as [->|Hne]; symmetry.
      * by apply bool_decide_eq_true_2.
      * apply bool_decide_eq_false_2. congruence.
    + symmetry. by apply bool_decide_eq_false_2.
  - eapply Sorted_weaken;
      [|apply (sort_stable (fun e : nat * PicInfo.t =>
                              BoardView.extract_number e.2) fst)].
    + intros a b. simpl. rewrite !extract_number_number. done.
    + apply StronglySorted_filter. exact (imap_places l 0).
Qed.

(** The position found for an image is that of the first element of the
    sequence that is the image itself or equal to it. *)
Lemma index_in_column_spec (l : list PicInfo.t) (c : Z) (camera : string)
    (k : nat) (p : PicInfo.t) (i : Z) :
  BoardView.index_in_column l c camera k p = Some i ->
  Spec.position_in (BoardView.pics_in_column l c camera) k p i.
Proof.
  unfold Spec.position_in.
  intros Hi. apply find_index_Some in Hi as (H0 & e & He & Hsame & Hfirst).
  split; [done|]. exists e. split; [done|]. split.
  - unfold BoardView.same in Hsame. apply orb_true_iff in Hsame as [H|H].
    + left. by apply Nat.eqb_eq.
    + by right.
  - intros j e' Hj He'. pose proof (Hfirst j e' Hj He') as Hf.
    unfold BoardView.same in Hf. apply orb_false_iff in Hf as [H1 H2].
    split; [by apply Nat.eqb_neq|done].
Qed.

(** A list of images accepted for one side is laid out on that side,
    without an exception; every button carries the name of its image. *)
Lemma add_buttons_laid_out (front : bool) (l : list PicInfo.t) :
  (forall p, p ∈ l -> Spec.accepted front p) ->
  exists placed,
    BoardView.add_buttons l = Ok placed
    /\ Spec.laid_out front l placed
    /\ forall (k : nat) pl, placed !! k = Some pl ->
         exists q, l !! k = Some q
                   /\ PicInfo.connectButtonName q
                      = Some (BoardView.button_name pl).
Proof.
  intros Hacc.
  assert (Hcam : forall k p, (k, p) ∈ BoardView.enumerate l ->
            exists name camera,
              PicInfo.connectButtonName p = Some name
              /\ camera ∈ Spec.cameras /\ Py.startswith name camera = true).
  { intros k p Hin. apply enumerate_elem_of in Hin.
    apply (accepted_name front), Hacc. by eapply list_elem_of_lookup_2. }
  assert (Hfront : l <> [] -> BoardView.is_front l = front).
  { destruct l as [|p0 l']; [done|]. intros _. simpl.
    pose proof (accepted_extract_number front p0 (Hacc p0 ltac:(left))) as Hn.
    destruct front, (Z.leb_spec (BoardView.extract_number p0) 25);
      done || lia. }
  destruct (place_all_ok front l (BoardView.enumerate l) Hcam None [])
    as (placed & Hplaced & Hlen & Hat).
  assert (Hlen' : length placed = length l).
  { rewrite Hlen. unfold BoardView.enumerate. by rewrite length_imap. }
  exists placed. split; [|split].
  - unfold BoardView.add_buttons. destruct l as [|p0 l'] eqn:Hl.
    + destruct placed; done.
    + rewrite <- Hl in *. rewrite Hfront by (subst l; done). exact Hplaced.
  - split; [done|]. intros k p c Hk Hc.
    destruct (Hcam k p) as (name & camera & Hn & Hcm & Hs);
      [by apply enumerate_elem_of|].
    destruct (index_in_column_is_Some l k p c name camera Hk Hc Hn Hs)
      as [i Hi].
    pose proof (Hat k k p name camera (enumerate_lookup l k p Hk) Hn Hcm Hs)
      as Hpl.
    rewrite Hc in Hpl. simpl in Hpl.
    exists name, camera, (BoardView.pics_in_column l c camera), i.
    eexists. split; [done|]. split; [done|]. split; [done|].
    split; [apply pics_in_column_sequence|].
    split; [by apply index_in_column_spec|]. split; [exact Hpl|].
    intros r Hr. destruct (serpentine_front_row l c camera k p i r Hi).
    destruct front; auto.
  - intros k pl Hpl.
    destruct (lookup_lt_is_Some_2 l k) as [q Hq].
    { rewrite <- Hlen'. by eapply lookup_lt_Some. }
    destruct (Hcam k q) as (name & camera & Hn & Hcm & Hs);
      [by apply enumerate_elem_of|].
    pose proof (Hat k k q name camera (enumerate_lookup l k q Hq) Hn Hcm Hs)
      as Hpl'.
    exists q. split; [done|]. rewrite Hpl in Hpl'. injection Hpl' as ->. done.
Qed.

(** C2. The images kept for the front are laid out by the front rule and
    the images kept for the back by the inverted rule, each in grid
    column [column - 1] and in the row the serpentine rule gives for its
    position in the sequence of its camera and column: the images of the
    list in that column with the prefix of that camera, in the order of
    their numbers, images of equal number in the order of the list; no
    exception is raised. Front images 1 to 5 in column 1 and 11 to 15 in
    column 3 get the rows 5, 4, 3, 2, 1 and 1, 2, 3, 4, 5. *)
Theorem board_layout_serpentine (all_pic_info : list PicInfo.t) :
  exists front back example,
    BoardView.add_buttons (SilkLabelApp.front_pics all_pic_info) = Ok front
    /\ Spec.laid_out true (SilkLabelApp.front_pics all_pic_info) front
    /\ BoardView.add_buttons (SilkLabelApp.back_pics all_pic_info) = Ok back
    /\ Spec.laid_out false (SilkLabelApp.back_pics all_pic_info) back
    /\ SilkLabelApp.front_pics Examples.two_columns = Examples.two_columns
    /\ BoardView.add_buttons Examples.two_columns = Ok example
    /\ BoardView.row <$> example = [5; 4; 3; 2; 1; 1; 2; 3; 4; 5]
    /\ BoardView.col <$> example = [0; 0; 0; 0; 0; 2; 2; 2; 2; 2].
Proof.
  destruct (add_buttons_laid_out true (SilkLabelApp.front_pics all_pic_info))
    as (front & Hf & Hlf & _).
  { intros p Hp. by apply front_pics_elem_of in Hp as [_ ?]. }
  destruct (add_buttons_laid_out false (SilkLabelApp.back_pics all_pic_info))
    as (back & Hb & Hlb & _).
  { intros p Hp. by apply back_pics_elem_of in Hp as [_ ?]. }
  exists front, back. eexists.
  repeat (split; [eassumption|]).
  split; [vm_compute; reflexivity|].
  split; [vm_compute; reflexivity|].
  split; reflexivity.
Qed.

Lemma excluded_not_accepted (p : PicInfo.t) (front : bool) :
  Spec.excluded p -> ~ Spec.accepted front p.
Proof.
  intros Hex [(camera & Hc & Hs) (f & n & Hf & Hn & Hr)].
  destruct Hex as [Hno|[[e He]|(m & Hm & Hout)]].
  - rewrite (Hno camera Hc) in Hs. done.
  - rewrite Hf in He. simpl in He. congruence.
  - rewrite Hf in Hm. simpl in Hm.
    assert (m = n) as -> by congruence. destruct front; lia.
Qed.

(** Whether an image is accepted depends on its name only. *)
Lemma accepted_same_name (p q : PicInfo.t) (front : bool) :
  PicInfo.connectButtonName p = PicInfo.connectButtonName q ->
  Spec.accepted front p -> Spec.accepted front q.
Proof.
  unfold Spec.accepted, Spec.number_field. intros ->. done.
Qed.

(** C10, as the code has it. An image whose name has no camera prefix,
    or whose number field (the text between the first underscore and the
    next one, or the end) is missing or is not read by [int], or whose
    number is outside 1..50, is in neither list; the lists hold exactly
    the accepted images; for a document with images the two grids are
    built without any message box, and no button of either grid bears
    the name of the excluded image. *)
Theorem partition_excludes (all_pic_info : list PicInfo.t) (p : PicInfo.t) :
  Spec.excluded p ->
  (p ∉ SilkLabelApp.front_pics all_pic_info)
  /\ (p ∉ SilkLabelApp.back_pics all_pic_info)
  /\ (forall q, q ∈ SilkLabelApp.front_pics all_pic_info
                <-> q ∈ all_pic_info /\ Spec.accepted true q)
  /\ (forall q, q ∈ SilkLabelApp.back_pics all_pic_info
                <-> q ∈ all_pic_info /\ Spec.accepted false q)
  /\ (forall app doc,
        SilkLabelApp.json_data app = Some doc ->
        SilkLabelApp.currentBlackboard doc
        = Some (SilkLabelApp.mkBlackboard (Some all_pic_info)) ->
        all_pic_info <> [] ->
        exists front back,
          SilkLabelApp.process_board_data app
          = SilkLabelApp.mkBoards front back []
          /\ forall pl, pl ∈ front ++ back ->
               PicInfo.connectButtonName p
               <> Some (BoardView.button_name pl)).
Proof.
  intros Hex.
  split; [rewrite front_pics_elem_of;
          intros [_ ?]; by eapply excluded_not_accepted|].
  split; [rewrite back_pics_elem_of;
          intros [_ ?]; by eapply excluded_not_accepted|].
  split; [apply front_pics_elem_of|].
  split; [apply back_pics_elem_of|].
  intros app doc Hjson Hboard Hne.
  destruct (add_buttons_laid_out true (SilkLabelApp.front_pics all_pic_info))
    as (front & Hf & _ & Hnf).
  { intros q Hq. by apply front_pics_elem_of in Hq as [_ ?]. }
  destruct (add_buttons_laid_out false (SilkLabelApp.back_pics all_pic_info))
    as (back & Hb & _ & Hnb).
  { intros q Hq. by apply back_pics_elem_of in Hq as [_ ?]. }
  exists front, back. split.
  - unfold SilkLabelApp.process_board_data, SilkLabelApp.document_truthy.
    rewrite Hjson, Hboard.
    rewrite (bool_decide_eq_true_2 (is_Some (Some _))) by eauto.
    rewrite orb_true_r. simpl.
    destruct all_pic_info as [|q qs]; [done|]. by rewrite Hf, Hb.
  - intros pl Hin Hname. apply elem_of_app in Hin as [Hin|Hin];
      apply list_elem_of_lookup in Hin as [k Hk].
    + destruct (Hnf k pl Hk) as (q & Hq & Hqn).
      apply list_elem_of_lookup_2, front_pics_elem_of in Hq as [_ Hacc].
      eapply excluded_not_accepted; [exact Hex|].
      eapply accepted_same_name; [|exact Hacc]. congruence.
    + destruct (Hnb k pl Hk) as (q & Hq & Hqn).
      apply list_elem_of_lookup_2, back_pics_elem_of in Hq as [_ Hacc].
      eapply excluded_not_accepted; [exact Hex|].
      eapply accepted_same_name; [|exact Hacc]. congruence.
Qed.

(** C10, as stated, fails: in the name p1_7_x the text after the prefix
    is 7_x, which [int] does not read, and yet the image is kept for the
    front and gets a button. *)
Lemma suffix_not_integer_kept :
  let p := Examples.pic "p1_7_x" 2 in
  Py.startswith "p1_7_x" "p1_" = true
  /\ Py.int "7_x" = Raise ValueError
  /\ (p ∈ SilkLabelApp.front_pics [p])
  /\ SilkLabelApp.front_view
       (SilkLabelApp.process_board_data (Examples.app_with [p]))
     = [BoardView.mk "p1_7_x" 5 1].
Proof.
  repeat split; try (vm_compute; reflexivity).
  vm_compute. left.
Qed.

(** * Further properties *)

(** ** The dialog: selection, browsing, closing *)

Lemma data_with_image_label f (d : DetailDialog.t) :
  Inv.data (DetailDialog.with_image_label f d) = Inv.data d.
Proof.
  unfold DetailDialog.with_image_label, Inv.data.
  destruct (DetailDialog.image_label d) eqn:Hl; simpl; rewrite ?Hl; done.
Qed.

(** Setting the spin box while the guard attribute is there, or while
    nothing is selected, changes what the spin box shows and nothing
    else. *)
Lemma modify_spin_setValue_shown (v : Z) (d : DetailDialog.t) :
  DetailDialog.updating_modify_status d = true
  \/ DetailDialog.current_region_index d < 0 ->
  exists s, DetailDialog.modify_spin_setValue v d
            = Ok (DetailDialog.set_modify_spin s d).
Proof.
  intros Hguard. unfold DetailDialog.modify_spin_setValue.
  destruct (_ =? _).
  - exists (DetailDialog.modify_spin d). by destruct d.
  - exists (Qt.bound 0 2 v). unfold DetailDialog.on_modify_changed. simpl.
    destruct (Z.leb_spec 0 (DetailDialog.current_region_index d)); [|done].
    destruct Hguard as [Hg|?]; [|lia]. by rewrite Hg.
Qed.

Lemma load_region_data_data (region : Region.t) (d : DetailDialog.t) :
  exists d',
    DetailDialog.load_region_data region d = Ok d'
    /\ Inv.data d' = Inv.data d
    /\ DetailDialog.current_region_index d'
       = DetailDialog.current_region_index d.
Proof.
  unfold DetailDialog.load_region_data, DetailDialog.get_region_class_id.
  rewrite get_region_class_id_body_ok. simpl.
  destruct (modify_spin_setValue_shown
              (Py.get (Region.modified_status region) 0)
              (DetailDialog.set_updating_modify_status true d))
    as [s ->]; [by left|].
  simpl. eexists. split; [done|]. done.
Qed.

Lemma on_region_clicked_data (region_index : Z) (d : DetailDialog.t) :
  exists d',
    DetailDialog.on_region_clicked region_index d = Ok d'
    /\ Inv.data d' = Inv.data d
    /\ DetailDialog.current_region_index d' = region_index.
Proof.
  unfold DetailDialog.on_region_clicked. simpl.
  destruct (_ && _) eqn:Hrange; [|by eexists].
  apply andb_true_iff in Hrange as [H0 H1].
  apply Z.leb_le in H0. apply Z.ltb_lt in H1.
  destruct (index_lookup (DetailDialog.regions d) region_index)
    as (r & _ & ->); [done|]. simpl.
  destruct (load_region_data_data r
              (DetailDialog.set_current_region_index region_index d))
    as (d' & -> & Hd & Hi).
  simpl. eexists. split; [done|].
  rewrite data_with_image_label, with_image_label_index. done.
Qed.




Lemma data_regions (d d' : DetailDialog.t) :
  Inv.data d' = Inv.data d ->
  DetailDialog.regions d' = DetailDialog.regions d
  /\ DetailDialog.regions_modified d' = DetailDialog.regions_modified d
  /\ DetailDialog.messages d' = DetailDialog.messages d
  /\ DetailDialog.add_defect_mode d' = DetailDialog.add_defect_mode d.
Proof. unfold Inv.data. intros [= -> -> -> _ _ -> _ _]. done. Qed.

(** The image label keeps its add-defect mode and its drawing flag
    through every redraw. *)
Lemma update_display_mode (l : ImageLabel.t) :
  ImageLabel.add_defect_mode (ImageLabel.update_display l)
  = ImageLabel.add_defect_mode l
  /\ ImageLabel.drawing (ImageLabel.update_display l) = ImageLabel.drawing l.
Proof.
  unfold ImageLabel.update_display.
  destruct (ImageLabel.original_pixmap l) as [[w h]|]; [|done].
  destruct (_ ← _; _) as [[nw nh]|e]; [|done].
  destruct (_ || _); done.
Qed.

Lemma set_selected_region_mode (i : Z) (l : ImageLabel.t) :
  ImageLabel.add_defect_mode (ImageLabel.set_selected_region i l)
  = ImageLabel.add_defect_mode l
  /\ ImageLabel.drawing (ImageLabel.set_selected_region i l)
     = ImageLabel.drawing l.
Proof.
  unfold ImageLabel.set_selected_region.
  destruct (update_display_mode (ImageLabel.set_selected_region_index i l))
    as [-> ->]. done.
Qed.

Lemma focus_on_region_mode (regions : list Region.t) (i : Z)
    (l : ImageLabel.t) :
  ImageLabel.add_defect_mode (ImageLabel.focus_on_region regions i l)
  = ImageLabel.add_defect_mode l
  /\ ImageLabel.drawing (ImageLabel.focus_on_region regions i l)
     = ImageLabel.drawing l.
Proof.
  unfold ImageLabel.focus_on_region. destruct (_ && _); [|done].
  match goal with |- context [ImageLabel.update_display ?x] =>
    destruct (update_display_mode x) as [-> ->] end.
  done.
Qed.

Lemma set_image_and_regions_mode (loaded : option (Z * Z))
    (l : ImageLabel.t) :
  ImageLabel.add_defect_mode (ImageLabel.set_image_and_regions loaded l)
  = ImageLabel.add_defect_mode l
  /\ ImageLabel.drawing (ImageLabel.set_image_and_regions loaded l)
     = ImageLabel.drawing l.
Proof.
  unfold ImageLabel.set_image_and_regions.
  destruct loaded as [[w h]|]; [|done].
  destruct (_ && _); [done|].
  match goal with |- context [ImageLabel.update_display ?x] =>
    destruct (update_display_mode x) as [-> ->] end.
  done.
Qed.

(** What [load_region_data] and [on_region_clicked] return, to the
    letter: only the spin box, the guard and the image label change. *)
Lemma load_region_data_shape (region : Region.t) (d : DetailDialog.t) :
  exists s,
    DetailDialog.load_region_data region d
    = Ok (DetailDialog.set_updating_modify_status false
            (DetailDialog.set_modify_spin s
               (DetailDialog.set_updating_modify_status true d))).
Proof.
  unfold DetailDialog.load_region_data, DetailDialog.get_region_class_id.
  rewrite get_region_class_id_body_ok. simpl.
  destruct (modify_spin_setValue_shown
              (Py.get (Region.modified_status region) 0)
              (DetailDialog.set_updating_modify_status true d))
    as [s ->]; [by left|].
  by exists s.
Qed.

Lemma on_region_clicked_shape (region_index : Z) (d : DetailDialog.t) :
  exists s,
    DetailDialog.on_region_clicked region_index d
    = Ok (if (0 <=? region_index)
             && (region_index <? Py.len (DetailDialog.regions d))
          then DetailDialog.with_image_label
                 (ImageLabel.set_selected_region region_index)
                 (DetailDialog.set_updating_modify_status false
                    (DetailDialog.set_modify_spin s
                       (DetailDialog.set_updating_modify_status true
                          (DetailDialog.set_current_region_index
                             region_index d))))
          else DetailDialog.set_current_region_index region_index d).
Proof.
  unfold DetailDialog.on_region_clicked. simpl.
  destruct (_ && _) eqn:Hrange; [|by exists 0].
  apply andb_true_iff in Hrange as [H0 H1].
  apply Z.leb_le in H0. apply Z.ltb_lt in H1.
  destruct (index_lookup (DetailDialog.regions d) region_index)
    as (r & _ & ->); [done|]. simpl.
  destruct (load_region_data_shape r
              (DetailDialog.set_current_region_index region_index d))
    as [s ->].
  by exists s.
Qed.




(** ** The image button: confirmation counts *)

Lemma count_confirmed_spec (regions : list Region.t) (c u : Z) :
  ImageButton.count_confirmed regions c u
  = (c + Z.of_nat (length (List.filter (fun r => 0 <? Spec.status r) regions)),
     u + Z.of_nat (length (List.filter (fun r => negb (0 <? Spec.status r))
                             regions))).
Proof.
  revert c u. induction regions as [|r rest IH]; intros c u; simpl.
  - f_equal; lia.
  - unfold Spec.status in *.
    destruct (0 <? Py.get (Region.modified_status r) 0); simpl;
      rewrite IH; f_equal; lia.
Qed.

Lemma filter_length_split {A} (f : A -> bool) (l : list A) :
  (length (List.filter f l) + length (List.filter (fun a => negb (f a)) l)
   = length l)%nat.
Proof.
  induction l as [|a l IH]; simpl; [done|].
  destruct (f a); simpl; lia.
Qed.

Lemma count_cleanliness_regions_spec (regions : list Region.t) :
  ImageButton.count_cleanliness_regions regions
  = Ok (Z.of_nat (length (List.filter
                            (fun r => Spec.effective_class_id r =? 10)
                            regions))).
Proof.
  induction regions as [|r rest IH]; simpl; [done|].
  unfold ImageButton.get_region_class_id.
  rewrite get_region_class_id_body_ok, IH. simpl.
  destruct (Spec.effective_class_id r =? 10); simpl; f_equal; lia.
Qed.


(** ** Confirming every region with the space key *)


(** ** The selection stays a region of the list *)









Lemma save_changes_cleared (save_reply : Qt.reply) (written : option exn)
    (d : DetailDialog.t) :
  DetailDialog.regions_modified d = true ->
  DetailDialog.regions_modified (DetailDialog.save_changes save_reply written d)
  = false
  <-> save_reply = Qt.Yes
      /\ exists app,
           DetailDialog.parent_app d = Some app
           /\ SilkLabelApp.save_json_data app written = Ok tt.
Proof.
  intros Hm. unfold DetailDialog.save_changes. rewrite Hm.
  destruct save_reply; simpl.
  - destruct (DetailDialog.parent_app d) as [app|] eqn:Happ; simpl.
    + destruct (SilkLabelApp.save_json_data app written) as [[]|e] eqn:Hsave;
        simpl.
      * split; [|done]. intros _. split; [done|]. eauto.
      * rewrite Hm. split; [done|].
        intros [_ (app' & [= <-] & Hs)]. congruence.
    + rewrite Hm. split; [done|]. intros [_ (app' & ? & _)]. done.
  - rewrite Hm. split; [done|]. by intros [? _].
Qed.

Lemma save_changes_regions (save_reply : Qt.reply) (written : option exn)
    (d : DetailDialog.t) :
  DetailDialog.regions (DetailDialog.save_changes save_reply written d)
  = DetailDialog.regions d.
Proof.
  unfold DetailDialog.save_changes.
  destruct (DetailDialog.regions_modified d), save_reply,
    (DetailDialog.parent_app d) as [app|]; try reflexivity.
  destruct (SilkLabelApp.save_json_data app written); reflexivity.
Qed.

(** X4. Closing the dialog. The close is refused only when there are
    unsaved edits and the answer is Cancel. Answering Save runs
    [save_changes] and then accepts the close whatever came of it: when
    the second question is answered No, or the write fails, the dialog
    closes with its dirty flag still set. Discard and Cancel leave
    the dialog as it is. The regions are never touched, and the dirty
    flag is cleared only by a write that succeeded. *)
Theorem closeEvent_accepts (reply : DetailDialog.close_reply)
    (save_reply : Qt.reply) (written : option exn) (d : DetailDialog.t) :
  let d' := (DetailDialog.closeEvent reply save_reply written d).1 in
  let accepted := (DetailDialog.closeEvent reply save_reply written d).2 in
  (accepted = false
   <-> DetailDialog.regions_modified d = true
       /\ reply = DetailDialog.Cancel)
  /\ DetailDialog.regions d' = DetailDialog.regions d
  /\ (reply <> DetailDialog.Save -> d' = d)
  /\ (DetailDialog.regions_modified d = false -> d' = d)
  /\ (DetailDialog.regions_modified d = true -> reply = DetailDialog.Save ->
      d' = DetailDialog.save_changes save_reply written d
      /\ accepted = true
      /\ (DetailDialog.regions_modified d' = false
          <-> save_reply = Qt.Yes
              /\ exists app,
                   DetailDialog.parent_app d = Some app
                   /\ SilkLabelApp.save_json_data app written = Ok tt)).
Proof.
  intros d' accepted. subst d' accepted. unfold DetailDialog.closeEvent.
  destruct (DetailDialog.regions_modified d) eqn:Hm.
  - destruct reply; cbn [fst snd].
    + split; [split; [done|by intros [_ ?]]|].
      split; [apply save_changes_regions|].
      split; [done|]. split; [done|]. intros _ _.
      split; [done|]. split; [done|]. by apply save_changes_cleared.
    + split; [split; [done|by intros [_ ?]]|]. done.
    + split; [done|]. done.
  - cbn [fst snd]. split; [split; [done|by intros [? _]]|]. done.
Qed.




(** ** A redraw changes the scale factor only *)


Lemma same_mode_refl (d : DetailDialog.t) : Inv.same_mode d d.
Proof. intros l Hl. eauto. Qed.

Lemma same_mode_trans (d1 d2 d3 : DetailDialog.t) :
  Inv.same_mode d1 d2 -> Inv.same_mode d2 d3 -> Inv.same_mode d1 d3.
Proof.
  intros H12 H23 l3 Hl3.
  destruct (H23 l3 Hl3) as (l2 & Hl2 & Ha & Hb).
  destruct (H12 l2 Hl2) as (l1 & Hl1 & Ha' & Hb').
  exists l1. split; [done|]. split; congruence.
Qed.

Lemma same_mode_with_image_label (f : ImageLabel.t -> ImageLabel.t)
    (d : DetailDialog.t) :
  (forall l, ImageLabel.add_defect_mode (f l) = ImageLabel.add_defect_mode l
             /\ ImageLabel.drawing (f l) = ImageLabel.drawing l) ->
  Inv.same_mode d (DetailDialog.with_image_label f d).
Proof.
  intros Hf l' Hl'. unfold DetailDialog.with_image_label in Hl'.
  destruct (DetailDialog.image_label d) as [l|] eqn:Hl.
  - simpl in Hl'. injection Hl' as <-. exists l. split; [done|]. apply Hf.
  - congruence.
Qed.

Lemma same_mode_image_label (d d' : DetailDialog.t) :
  DetailDialog.image_label d' = DetailDialog.image_label d ->
  Inv.same_mode d d'.
Proof. intros Heq l' Hl'. rewrite Heq in Hl'. eauto. Qed.

Lemma on_region_clicked_same_mode (i : Z) (d d' : DetailDialog.t) :
  DetailDialog.on_region_clicked i d = Ok d' -> Inv.same_mode d d'.
Proof.
  destruct (on_region_clicked_shape i d) as [s ->].
  destruct (_ && _); intros [= <-].
  - eapply same_mode_trans;
      [|apply same_mode_with_image_label; apply set_selected_region_mode].
    by apply same_mode_image_label.
  - by apply same_mode_image_label.
Qed.

(** ** The add-defect mode *)

Lemma toggle_keeps_modes_together (d : DetailDialog.t) :
  Inv.mode_synced (DetailDialog.toggle_add_defect_mode d)
  /\ (DetailDialog.add_defect_mode (DetailDialog.toggle_add_defect_mode d)
      = false ->
      forall l,
        DetailDialog.image_label (DetailDialog.toggle_add_defect_mode d)
        = Some l ->
        ImageLabel.drawing l = false).
Proof.
  unfold DetailDialog.toggle_add_defect_mode, Inv.mode_synced,
    DetailDialog.with_image_label.
  simpl. destruct (DetailDialog.image_label d) as [l0|] eqn:Hl; simpl.
  - destruct (DetailDialog.add_defect_mode d); simpl.
    + destruct (update_display_mode (ImageLabel.set_mode false false l0))
        as [Ha Hb].
      split; [intros l [= <-]; by rewrite Ha|].
      intros _ l [= <-]. by rewrite Hb.
    + split; [by intros l [= <-]|done].
  - rewrite Hl. done.
Qed.

(** X6. The add-defect mode of the dialog and that of its image label
    move together. Toggling flips the mode of the dialog and gives the
    image label the same mode; on leaving the mode a drag that was under
    way is dropped. A dragged rectangle that can be converted adds its
    region and toggles the mode, so that a region added in add-defect
    mode leaves the dialog out of it; a rectangle that cannot be
    converted leaves the mode as it was. *)
Theorem add_defect_mode_synced (d : DetailDialog.t) :
  let d1 := DetailDialog.toggle_add_defect_mode d in
  DetailDialog.add_defect_mode d1 = negb (DetailDialog.add_defect_mode d)
  /\ Inv.mode_synced d1
  /\ (DetailDialog.add_defect_mode d1 = false ->
      forall l, DetailDialog.image_label d1 = Some l ->
                ImageLabel.drawing l = false)
  /\ forall x y width height,
       let d2 := DetailDialog.add_new_defect_region x y width height d in
       match DetailDialog.original_rect x y width height d with
       | Ok _ =>
           DetailDialog.add_defect_mode d2
           = negb (DetailDialog.add_defect_mode d)
           /\ Inv.mode_synced d2
           /\ (DetailDialog.add_defect_mode d = true ->
               forall l, DetailDialog.image_label d2 = Some l ->
                         ImageLabel.add_defect_mode l = false
                         /\ ImageLabel.drawing l = false)
       | Raise _ =>
           DetailDialog.add_defect_mode d2 = DetailDialog.add_defect_mode d
           /\ DetailDialog.image_label d2 = DetailDialog.image_label d
       end.
Proof.
  intros d1. subst d1.
  split; [unfold DetailDialog.toggle_add_defect_mode,
            DetailDialog.with_image_label; simpl;
          by destruct (DetailDialog.image_label d)|].
  destruct (toggle_keeps_modes_together d) as [Hsync Hdraw].
  split; [exact Hsync|]. split; [exact Hdraw|].
  intros x y width height d2. subst d2.
  unfold DetailDialog.add_new_defect_region.
  destruct (DetailDialog.original_rect x y width height d)
    as [[[[ox oy] ow] oh]|e]; [|done].
  match goal with |- context [DetailDialog.on_region_clicked ?i ?d0] =>
    destruct (on_region_clicked_data i d0) as (d3 & -> & Hdata & _)
  end.
  rewrite data_with_image_label in Hdata.
  apply data_regions in Hdata as (_ & _ & _ & Hmode). simpl in Hmode.
  set (d4 := DetailDialog.with_image_label _ d3).
  assert (Hmode4 : DetailDialog.add_defect_mode d4
                   = DetailDialog.add_defect_mode d).
  { subst d4. unfold DetailDialog.with_image_label.
    destruct (DetailDialog.image_label d3); done. }
  destruct (toggle_keeps_modes_together d4) as [Hsync4 Hdraw4].
  assert (Hflip : DetailDialog.add_defect_mode
                    (DetailDialog.toggle_add_defect_mode d4)
                  = negb (DetailDialog.add_defect_mode d)).
  { rewrite <- Hmode4. unfold DetailDialog.toggle_add_defect_mode,
      DetailDialog.with_image_label. simpl.
    by destruct (DetailDialog.image_label d4). }
  split; [exact Hflip|]. split; [exact Hsync4|].
  intros Hon l Hl. simpl in Hl.
  rewrite Hon in Hflip. simpl in Hflip.
  split.
  - rewrite (Hsync4 l Hl). exact Hflip.
  - by apply Hdraw4.
Qed.

(** ** Opening the dialog *)





(** ** The image button *)

Lemma status_totals (regions : list Region.t) :
  ImageButton.total (ImageButton.check_confirmation_status regions)
  = Py.len regions
  /\ ImageButton.unconfirmed (ImageButton.check_confirmation_status regions)
     = Z.of_nat (length (List.filter (fun r => Spec.status r <=? 0) regions)).
Proof.
  assert (Hneg : forall l : list Region.t,
            List.filter (fun r => negb (0 <? Spec.status r)) l
            = List.filter (fun r => Spec.status r <=? 0) l).
  { intros l. apply filter_ext. intros r. unfold negb.
    destruct (Z.ltb_spec 0 (Spec.status r)), (Z.leb_spec (Spec.status r) 0);
      done || lia. }
  unfold ImageButton.check_confirmation_status.
  destruct regions as [|r0 rest] eqn:Hregions; [done|].
  rewrite <- Hregions. rewrite count_confirmed_spec, Hneg. simpl.
  split; [done|lia].
Qed.

(** X8. The confirmation status of a button counts every region once:
    [total] is the number of regions, [confirmed] the number of those
    whose status is above 0 (modified or added), [unconfirmed] the number
    of the others, a missing or negative status included, and the two
    add up to the total. For an empty list the three are 0. *)
Theorem confirmation_status_counts (regions : list Region.t) :
  let s := ImageButton.check_confirmation_status regions in
  ImageButton.total s = Py.len regions
  /\ ImageButton.confirmed s
     = Z.of_nat (length (List.filter (fun r => 0 <? Spec.status r) regions))
  /\ ImageButton.unconfirmed s
     = Z.of_nat (length (List.filter (fun r => Spec.status r <=? 0) regions))
  /\ ImageButton.confirmed s + ImageButton.unconfirmed s
     = ImageButton.total s.
Proof.
  assert (Hneg : forall l : list Region.t,
            List.filter (fun r => negb (0 <? Spec.status r)) l
            = List.filter (fun r => Spec.status r <=? 0) l).
  { intros l. apply filter_ext. intros r. unfold negb.
    destruct (Z.ltb_spec 0 (Spec.status r)), (Z.leb_spec (Spec.status r) 0);
      done || lia. }
  unfold ImageButton.check_confirmation_status.
  destruct regions as [|r0 rest] eqn:Hregions; [done|].
  rewrite <- Hregions. rewrite count_confirmed_spec, Hneg. simpl.
  repeat split; try lia.
  rewrite <- Hneg. unfold Py.len.
  pose proof (filter_length_split (fun r => 0 <? Spec.status r) regions)
    as H.
  cbv beta in H. lia.
Qed.

(** X9. The cleanliness count of a button never fails: it is the number
    of regions whose effective class is 10, between 0 and the number of
    regions. *)
Theorem count_cleanliness_regions_total (regions : list Region.t) :
  exists n,
    ImageButton.count_cleanliness_regions regions = Ok n
    /\ n = Z.of_nat (length (List.filter
                               (fun r => Spec.effective_class_id r =? 10)
                               regions))
    /\ 0 <= n <= Py.len regions.
Proof.
  eexists. split; [apply count_cleanliness_regions_spec|]. split; [done|].
  unfold Py.len.
  pose proof (filter_length_split
                (fun r => Spec.effective_class_id r =? 10) regions) as H.
  cbv beta in H. lia.
Qed.

(** X10. The colour of a button. Building a button never fails. The
    button is orange exactly when one of its regions is unconfirmed
    (status 0 or below, or missing), green exactly when it has no region,
    and red exactly when it has regions and all of them are confirmed. *)
Theorem button_style (button_name : string) (pic_info : PicInfo.t) :
  exists b,
    ImageButton.init button_name pic_info = Ok b
    /\ ImageButton.button_name b = button_name
    /\ ImageButton.regions b = Py.get (PicInfo.regions pic_info) []
    /\ (ImageButton.style_sheet (ImageButton.shown b) = ImageButton.Orange
        <-> exists r, r ∈ ImageButton.regions b /\ Spec.status r <= 0)
    /\ (ImageButton.style_sheet (ImageButton.shown b) = ImageButton.Green
        <-> ImageButton.regions b = [])
    /\ (ImageButton.style_sheet (ImageButton.shown b) = ImageButton.Red
        <-> ImageButton.regions b <> []
            /\ forall r, r ∈ ImageButton.regions b -> 0 < Spec.status r).
Proof.
  unfold ImageButton.init.
  set (regions := Py.get (PicInfo.regions pic_info) []).
  rewrite count_cleanliness_regions_spec. simpl.
  eexists. split; [reflexivity|]. simpl. split; [done|]. split; [done|].
  destruct (status_totals regions) as (Ht & Hu).
  rewrite Ht.
  assert (Hex : 0 < ImageButton.unconfirmed
                      (ImageButton.check_confirmation_status regions)
                <-> exists r, r ∈ regions /\ Spec.status r <= 0).
  { rewrite Hu. split.
    - intros Hpos.
      destruct (List.filter (fun r => Spec.status r <=? 0) regions)
        as [|r l] eqn:Hf; [simpl in Hpos; lia|].
      exists r. rewrite <- Z.leb_le.
      apply (elem_of_filter_bool (fun r => Spec.status r <=? 0)).
      rewrite Hf. left.
    - intros (r & Hr & Hs).
      assert (Hin : r ∈ List.filter (fun r => Spec.status r <=? 0) regions).
      { apply elem_of_filter_bool. split; [done|]. by apply Z.leb_le. }
      destruct (List.filter _ regions); [by apply elem_of_nil in Hin|].
      simpl. lia. }
  clearbody regions. destruct regions as [|r0 rest].
  - simpl.
    split; [split; [done|]; intros (r & Hr & _); by apply elem_of_nil in Hr|].
    split; [done|]. split; [done|]. by intros [? _].
  - assert (Hlen : (0 <? Py.len (r0 :: rest)) = true).
    { apply Z.ltb_lt. unfold Py.len. simpl. lia. }
    rewrite Hlen. cbn [andb].
    destruct (Z.ltb_spec 0 (ImageButton.unconfirmed
                              (ImageButton.check_confirmation_status
                                 (r0 :: rest)))) as [Hpos|Hzero].
    + apply Hex in Hpos as Hwit.
      split; [by split|]. split; [by split|].
      split; [done|]. intros [_ Hall]. destruct Hwit as (r & Hr & Hs).
      specialize (Hall r Hr). lia.
    + split; [split; [done|]; intros Hwit; apply Hex in Hwit; lia|].
      split; [by split|].
      split; [|done]. intros _. split; [done|].
      intros r Hr. destruct (Z.lt_ge_cases 0 (Spec.status r)); [done|].
      assert (0 < ImageButton.unconfirmed
                    (ImageButton.check_confirmation_status (r0 :: rest)));
        [|lia].
      apply Hex. exists r. split; [done|lia].
Qed.

(** X11. Refreshing a button shows what building it anew would show.
    [refresh_button_display] never fails, keeps the name and the regions
    of the button, and gives it the text and the colour that the
    constructor computes for an image with that name and those
    regions. *)
Theorem refresh_button_display_agrees (b : ImageButton.t)
    (pic_info : PicInfo.t) :
  PicInfo.regions pic_info = Some (ImageButton.regions b) ->
  exists fresh,
    ImageButton.init (ImageButton.button_name b) pic_info = Ok fresh
    /\ ImageButton.shown (SilkLabelApp.refresh_button_display b)
       = ImageButton.shown fresh
    /\ ImageButton.regions (SilkLabelApp.refresh_button_display b)
       = ImageButton.regions b
    /\ ImageButton.button_name (SilkLabelApp.refresh_button_display b)
       = ImageButton.button_name b.
Proof.
  intros Hregions. unfold ImageButton.init, SilkLabelApp.refresh_button_display.
  rewrite Hregions. simpl.
  rewrite count_cleanliness_regions_spec. simpl.
  eexists. split; [reflexivity|]. simpl. done.
Qed.

(** ** The mouse on the image label *)

Lemma mouseMoveEvent_drawing (held : bool) (pos : Z * Z)
    (s : ImageLabel.view) :
  ImageLabel.drawing (ImageLabel.label s)
  && ImageLabel.add_defect_mode (ImageLabel.label s) = true ->
  ImageLabel.mouseMoveEvent held pos s
  = {| ImageLabel.label := ImageLabel.label s;
       ImageLabel.panning := ImageLabel.panning s;
       ImageLabel.pan_start_point := ImageLabel.pan_start_point s;
       ImageLabel.start_point := ImageLabel.start_point s;
       ImageLabel.end_point := pos;
       ImageLabel.area := ImageLabel.area s |}.
Proof. intros H. unfold ImageLabel.mouseMoveEvent. by rewrite H. Qed.

Lemma mouseMoveEvent_label (held : bool) (pos : Z * Z)
    (s : ImageLabel.view) :
  ImageLabel.label (ImageLabel.mouseMoveEvent held pos s) = ImageLabel.label s.
Proof.
  unfold ImageLabel.mouseMoveEvent.
  destruct (_ && _); [done|]. destruct held; [|done].
  destruct (_ && _); done.
Qed.

Lemma moves_drawing (moves : list (bool * (Z * Z))) : forall s,
  ImageLabel.drawing (ImageLabel.label s)
  && ImageLabel.add_defect_mode (ImageLabel.label s) = true ->
  let s' := foldl (fun s m => ImageLabel.mouseMoveEvent m.1 m.2 s) s moves in
  ImageLabel.label s' = ImageLabel.label s
  /\ ImageLabel.start_point s' = ImageLabel.start_point s
  /\ ImageLabel.panning s' = ImageLabel.panning s
  /\ ImageLabel.pan_start_point s' = ImageLabel.pan_start_point s
  /\ ImageLabel.area s' = ImageLabel.area s.
Proof.
  induction moves as [|[held pos] moves IH]; intros s Hs; simpl; [done|].
  rewrite (mouseMoveEvent_drawing held pos s Hs).
  destruct (IH {| ImageLabel.label := ImageLabel.label s;
                  ImageLabel.panning := ImageLabel.panning s;
                  ImageLabel.pan_start_point := ImageLabel.pan_start_point s;
                  ImageLabel.start_point := ImageLabel.start_point s;
                  ImageLabel.end_point := pos;
                  ImageLabel.area := ImageLabel.area s |} Hs)
    as (-> & -> & -> & -> & ->).
  done.
Qed.

Lemma moves_label (moves : list (bool * (Z * Z))) : forall s,
  ImageLabel.label
    (foldl (fun s m => ImageLabel.mouseMoveEvent m.1 m.2 s) s moves)
  = ImageLabel.label s.
Proof.
  induction moves as [|[held pos] moves IH]; intros s; simpl; [done|].
  by rewrite IH, mouseMoveEvent_label.
Qed.

(** X12. Drawing a new region with the right button. A press of the
    right button at [p], any moves of the mouse, and the release of the
    right button at [q]: in add-defect mode the release emits
    [new_region_created] with the rectangle spanned by [p] and [q] when
    that rectangle is at least 10 wide and 10 high, and nothing when it
    is smaller; the moves in between do not matter, and the drag is over
    after the release. Outside add-defect mode the same gesture emits
    nothing. The gesture leaves the label otherwise as it was. *)
Theorem right_drag_creates_region
    (normalized : Z * Z -> Z * Z -> Z * Z * Z * Z) (s : ImageLabel.view)
    (regions : list Region.t) (p q : Z * Z)
    (moves : list (bool * (Z * Z))) :
  let s1 := ImageLabel.mousePressEvent ImageLabel.RightButton p s in
  let s2 := foldl (fun s m => ImageLabel.mouseMoveEvent m.1 m.2 s) s1 moves in
  exists s3,
    ImageLabel.mouseReleaseEvent normalized ImageLabel.RightButton q regions s2
    = Ok (s3,
          if ImageLabel.add_defect_mode (ImageLabel.label s) then
            let '(x, y, width, height) := normalized p q in
            if (10 <=? width) && (10 <=? height)
            then ImageLabel.new_region_created x y width height
            else ImageLabel.nothing
          else ImageLabel.nothing)
    /\ ImageLabel.label s3
       = (if ImageLabel.add_defect_mode (ImageLabel.label s)
          then ImageLabel.set_mode true false (ImageLabel.label s)
          else ImageLabel.label s).
Proof.
  intros s1 s2. subst s1 s2. unfold ImageLabel.mousePressEvent.
  destruct (ImageLabel.add_defect_mode (ImageLabel.label s)) eqn:Hmode.
  - match goal with |- context [foldl ?f ?s0 moves] =>
      destruct (moves_drawing moves s0) as (Hl & Hsp & _); [simpl; done|];
      set (s2 := foldl f s0 moves) in *
    end.
    simpl in Hl, Hsp. unfold ImageLabel.mouseReleaseEvent.
    rewrite Hl. simpl. rewrite Hsp.
    destruct (normalized p q) as [[[x y] w] h].
    destruct (_ && _); eexists; split; reflexivity.
  - unfold ImageLabel.mouseReleaseEvent. rewrite moves_label, Hmode.
    rewrite andb_false_r. eexists. split; [reflexivity|].
    apply moves_label.
Qed.

(** A move with the left button held, while no region is being drawn. *)
Lemma mouseMoveEvent_left (pos : Z * Z) (s : ImageLabel.view) :
  ImageLabel.drawing (ImageLabel.label s)
  && ImageLabel.add_defect_mode (ImageLabel.label s) = false ->
  let panning' :=
    ImageLabel.panning s
    || (5 <? ImageLabel.manhattanLength pos (ImageLabel.pan_start_point s)) in
  ImageLabel.mouseMoveEvent true pos s
  = if panning' && ImageLabel.scroll_area (ImageLabel.label s) then
      {| ImageLabel.label := ImageLabel.label s;
         ImageLabel.panning := panning';
         ImageLabel.pan_start_point := pos;
         ImageLabel.start_point := ImageLabel.start_point s;
         ImageLabel.end_point := ImageLabel.end_point s;
         ImageLabel.area :=
           {| ImageLabel.viewport_width :=
                ImageLabel.viewport_width (ImageLabel.area s);
              ImageLabel.viewport_height :=
                ImageLabel.viewport_height (ImageLabel.area s);
              ImageLabel.h_scrollbar :=
                ImageLabel.setValue
                  (ImageLabel.value (ImageLabel.h_scrollbar (ImageLabel.area s))
                   - (pos.1 - (ImageLabel.pan_start_point s).1))
                  (ImageLabel.h_scrollbar (ImageLabel.area s));
              ImageLabel.v_scrollbar :=
                ImageLabel.setValue
                  (ImageLabel.value (ImageLabel.v_scrollbar (ImageLabel.area s))
                   - (pos.2 - (ImageLabel.pan_start_point s).2))
                  (ImageLabel.v_scrollbar (ImageLabel.area s)) |} |}
    else
      {| ImageLabel.label := ImageLabel.label s;
         ImageLabel.panning := panning';
         ImageLabel.pan_start_point := ImageLabel.pan_start_point s;
         ImageLabel.start_point := ImageLabel.start_point s;
         ImageLabel.end_point := ImageLabel.end_point s;
         ImageLabel.area := ImageLabel.area s |}.
Proof.
  intros Hd panning'. subst panning'. unfold ImageLabel.mouseMoveEvent.
  rewrite Hd. unfold ImageLabel.click_threshold.
  destruct (ImageLabel.panning s); simpl; [done|].
  destruct (5 <? _); done.
Qed.

(** Moves that stay within the threshold of the press point start no
    panning and change nothing. *)
Lemma moves_within_threshold (moves : list (Z * Z)) : forall s,
  ImageLabel.drawing (ImageLabel.label s)
  && ImageLabel.add_defect_mode (ImageLabel.label s) = false ->
  ImageLabel.panning s = false ->
  Forall (fun m => ImageLabel.manhattanLength m (ImageLabel.pan_start_point s)
                   <= 5) moves ->
  foldl (fun s m => ImageLabel.mouseMoveEvent true m s) s moves = s.
Proof.
  induction moves as [|m moves IH]; intros s Hd Hp Hall; simpl; [done|].
  inversion Hall as [|? ? Hm Hrest]; subst.
  assert (Hstep : ImageLabel.mouseMoveEvent true m s = s).
  { rewrite (mouseMoveEvent_left m s Hd), Hp.
    destruct (Z.ltb_spec 5 (ImageLabel.manhattanLength m
                              (ImageLabel.pan_start_point s))); [lia|].
    simpl. rewrite <- Hp. by destruct s. }
  rewrite Hstep. by apply IH.
Qed.

(** Once panning has begun it lasts until the release. *)
Lemma moves_panning (moves : list (Z * Z)) : forall s,
  ImageLabel.drawing (ImageLabel.label s)
  && ImageLabel.add_defect_mode (ImageLabel.label s) = false ->
  ImageLabel.panning s = true ->
  ImageLabel.panning
    (foldl (fun s m => ImageLabel.mouseMoveEvent true m s) s moves) = true.
Proof.
  induction moves as [|m moves IH]; intros s Hd Hp; simpl; [done|].
  apply IH.
  - by rewrite mouseMoveEvent_label.
  - rewrite (mouseMoveEvent_left m s Hd), Hp. simpl.
    by destruct (ImageLabel.scroll_area _).
Qed.

Lemma moves_left_label (moves : list (Z * Z)) : forall s,
  ImageLabel.label
    (foldl (fun s m => ImageLabel.mouseMoveEvent true m s) s moves)
  = ImageLabel.label s.
Proof.
  induction moves as [|m moves IH]; intros s; simpl; [done|].
  by rewrite IH, mouseMoveEvent_label.
Qed.

(** X13. A click or a drag. While no region is being drawn, a press of
    the left button at [p], moves with the button held, and its release
    at [q] select by the position [q] exactly when every move stayed
    within 5 pixels of [p] (distances added over the two axes); the
    moves have then changed nothing. As soon as one move went farther
    the gesture is a drag: the release emits nothing, selects nothing and
    only ends the panning. *)
Theorem click_or_drag (normalized : Z * Z -> Z * Z -> Z * Z * Z * Z)
    (s : ImageLabel.view) (regions : list Region.t) (p q : Z * Z)
    (moves : list (Z * Z)) :
  ImageLabel.drawing (ImageLabel.label s)
  && ImageLabel.add_defect_mode (ImageLabel.label s) = false ->
  let s1 := ImageLabel.mousePressEvent ImageLabel.LeftButton p s in
  let s2 := foldl (fun s m => ImageLabel.mouseMoveEvent true m s) s1 moves in
  (Forall (fun m => ImageLabel.manhattanLength m p <= 5) moves ->
   s2 = s1
   /\ ImageLabel.mouseReleaseEvent normalized ImageLabel.LeftButton q
        regions s2
      = (sig ← ImageLabel.mouseReleaseEvent_click regions (ImageLabel.label s)
                 q.1 q.2;
         Ok (s1, ImageLabel.selection sig)))
  /\ (Exists (fun m => 5 < ImageLabel.manhattanLength m p) moves ->
      exists s3,
        ImageLabel.mouseReleaseEvent normalized ImageLabel.LeftButton q
          regions s2
        = Ok (s3, ImageLabel.nothing)
        /\ ImageLabel.panning s3 = false
        /\ ImageLabel.label s3 = ImageLabel.label s).
Proof.
  intros Hd s1 s2.
  assert (Hd1 : ImageLabel.drawing (ImageLabel.label s1)
                && ImageLabel.add_defect_mode (ImageLabel.label s1) = false)
    by done.
  split.
  - intros Hall.
    assert (Hs2 : s2 = s1) by (by apply moves_within_threshold).
    split; [done|]. rewrite Hs2. done.
  - intros Hex.
    assert (Hpan : ImageLabel.panning s2 = true).
    { assert (Hstart : ImageLabel.panning s1 = true
                       \/ ImageLabel.pan_start_point s1 = p)
        by (by right).
      subst s2. clearbody s1.
      assert (Hd1' := Hd1). clear Hd. revert s1 Hd1 Hd1' Hstart.
      induction Hex as [m moves Hm|m moves Hex IH];
        intros s1 Hd1 _ Hstart; simpl.
      - apply moves_panning; [by rewrite mouseMoveEvent_label|].
        rewrite (mouseMoveEvent_left m s1 Hd1).
        destruct Hstart as [Hp|Hp].
        + rewrite Hp. simpl. by destruct (ImageLabel.scroll_area _).
        + rewrite Hp.
          destruct (Z.ltb_spec 5 (ImageLabel.manhattanLength m p)); [|lia].
          rewrite orb_true_r. simpl. by destruct (ImageLabel.scroll_area _).
      - assert (Hl : ImageLabel.drawing
                       (ImageLabel.label (ImageLabel.mouseMoveEvent true m s1))
                     && ImageLabel.add_defect_mode
                          (ImageLabel.label
                             (ImageLabel.mouseMoveEvent true m s1)) = false)
          by (by rewrite mouseMoveEvent_label).
        apply IH; [done|done|].
        rewrite (mouseMoveEvent_left m s1 Hd1).
        destruct (ImageLabel.panning s1
                  || (5 <? ImageLabel.manhattanLength m
                             (ImageLabel.pan_start_point s1))) eqn:Hp'; simpl.
        + left. by destruct (ImageLabel.scroll_area _).
        + right. destruct Hstart as [Hp|Hp]; [|done].
          rewrite Hp in Hp'. done. }
    unfold ImageLabel.mouseReleaseEvent. rewrite Hpan.
    eexists. split; [reflexivity|]. simpl. split; [done|].
    subst s2. by rewrite moves_left_label.
Qed.

Lemma setValue_in_range (v : Z) (bar : ImageLabel.scrollbar) :
  0 <= v <= ImageLabel.maximum bar ->
  ImageLabel.setValue v bar = ImageLabel.mkScrollbar v (ImageLabel.maximum bar).
Proof. intros Hv. unfold ImageLabel.setValue. f_equal. lia. Qed.

Lemma last_cons_default {A} (l : list A) : forall (a d d' : A),
  List.last (a :: l) d = List.last (a :: l) d'.
Proof.
  induction l as [|b l IH]; intros a d d'; [done|].
  change (List.last (b :: l) d = List.last (b :: l) d'). apply IH.
Qed.

(** While panning, and as long as the scroll bars do not reach an end,
    the value of each bar plus the coordinate of the last mouse position
    stays what it was. *)
Lemma pan_moves (rest : list (Z * Z)) : forall (s : ImageLabel.view) H V,
  ImageLabel.drawing (ImageLabel.label s)
  && ImageLabel.add_defect_mode (ImageLabel.label s) = false ->
  ImageLabel.scroll_area (ImageLabel.label s) = true ->
  ImageLabel.panning s = true ->
  ImageLabel.value (ImageLabel.h_scrollbar (ImageLabel.area s))
  + (ImageLabel.pan_start_point s).1 = H ->
  ImageLabel.value (ImageLabel.v_scrollbar (ImageLabel.area s))
  + (ImageLabel.pan_start_point s).2 = V ->
  Forall (fun m =>
            0 <= H - m.1
              <= ImageLabel.maximum (ImageLabel.h_scrollbar (ImageLabel.area s))
            /\ 0 <= V - m.2
                 <= ImageLabel.maximum
                      (ImageLabel.v_scrollbar (ImageLabel.area s))) rest ->
  let s' := foldl (fun s m => ImageLabel.mouseMoveEvent true m s) s rest in
  ImageLabel.value (ImageLabel.h_scrollbar (ImageLabel.area s'))
  + (ImageLabel.pan_start_point s').1 = H
  /\ ImageLabel.value (ImageLabel.v_scrollbar (ImageLabel.area s'))
     + (ImageLabel.pan_start_point s').2 = V
  /\ ImageLabel.pan_start_point s'
     = List.last rest (ImageLabel.pan_start_point s)
  /\ ImageLabel.panning s' = true
  /\ ImageLabel.maximum (ImageLabel.h_scrollbar (ImageLabel.area s'))
     = ImageLabel.maximum (ImageLabel.h_scrollbar (ImageLabel.area s))
  /\ ImageLabel.maximum (ImageLabel.v_scrollbar (ImageLabel.area s'))
     = ImageLabel.maximum (ImageLabel.v_scrollbar (ImageLabel.area s)).
Proof.
  induction rest as [|m rest IH]; intros s H V Hd Hs Hp HH HV Hall; simpl;
    [done|].
  apply Forall_cons in Hall as [[Hm1 Hm2] Hrest].
  set (s1 := ImageLabel.mouseMoveEvent true m s).
  assert (Hs1 : s1
    = {| ImageLabel.label := ImageLabel.label s;
         ImageLabel.panning := true;
         ImageLabel.pan_start_point := m;
         ImageLabel.start_point := ImageLabel.start_point s;
         ImageLabel.end_point := ImageLabel.end_point s;
         ImageLabel.area :=
           {| ImageLabel.viewport_width :=
                ImageLabel.viewport_width (ImageLabel.area s);
              ImageLabel.viewport_height :=
                ImageLabel.viewport_height (ImageLabel.area s);
              ImageLabel.h_scrollbar :=
                ImageLabel.mkScrollbar (H - m.1)
                  (ImageLabel.maximum
                     (ImageLabel.h_scrollbar (ImageLabel.area s)));
              ImageLabel.v_scrollbar :=
                ImageLabel.mkScrollbar (V - m.2)
                  (ImageLabel.maximum
                     (ImageLabel.v_scrollbar (ImageLabel.area s))) |} |}).
  { subst s1. rewrite (mouseMoveEvent_left m s Hd), Hp, Hs. simpl.
    assert (E1 : forall (bar : ImageLabel.scrollbar) c t,
              0 <= t <= ImageLabel.maximum bar -> c = t ->
              ImageLabel.setValue c bar
              = ImageLabel.mkScrollbar t (ImageLabel.maximum bar)).
    { intros bar c t Hr ->. unfold ImageLabel.setValue. f_equal. lia. }
    rewrite (E1 _ _ (H - m.1)) by (done || lia).
    rewrite (E1 _ _ (V - m.2)) by (done || lia).
    done. }
  assert (Hd1 : ImageLabel.drawing (ImageLabel.label s1)
                && ImageLabel.add_defect_mode (ImageLabel.label s1) = false)
    by (by rewrite Hs1).
  assert (Hsc1 : ImageLabel.scroll_area (ImageLabel.label s1) = true)
    by (by rewrite Hs1).
  assert (Hp1 : ImageLabel.panning s1 = true) by (by rewrite Hs1).
  assert (HH1 : ImageLabel.value (ImageLabel.h_scrollbar (ImageLabel.area s1))
                + (ImageLabel.pan_start_point s1).1 = H)
    by (rewrite Hs1; simpl; lia).
  assert (HV1 : ImageLabel.value (ImageLabel.v_scrollbar (ImageLabel.area s1))
                + (ImageLabel.pan_start_point s1).2 = V)
    by (rewrite Hs1; simpl; lia).
  assert (Hrest1 : Forall (fun m =>
            0 <= H - m.1
              <= ImageLabel.maximum (ImageLabel.h_scrollbar (ImageLabel.area s1))
            /\ 0 <= V - m.2
                 <= ImageLabel.maximum
                      (ImageLabel.v_scrollbar (ImageLabel.area s1))) rest)
    by (by rewrite Hs1).
  destruct (IH s1 H V Hd1 Hsc1 Hp1 HH1 HV1 Hrest1)
    as (H1 & H2 & H3 & H4 & H5 & H6).
  rewrite H5, H6. split; [exact H1|]. split; [exact H2|].
  split; [|split; [exact H4|by rewrite Hs1]].
  rewrite H3, Hs1. simpl. destruct rest as [|m' rest]; [done|].
  apply last_cons_default.
Qed.

(** X14. Panning follows the mouse. While no region is being drawn and
    the label has its scroll area, a left press at [p] followed by moves
    with the button held scrolls nothing as long as the moves stay within
    5 pixels of [p]; from the first move that goes farther, and as long
    as the scroll bars do not reach an end, each bar is at its value at
    the press minus the whole displacement of the mouse since the press,
    the first 5 pixels included. *)
Theorem pan_follows_mouse (s : ImageLabel.view) (p far : Z * Z)
    (near rest : list (Z * Z)) :
  ImageLabel.drawing (ImageLabel.label s)
  && ImageLabel.add_defect_mode (ImageLabel.label s) = false ->
  ImageLabel.scroll_area (ImageLabel.label s) = true ->
  Forall (fun m => ImageLabel.manhattanLength m p <= 5) near ->
  5 < ImageLabel.manhattanLength far p ->
  let h := ImageLabel.h_scrollbar (ImageLabel.area s) in
  let v := ImageLabel.v_scrollbar (ImageLabel.area s) in
  Forall (fun m =>
            0 <= ImageLabel.value h - (m.1 - p.1) <= ImageLabel.maximum h
            /\ 0 <= ImageLabel.value v - (m.2 - p.2) <= ImageLabel.maximum v)
    (far :: rest) ->
  let s1 := ImageLabel.mousePressEvent ImageLabel.LeftButton p s in
  let s2 := foldl (fun s m => ImageLabel.mouseMoveEvent true m s) s1 near in
  let s3 := foldl (fun s m => ImageLabel.mouseMoveEvent true m s) s2
              (far :: rest) in
  let final := List.last rest far in
  ImageLabel.area s2 = ImageLabel.area s
  /\ ImageLabel.value (ImageLabel.h_scrollbar (ImageLabel.area s3))
     = ImageLabel.value h - (final.1 - p.1)
  /\ ImageLabel.value (ImageLabel.v_scrollbar (ImageLabel.area s3))
     = ImageLabel.value v - (final.2 - p.2)
  /\ ImageLabel.panning s3 = true
  /\ ImageLabel.label s3 = ImageLabel.label s.
Proof.
  intros Hd Hs Hnear Hfar h v Hall s1 s2 s3 final.
  assert (Hs2 : s2 = s1) by (by apply moves_within_threshold).
  split; [by rewrite Hs2|].
  inversion Hall as [|? ? [Hf1 Hf2] Hrest]; subst.
  subst s3. rewrite Hs2. cbn [foldl].
  set (s4 := ImageLabel.mouseMoveEvent true far s1).
  assert (Hs4 : s4
    = {| ImageLabel.label := ImageLabel.label s;
         ImageLabel.panning := true;
         ImageLabel.pan_start_point := far;
         ImageLabel.start_point := ImageLabel.start_point s;
         ImageLabel.end_point := ImageLabel.end_point s;
         ImageLabel.area :=
           {| ImageLabel.viewport_width :=
                ImageLabel.viewport_width (ImageLabel.area s);
              ImageLabel.viewport_height :=
                ImageLabel.viewport_height (ImageLabel.area s);
              ImageLabel.h_scrollbar :=
                ImageLabel.mkScrollbar
                  (ImageLabel.value h - (far.1 - p.1)) (ImageLabel.maximum h);
              ImageLabel.v_scrollbar :=
                ImageLabel.mkScrollbar
                  (ImageLabel.value v - (far.2 - p.2)) (ImageLabel.maximum v)
           |} |}).
  { subst s4. rewrite (mouseMoveEvent_left far s1) by done.
    subst s1. cbn [ImageLabel.mousePressEvent ImageLabel.panning
                     ImageLabel.pan_start_point ImageLabel.label
                     ImageLabel.start_point ImageLabel.end_point
                     ImageLabel.area orb].
    destruct (Z.ltb_spec 5 (ImageLabel.manhattanLength far p)); [|lia].
    rewrite Hs. cbn [andb fst snd].
    fold h v. rewrite !setValue_in_range by lia. done. }
  destruct (pan_moves rest s4
              (ImageLabel.value h + p.1) (ImageLabel.value v + p.2))
    as (H1 & H2 & H3 & H4 & _ & _);
    try (rewrite Hs4; simpl; done || lia).
  { rewrite Hs4. simpl. eapply Forall_impl; [exact Hrest|].
    intros m [? ?]. simpl. lia. }
  replace (ImageLabel.pan_start_point s4) with far in H3 by (by rewrite Hs4).
  rewrite H3 in H1, H2.
  subst final. split; [lia|]. split; [lia|]. split; [done|].
  rewrite moves_left_label, Hs4. done.
Qed.

(** X15. Scrolling to a region. For a region of the list whose box can
    be computed, with a scroll area found and scroll bars whose maximum
    is not negative, [_scroll_to_region_center] returns with both bars
    within their range; the horizontal bar is at the centre of the box
    minus half the width of the viewport when that is within the range,
    so that the centre of the region sits at the centre of the viewport,
    at 0 when it is below and at the maximum when it is above; the same
    holds for the vertical bar. Without a scroll area, or for an index
    outside the list, nothing changes. *)
Theorem scroll_centres_region (regions : list Region.t) (i : nat)
    (region : Region.t) (x y width height : Z) (s : ImageLabel.view) :
  regions !! i = Some region ->
  ImageLabel.screen_box (ImageLabel.scale_factor (ImageLabel.label s)) region
  = Ok (x, y, width, height) ->
  0 <= ImageLabel.maximum (ImageLabel.h_scrollbar (ImageLabel.area s)) ->
  0 <= ImageLabel.maximum (ImageLabel.v_scrollbar (ImageLabel.area s)) ->
  let aim_x := x + width / 2
               - ImageLabel.viewport_width (ImageLabel.area s) / 2 in
  let aim_y := y + height / 2
               - ImageLabel.viewport_height (ImageLabel.area s) / 2 in
  let max_h := ImageLabel.maximum (ImageLabel.h_scrollbar (ImageLabel.area s)) in
  let max_v := ImageLabel.maximum (ImageLabel.v_scrollbar (ImageLabel.area s)) in
  (exists s',
     ImageLabel._scroll_to_region_center regions (Z.of_nat i) true s = Ok s'
     /\ ImageLabel.label s' = ImageLabel.label s
     /\ ImageLabel.h_scrollbar (ImageLabel.area s')
        = ImageLabel.mkScrollbar (Z.max 0 (Z.min max_h aim_x)) max_h
     /\ ImageLabel.v_scrollbar (ImageLabel.area s')
        = ImageLabel.mkScrollbar (Z.max 0 (Z.min max_v aim_y)) max_v
     /\ (0 <= aim_x <= max_h ->
         ImageLabel.value (ImageLabel.h_scrollbar (ImageLabel.area s'))
         + ImageLabel.viewport_width (ImageLabel.area s) / 2
         = x + width / 2)
     /\ (0 <= aim_y <= max_v ->
         ImageLabel.value (ImageLabel.v_scrollbar (ImageLabel.area s'))
         + ImageLabel.viewport_height (ImageLabel.area s) / 2
         = y + height / 2))
  /\ ImageLabel._scroll_to_region_center regions (Z.of_nat i) false s = Ok s
  /\ (forall j found, ~ 0 <= j < Py.len regions ->
        ImageLabel._scroll_to_region_center regions j found s = Ok s).
Proof.
  intros Hr Hbox Hh Hv aim_x aim_y max_h max_v.
  assert (Hlt : 0 <= Z.of_nat i < Py.len regions).
  { unfold Py.len. apply lookup_lt_Some in Hr. lia. }
  destruct (index_lookup regions (Z.of_nat i) Hlt) as (r0 & Hr0 & Hidx).
  rewrite Nat2Z.id in Hr0. assert (r0 = region) as -> by congruence.
  assert (Hrange : (0 <=? Z.of_nat i) && (Z.of_nat i <? Py.len regions) = true).
  { apply andb_true_iff. split; [apply Z.leb_le|apply Z.ltb_lt]; lia. }
  split; [|split].
  - unfold ImageLabel._scroll_to_region_center.
    rewrite Hrange, Hidx. simpl. rewrite Hbox. simpl.
    eexists. split; [reflexivity|]. simpl.
    fold max_h max_v.
    assert (Hx : ImageLabel.setValue
                   (Z.min (Z.max 0 (x + width / 2
                      - ImageLabel.viewport_width (ImageLabel.area s) / 2))
                      max_h)
                   (ImageLabel.h_scrollbar (ImageLabel.area s))
                 = ImageLabel.mkScrollbar (Z.max 0 (Z.min max_h aim_x)) max_h).
    { unfold ImageLabel.setValue. fold max_h. f_equal. subst aim_x. lia. }
    assert (Hy : ImageLabel.setValue
                   (Z.min (Z.max 0 (y + height / 2
                      - ImageLabel.viewport_height (ImageLabel.area s) / 2))
                      max_v)
                   (ImageLabel.v_scrollbar (ImageLabel.area s))
                 = ImageLabel.mkScrollbar (Z.max 0 (Z.min max_v aim_y)) max_v).
    { unfold ImageLabel.setValue. fold max_v. f_equal. subst aim_y. lia. }
    rewrite Hx, Hy. simpl.
    split; [done|]. split; [done|]. split; [done|].
    split; intros ?; subst aim_x aim_y; lia.
  - unfold ImageLabel._scroll_to_region_center.
    rewrite Hrange, Hidx. simpl. rewrite Hbox. done.
  - intros j found Hj. unfold ImageLabel._scroll_to_region_center.
    destruct (Z.leb_spec 0 j), (Z.ltb_spec j (Py.len regions)); simpl;
      done || lia.
Qed.

(** ** Paths *)

Lemma replace_contains (old new : ascii) (s : string) :
  old <> new -> Py.contains old (Py.replace old new s) = false.
Proof.
  intros Hne. induction s as [|c s IH]; simpl; [done|].
  rewrite IH, orb_false_r.
  destruct (Ascii.eqb_spec c old) as [->|Hc].
  - by apply Ascii.eqb_neq.
  - apply Ascii.eqb_neq. congruence.
Qed.

Lemma split_not_nil (sep : ascii) (s : string) : Py.split sep s <> [].
Proof.
  destruct s as [|c s]; simpl; [done|].
  destruct (Ascii.eqb sep c); [done|]. by destruct (Py.split sep s).
Qed.

Lemma join_cons (sep : ascii) (part : string) (rest : list string) :
  rest <> [] ->
  Py.join sep (part :: rest) = part +:+ String sep (Py.join sep rest).
Proof. by destruct rest. Qed.

(** [sep.join(s.split(sep))] is [s]. *)
Lemma join_split (sep : ascii) (s : string) :
  Py.join sep (Py.split sep s) = s.
Proof.
  induction s as [|c s IH]; [done|].
  simpl Py.split. destruct (Ascii.eqb_spec sep c) as [->|Hne].
  - rewrite join_cons by apply split_not_nil. by rewrite IH.
  - pose proof (split_not_nil sep s) as Hnil.
    destruct (Py.split sep s) as [|p ps]; [done|].
    rewrite <- IH. by destruct ps.
Qed.

Lemma string_append_assoc (a b c : string) :
  a +:+ (b +:+ c) = (a +:+ b) +:+ c.
Proof.
  induction a as [|x a IH]; [done|].
  change (String x (a +:+ (b +:+ c)) = String x ((a +:+ b) +:+ c)).
  by rewrite IH.
Qed.

(** The parts from any position on, joined, are the end of the whole. *)
Lemma join_drop (sep : ascii) (parts : list string) (k : nat) :
  (k < length parts)%nat ->
  exists before, Py.join sep parts = before +:+ Py.join sep (drop k parts).
Proof.
  revert parts. induction k as [|k IH]; intros parts Hk.
  - exists "". by rewrite drop_0.
  - destruct parts as [|p rest]; [simpl in Hk; lia|].
    simpl in Hk. destruct (IH rest) as [before Hb]; [lia|].
    exists (p +:+ String sep before).
    rewrite join_cons by (destruct rest; [simpl in Hk; lia|done]).
    simpl drop. rewrite Hb.
    by rewrite <- string_append_assoc.
Qed.

Lemma prefix_append (pre s t : string) :
  String.prefix pre s = true -> String.prefix pre (s +:+ t) = true.
Proof.
  revert s. induction pre as [|c pre IH]; intros s.
  - intros _. by destruct (s +:+ t).
  - destruct s as [|c' s]; [done|].
    change (String c' s +:+ t) with (String c' (s +:+ t)). simpl.
    destruct (ascii_dec c c'); [apply IH|done].
Qed.

Lemma join_startswith (sep : ascii) (pre part : string)
    (rest : list string) :
  Py.startswith part pre = true ->
  Py.startswith (Py.join sep (part :: rest)) pre = true.
Proof.
  unfold Py.startswith. intros Hp. destruct rest as [|r rest]; [done|].
  rewrite join_cons by done. by apply prefix_append.
Qed.

(** X16. The path of an image. An empty path, and any path while neither
    the directory of the JSON file nor a selected file is known, are
    returned as they are. Otherwise backslashes count as slashes and the
    path is cut into its components: if none of them starts with
    "camera" the path is returned as it is; else the components from
    the first such one on, joined by slashes (the end of the normalised
    path, which begins with "camera"), are appended to the directory by
    [os.path.join], and the result holds no backslash. *)
Theorem get_actual_image_path_spec (dirname : string -> string)
    (join : string -> string -> string) (w : MainWindow.t)
    (original_img_path : string) :
  let result := MainWindow.get_actual_image_path dirname join w
                  original_img_path in
  let json_dir :=
    if SilkLabelApp.path_truthy (MainWindow.json_dir w)
    then MainWindow.json_dir w
    else if SilkLabelApp.path_truthy
              (SilkLabelApp.selected_file_path (MainWindow.app w))
         then Some (dirname
                      (Py.get (SilkLabelApp.selected_file_path
                                 (MainWindow.app w)) ""))
         else MainWindow.json_dir w in
  let normalised := Py.replace Py.backslash "/" original_img_path in
  let path_parts := Py.split "/" normalised in
  (original_img_path = "" -> result = "")
  /\ (SilkLabelApp.path_truthy json_dir = false -> result = original_img_path)
  /\ (original_img_path <> "" -> SilkLabelApp.path_truthy json_dir = true ->
      match find_index (fun part => Py.startswith part "camera") path_parts
      with
      | None =>
          result = original_img_path
          /\ Forall (fun part => Py.startswith part "camera" = false)
               path_parts
      | Some camera_index =>
          let relative_path :=
            Py.join "/" (drop (Z.to_nat camera_index) path_parts) in
          result
          = Py.replace Py.backslash "/"
              (join (Py.get json_dir "") relative_path)
          /\ Py.contains Py.backslash result = false
          /\ Py.startswith relative_path "camera" = true
          /\ (exists before, normalised = before +:+ relative_path)
          /\ forall (j : nat) part,
               (j < Z.to_nat camera_index)%nat ->
               path_parts !! j = Some part ->
               Py.startswith part "camera" = false
      end).
Proof.
  intros result json_dir normalised path_parts.
  assert (Hdir : json_dir
    = if negb (SilkLabelApp.path_truthy (MainWindow.json_dir w))
         && SilkLabelApp.path_truthy
              (SilkLabelApp.selected_file_path (MainWindow.app w))
      then Some (dirname
                   (Py.get (SilkLabelApp.selected_file_path
                              (MainWindow.app w)) ""))
      else MainWindow.json_dir w).
  { subst json_dir.
    destruct (SilkLabelApp.path_truthy (MainWindow.json_dir w)); [done|].
    simpl. by destruct (SilkLabelApp.path_truthy _). }
  subst result. unfold MainWindow.get_actual_image_path.
  rewrite <- Hdir. fold normalised. fold path_parts.
  split; [by intros ->|]. split.
  - intros Hfalse. destruct (String.eqb _ _); [done|]. by rewrite Hfalse.
  - intros Hne Htrue.
    destruct (String.eqb_spec original_img_path ""); [done|].
    rewrite Htrue. simpl.
    destruct (find_index _ path_parts) as [k|] eqn:Hfind.
    + apply find_index_Some in Hfind as (H0 & part & Hpart & Hcam & Hfirst).
      split; [done|]. split; [apply replace_contains; done|].
      split; [|split].
      * rewrite (drop_S _ _ _ Hpart). by apply join_startswith.
      * rewrite <- (join_split "/" normalised). fold path_parts.
        apply join_drop. by eapply lookup_lt_Some.
      * exact Hfirst.
    + split; [done|].
      apply Forall_lookup. intros j part Hj.
      apply list_elem_of_lookup_2 in Hj as Hin.
      destruct (Py.startswith part "camera") eqn:Hs; [|done].
      destruct (find_index_is_Some (fun part => Py.startswith part "camera")
                  path_parts part Hin Hs) as [i Hi].
      congruence.
Qed.

(** ** The main window *)

(** X17. A file that cannot be loaded. When the chosen file is not JSON,
    is missing or cannot be read, the window adds one message box of its
    own (a warning for text that is not JSON, a critical box otherwise),
    both boards are empty and the dialog is forgotten; the document in
    memory and the directory are still those of the file loaded before,
    while the selected path is already that of the new file. *)
Theorem select_json_file_failure (dirname : string -> string)
    (file_path : string) (read : MainWindow.loaded) (w : MainWindow.t) :
  file_path <> "" ->
  (forall doc, read <> MainWindow.Parsed doc) ->
  let w' := MainWindow.select_json_file dirname file_path read w in
  SilkLabelApp.json_data (MainWindow.app w')
  = SilkLabelApp.json_data (MainWindow.app w)
  /\ SilkLabelApp.selected_file_path (MainWindow.app w') = Some file_path
  /\ MainWindow.json_dir w' = MainWindow.json_dir w
  /\ MainWindow.front_view w' = []
  /\ MainWindow.back_view w' = []
  /\ MainWindow.detail_dialog w' = None
  /\ MainWindow.clear_btn w' = MainWindow.clear_btn w
  /\ MainWindow.messages w'
     = MainWindow.messages w
       ++ [match read with
           | MainWindow.NotJSON => Qt.warning "JSON解析错误"
           | MainWindow.NotFound => Qt.critical "文件错误"
           | _ => Qt.critical "错误"
           end].
Proof.
  intros Hpath Hread w'. subst w'. unfold MainWindow.select_json_file.
  destruct (String.eqb_spec file_path ""); [done|]. simpl.
  destruct read as [doc| | |]; [by destruct (Hread doc)|..]; done.
Qed.

(** X18. A file that is loaded. The document read replaces the one in
    memory, the directory of the file is remembered, the clear button is
    enabled and the dialog is forgotten. For a document with images the
    two boards hold the buttons that [add_buttons] lays out for the
    images kept for the front and for the back, and no message box is
    shown; for a document without a blackboard or without images the
    boards are empty and the warning about the data is shown, unless
    the document is the empty dict, which is passed over in silence. *)
Theorem select_json_file_loads (dirname : string -> string)
    (file_path : string) (doc : SilkLabelApp.Document) (w : MainWindow.t) :
  file_path <> "" ->
  let w' := MainWindow.select_json_file dirname file_path
              (MainWindow.Parsed doc) w in
  MainWindow.app w' = SilkLabelApp.mk (Some file_path) (Some doc)
  /\ MainWindow.json_dir w' = Some (dirname file_path)
  /\ MainWindow.clear_btn w' = true
  /\ MainWindow.detail_dialog w' = None
  /\ match SilkLabelApp.currentBlackboard doc with
     | Some (SilkLabelApp.mkBlackboard (Some (p :: ps))) =>
         BoardView.add_buttons (SilkLabelApp.front_pics (p :: ps))
         = Ok (MainWindow.front_view w')
         /\ BoardView.add_buttons (SilkLabelApp.back_pics (p :: ps))
            = Ok (MainWindow.back_view w')
         /\ MainWindow.messages w' = MainWindow.messages w
     | Some _ =>
         MainWindow.front_view w' = [] /\ MainWindow.back_view w' = []
         /\ MainWindow.messages w'
            = MainWindow.messages w ++ [Qt.warning "数据错误"]
     | None =>
         MainWindow.front_view w' = [] /\ MainWindow.back_view w' = []
         /\ MainWindow.messages w'
            = MainWindow.messages w
              ++ match SilkLabelApp.batchName doc,
                       SilkLabelApp.other_keys doc with
                 | None, [] => []
                 | _, _ => [Qt.warning "数据错误"]
                 end
     end.
Proof.
  intros Hpath w'. subst w'. unfold MainWindow.select_json_file.
  destruct (String.eqb_spec file_path ""); [done|]. simpl.
  repeat (split; [done|]).
  unfold SilkLabelApp.process_board_data, SilkLabelApp.document_truthy. simpl.
  destruct (SilkLabelApp.currentBlackboard doc) as [[[[|p ps]|]]|] eqn:Hb.
  - rewrite (bool_decide_eq_true_2 (is_Some (Some _))) by eauto.
    rewrite orb_true_r. simpl. done.
  - rewrite (bool_decide_eq_true_2 (is_Some (Some _))) by eauto.
    rewrite orb_true_r. simpl.
    destruct (add_buttons_laid_out true (SilkLabelApp.front_pics (p :: ps)))
      as (front & Hf & _).
    { intros q Hq. by apply front_pics_elem_of in Hq as [_ ?]. }
    destruct (add_buttons_laid_out false (SilkLabelApp.back_pics (p :: ps)))
      as (back & Hk & _).
    { intros q Hq. by apply back_pics_elem_of in Hq as [_ ?]. }
    rewrite Hf, Hk. simpl. by rewrite app_nil_r.
  - rewrite (bool_decide_eq_true_2 (is_Some (Some _))) by eauto.
    rewrite orb_true_r. simpl. done.
  - rewrite (bool_decide_eq_false_2 (is_Some None)) by (by intros [? ?]).
    rewrite orb_false_r.
    destruct (SilkLabelApp.batchName doc) as [name|].
    + rewrite (bool_decide_eq_true_2 (is_Some (Some _))) by eauto.
      simpl. done.
    + rewrite (bool_decide_eq_false_2 (is_Some None)) by (by intros [? ?]).
      destruct (SilkLabelApp.other_keys doc); simpl; [|done].
      by rewrite app_nil_r.
Qed.

(** X19. Clearing. [clear_content] brings the window back to the state
    in which it was created, but for the message boxes already shown:
    no path, no document, no directory, no dialog, empty boards, the
    clear button disabled. Saving then fails before anything is written,
    the boards show nothing, and every image path is returned as it
    is. *)
Theorem clear_content_forgets (w : MainWindow.t) :
  let w' := MainWindow.clear_content w in
  w' = MainWindow.mk (MainWindow.app MainWindow.init)
         (MainWindow.json_dir MainWindow.init)
         (MainWindow.detail_dialog MainWindow.init)
         (MainWindow.front_view MainWindow.init)
         (MainWindow.back_view MainWindow.init)
         (MainWindow.clear_btn MainWindow.init)
         (MainWindow.messages w)
  /\ (forall written,
        SilkLabelApp.save_json_data (MainWindow.app w') written
        = Raise (Exception "没有可保存的数据或文件路径"))
  /\ SilkLabelApp.process_board_data (MainWindow.app w')
     = SilkLabelApp.mkBoards [] [] []
  /\ (forall dirname join path,
        MainWindow.get_actual_image_path dirname join w' path = path).
Proof.
  intros w'. subst w'. split; [done|]. split; [done|]. split; [done|].
  intros dirname join path. unfold MainWindow.get_actual_image_path. simpl.
  by destruct (String.eqb path "").
Qed.



(** ** The boards: order, rows, missing camera prefix *)

Section SortTotal.
Context {A : Type} (le : A -> A -> bool).
Hypothesis le_total : forall a b, le a b = false -> le b a = true.

Lemma insert_sorted_sorted (a : A) (l : list A) :
  Sorted (fun a b => le a b = true) l ->
  Sorted (fun a b => le a b = true) (insert_sorted le a l).
Proof.
  induction 1 as [|b m Hm IHm Hhd]; simpl.
  - repeat constructor.
  - destruct (le a b) eqn:Hab.
    + constructor; [by constructor|by constructor].
    + constructor; [exact IHm|].
      destruct m as [|c m]; simpl.
      * constructor. by apply le_total.
      * destruct (le a c); constructor; [by apply le_total|].
        by inversion Hhd.
Qed.

Lemma sort_total_sorted (l : list A) :
  Sorted (fun a b => le a b = true) (sort le l).
Proof.
  induction l as [|a l IH]; [constructor|].
  change (sort le (a :: l)) with (insert_sorted le a (sort le l)).
  by apply insert_sorted_sorted.
Qed.

End SortTotal.

Lemma pair_le_total (a b : Z * Z) :
  SilkLabelApp.pair_le a b = false -> SilkLabelApp.pair_le b a = true.
Proof.
  unfold SilkLabelApp.pair_le.
  destruct (Z.ltb_spec a.1 b.1), (Z.eqb_spec a.1 b.1),
    (Z.leb_spec a.2 b.2), (Z.ltb_spec b.1 a.1), (Z.eqb_spec b.1 a.1),
    (Z.leb_spec b.2 a.2); simpl; done || lia.
Qed.

Lemma pair_le_spec (a b : Z * Z) :
  SilkLabelApp.pair_le a b = true
  <-> a.1 < b.1 \/ (a.1 = b.1 /\ a.2 <= b.2).
Proof.
  unfold SilkLabelApp.pair_le.
  by rewrite orb_true_iff, andb_true_iff, Z.ltb_lt, Z.eqb_eq, Z.leb_le.
Qed.

Lemma startswith_inv (s pre : string) :
  Py.startswith s pre = true -> exists t, s = pre +:+ t.
Proof.
  unfold Py.startswith. revert s.
  induction pre as [|c pre IH]; intros s; simpl.
  - intros _. by exists s.
  - destruct s as [|c' s]; [done|].
    simpl. destruct (ascii_dec c c') as [->|]; [|done].
    intros H. destruct (IH s H) as [t ->]. by exists t.
Qed.

Lemma split_nonempty (sep : ascii) (s : string) : Py.split sep s <> [].
Proof.
  destruct s as [|c s]; simpl; [done|].
  destruct (Ascii.eqb sep c); [done|]. by destruct (Py.split sep s).
Qed.

(** The fields of a name with the prefix of camera 1 or 2. *)
Lemma split_camera (t : string) :
  (exists ps, Py.split "_" ("p1_" +:+ t) = "p1" :: ps)
  /\ (exists ps, Py.split "_" ("p2_" +:+ t) = "p2" :: ps).
Proof.
  change ("p1_" +:+ t) with (String "p" (String "1" (String "_" t))).
  change ("p2_" +:+ t) with (String "p" (String "2" (String "_" t))).
  split; eexists; cbn; reflexivity.
Qed.

(** The key of an accepted image: its camera and its number. *)
Lemma accepted_sort_key (front : bool) (p : PicInfo.t) :
  Spec.accepted front p ->
  SilkLabelApp.sort_key p
  = (if Py.startswith (Py.get (PicInfo.connectButtonName p) "") "p1_"
     then 1 else 2,
     BoardView.extract_number p).
Proof.
  intros Hacc. pose proof Hacc as [(camera & Hc & Hs) (f & n & Hf & Hn & _)].
  unfold SilkLabelApp.sort_key, BoardView.extract_number.
  unfold Spec.number_field in Hf.
  set (name := Py.get (PicInfo.connectButtonName p) "") in *.
  pose proof (index_Ok_range _ _ _ Hf) as Hlen.
  destruct (Z.leb_spec 2 (Py.len (Py.split "_" name))); [|lia].
  rewrite Hf. simpl. rewrite Hn. simpl.
  destruct (camera_cases _ Hc) as [-> | ->].
  - rewrite Hs. destruct (startswith_inv _ _ Hs) as [t Ht].
    destruct (split_camera t) as [[ps Hps] _].
    rewrite Ht, Hps in *. rewrite index_head. reflexivity.
  - rewrite (startswith_p2_not_p1 _ Hs).
    destruct (startswith_inv _ _ Hs) as [t Ht].
    destruct (split_camera t) as [_ [ps Hps]].
    rewrite Ht, Hps in *. rewrite index_head. reflexivity.
Qed.

(** X21. The order of the boards. Each of the two lists handed to
    [add_buttons] holds the images of [all_pic_info] that the partition
    put on its side, each as often as it occurs there, in the order of
    their keys: the images of camera 1 before those of camera 2, and by
    number within a camera; the numbers are 1 to 25 on the front and 26
    to 50 on the back. No image is in both lists. *)
Theorem boards_sorted (all_pic_info : list PicInfo.t) (front : bool) :
  let l := if front then SilkLabelApp.front_pics all_pic_info
           else SilkLabelApp.back_pics all_pic_info in
  l ≡ₚ List.filter
         (fun p => bool_decide (SilkLabelApp.side p = Some front))
         all_pic_info
  /\ Sorted
       (fun a b =>
          (SilkLabelApp.sort_key a).1 < (SilkLabelApp.sort_key b).1
          \/ ((SilkLabelApp.sort_key a).1 = (SilkLabelApp.sort_key b).1
              /\ (SilkLabelApp.sort_key a).2 <= (SilkLabelApp.sort_key b).2))
       l
  /\ (forall p, p ∈ l ->
        SilkLabelApp.sort_key p
        = (if Py.startswith (Py.get (PicInfo.connectButtonName p) "") "p1_"
           then 1 else 2,
           BoardView.extract_number p)
        /\ if front then 1 <= BoardView.extract_number p <= 25
           else 26 <= BoardView.extract_number p <= 50)
  /\ forall p, p ∈ SilkLabelApp.front_pics all_pic_info ->
       p ∉ SilkLabelApp.back_pics all_pic_info.
Proof.
  intros l.
  assert (Hacc : forall p, p ∈ l -> Spec.accepted front p).
  { intros p Hp. subst l. destruct front.
    - by apply front_pics_elem_of in Hp as [_ ?].
    - by apply back_pics_elem_of in Hp as [_ ?]. }
  split; [|split; [|split]].
  - subst l. destruct front; apply sort_perm.
  - assert (Hsorted : Sorted
              (fun a b =>
                 SilkLabelApp.pair_le (SilkLabelApp.sort_key a)
                   (SilkLabelApp.sort_key b) = true) l).
    { subst l. destruct front; apply sort_total_sorted;
        intros a b; apply pair_le_total. }
    clear Hacc. induction Hsorted as [|a m Hm IHm Hhd]; constructor.
    + exact IHm.
    + destruct Hhd as [|b m' Hab]; constructor. by apply pair_le_spec.
  - intros p Hp. split.
    + by apply (accepted_sort_key front), Hacc.
    + by apply accepted_extract_number, Hacc.
  - intros p Hf Hb.
    apply front_pics_elem_of in Hf as [_ Hf].
    apply back_pics_elem_of in Hb as [_ Hb].
    apply (accepted_extract_number true) in Hf.
    apply (accepted_extract_number false) in Hb. lia.
Qed.

(** The row computed for an image is one of the five rows below the
    header when its column holds at most five images of its camera. *)
Lemma row_in_range (l : list PicInfo.t) (c : Z) (camera : string) (k : nat)
    (p : PicInfo.t) :
  (length (BoardView.pics_in_column l c camera) <= 5)%nat ->
  1 <= BoardView.front_row l c camera k p <= 5
  /\ 1 <= BoardView.back_row l c camera k p <= 5.
Proof.
  intros Hlen. unfold BoardView.front_row, BoardView.back_row.
  destruct (BoardView.index_in_column l c camera k p) as [i|] eqn:Hi;
    [|lia].
  apply find_index_Some in Hi as (H0 & e & He & _).
  apply lookup_lt_Some in He.
  destruct (BoardView.reversed_column c); lia.
Qed.

Lemma place_rows (front : bool) (l : list PicInfo.t) (k : nat)
    (p : PicInfo.t) (row row' : option Z)
    (buttons buttons' : list BoardView.placement) :
  (forall c camera, camera ∈ Spec.cameras ->
     (length (BoardView.pics_in_column l c camera) <= 5)%nat) ->
  BoardView.place front l k p row buttons = Ok (row', buttons') ->
  (forall r, row = Some r -> 1 <= r <= 5) ->
  Forall (fun pl => 1 <= BoardView.row pl <= 5) buttons ->
  (forall r, row' = Some r -> 1 <= r <= 5)
  /\ Forall (fun pl => 1 <= BoardView.row pl <= 5) buttons'.
Proof.
  intros Hgroups Hplace Hrow Hbuttons. unfold BoardView.place in Hplace.
  set (name := Py.get _ _) in Hplace.
  set (c := Py.get (PicInfo.column p) 1) in Hplace.
  assert (H1 : "p1_" ∈ Spec.cameras) by (unfold Spec.cameras; left).
  assert (H2 : "p2_" ∈ Spec.cameras)
    by (unfold Spec.cameras; right; left).
  pose proof (row_in_range l c "p1_" k p (Hgroups c "p1_" H1)) as [Hf1 Hb1].
  pose proof (row_in_range l c "p2_" k p (Hgroups c "p2_" H2)) as [Hf2 Hb2].
  destruct front, (Py.startswith name "p1_"), (Py.startswith name "p2_");
    cbn iota in Hplace;
    try (injection Hplace as <- <-; split;
         [by intros r [= <-]
         |apply Forall_app; split; [done|];
          apply Forall_cons; split; [simpl; lia|constructor]]).
  all: destruct row as [r|]; [|done].
  all: injection Hplace as <- <-; split; [done|].
  all: apply Forall_app; split; [done|].
  all: apply Forall_cons; split; [simpl; by apply Hrow|constructor].
Qed.

Lemma place_all_rows (front : bool) (l : list PicInfo.t)
    (todo : list (nat * PicInfo.t)) :
  (forall c camera, camera ∈ Spec.cameras ->
     (length (BoardView.pics_in_column l c camera) <= 5)%nat) ->
  forall row buttons placed,
    BoardView.place_all front l todo row buttons = Ok placed ->
    (forall r, row = Some r -> 1 <= r <= 5) ->
    Forall (fun pl => 1 <= BoardView.row pl <= 5) buttons ->
    Forall (fun pl => 1 <= BoardView.row pl <= 5) placed.
Proof.
  intros Hgroups.
  induction todo as [|[k p] rest IH]; intros row buttons placed; simpl.
  - by intros [= <-].
  - destruct (BoardView.place front l k p row buttons)
      as [[row' buttons']|e] eqn:Hplace; simpl; [|done].
    intros Hall Hrow Hbuttons.
    destruct (place_rows front l k p row row' buttons buttons'
                Hgroups Hplace Hrow Hbuttons) as [Hrow' Hbuttons'].
    by apply (IH row' buttons' placed).
Qed.

(** X22. The rows of the grid. When no column of a list holds more than
    five images of one camera, every button that [add_buttons] places
    for the list is on one of the rows 1 to 5, below the row of the
    column headers; this also holds for a button that keeps the row of
    the button before it. *)
Theorem rows_in_grid (pic_info_list : list PicInfo.t)
    (placed : list BoardView.placement) :
  (forall c camera, camera ∈ Spec.cameras ->
     (length (BoardView.pics_in_column pic_info_list c camera) <= 5)%nat) ->
  BoardView.add_buttons pic_info_list = Ok placed ->
  forall pl, pl ∈ placed -> 1 <= BoardView.row pl <= 5.
Proof.
  intros Hgroups Hadd. apply Forall_forall.
  unfold BoardView.add_buttons in Hadd.
  destruct pic_info_list as [|p0 rest] eqn:Hl.
  - injection Hadd as <-. constructor.
  - rewrite <- Hl in *.
    by apply (place_all_rows _ _ _ Hgroups None [] placed Hadd).
Qed.

(** Once a row is set, the rest of the list is placed. *)
Lemma place_all_bound (front : bool) (l : list PicInfo.t)
    (todo : list (nat * PicInfo.t)) (r : Z)
    (buttons : list BoardView.placement) :
  exists placed,
    BoardView.place_all front l todo (Some r) buttons = Ok placed
    /\ length placed = (length buttons + length todo)%nat.
Proof.
  revert r buttons.
  induction todo as [|[k p] rest IH]; intros r buttons; simpl.
  - exists buttons. split; [done|lia].
  - unfold BoardView.place.
    set (name := Py.get _ _).
    destruct front, (Py.startswith name "p1_"), (Py.startswith name "p2_");
      simpl;
      match goal with
      | |- context [BoardView.place_all _ _ _ (Some ?r') ?b] =>
          destruct (IH r' b) as (placed & -> & Hlen)
      end;
      exists placed; (split; [done|]);
      rewrite Hlen, length_app; simpl; lia.
Qed.

(** The first turn of the loop, and the turns after it. *)
Lemma place_first (front : bool) (l : list PicInfo.t) (k : nat)
    (first : PicInfo.t) (todo : list (nat * PicInfo.t)) :
  let name := Py.get (PicInfo.connectButtonName first) "" in
  if Py.startswith name "p1_" || Py.startswith name "p2_"
  then exists placed,
         BoardView.place_all front l ((k, first) :: todo) None [] = Ok placed
         /\ length placed = S (length todo)
  else BoardView.place_all front l ((k, first) :: todo) None []
       = Raise UnboundLocalError.
Proof.
  cbn [BoardView.place_all]. unfold BoardView.place.
  change (Py.len [] + 1) with 1.
  destruct (PicInfo.connectButtonName first) as [name|]; cbn [Py.get].
  - destruct front, (Py.startswith name "p1_"), (Py.startswith name "p2_");
      cbn [orb mbind result_bind];
      try done;
      match goal with
      | |- context [BoardView.place_all ?f ?l ?t (Some ?r') ?b] =>
          destruct (place_all_bound f l t r' b) as (placed & -> & Hlen)
      end;
      exists placed; (split; [done|]); rewrite Hlen, length_app; simpl; lia.
  - change (Py.startswith ("img_" +:+ Py.str 1) "p1_") with false.
    change (Py.startswith ("img_" +:+ Py.str 1) "p2_") with false.
    change (Py.startswith "" "p1_") with false.
    change (Py.startswith "" "p2_") with false.
    by destruct front.
Qed.

(** X23. The camera prefix of the first image. [add_buttons] returns for
    the empty list and for a list whose first image has a name with the
    prefix of camera 1 or 2, with one button for each image; an image
    further down the list without such a name is given the row of the
    button before it. For a list whose first image has no such name, or
    no name, it raises [UnboundLocalError]: no row was ever assigned. *)
Theorem add_buttons_needs_camera (pic_info_list : list PicInfo.t) :
  match pic_info_list with
  | [] => BoardView.add_buttons pic_info_list = Ok []
  | first :: _ =>
      let name := Py.get (PicInfo.connectButtonName first) "" in
      if Py.startswith name "p1_" || Py.startswith name "p2_"
      then exists placed,
             BoardView.add_buttons pic_info_list = Ok placed
             /\ length placed = length pic_info_list
      else BoardView.add_buttons pic_info_list = Raise UnboundLocalError
  end
  /\ forall front k p r buttons,
       let name :=
         Py.get (PicInfo.connectButtonName p)
           ("img_" +:+ Py.str (Py.len buttons + 1)) in
       Py.startswith name "p1_" = false ->
       Py.startswith name "p2_" = false ->
       BoardView.place front pic_info_list k p (Some r) buttons
       = Ok (Some r,
             buttons
             ++ [BoardView.mk name r (Py.get (PicInfo.column p) 1 - 1)]).
Proof.
  split.
  - destruct pic_info_list as [|first rest]; [done|].
    pose proof (place_first (BoardView.is_front (first :: rest))
                  (first :: rest) 0 first
                  (imap (fun i p => (S i, p)) rest)) as H.
    cbv zeta in *.
    destruct (_ || _).
    + destruct H as (placed & H & Hlen). exists placed.
      split; [exact H|]. rewrite Hlen, length_imap. done.
    + exact H.
  - intros front k p r buttons name H1 H2. subst name.
    unfold BoardView.place. rewrite H1, H2. by destruct front.
Qed.

(** ** The class catalog *)

Lemma load_lines_skip (classes : gmap Z string) (lines : list string) :
  (forall line, line ∈ lines ->
     Py.strip line = "" \/ Py.contains "," (Py.strip line) = false) ->
  ClassManager.load_lines classes lines = Ok classes.
Proof.
  induction lines as [|line rest IH]; intros Hlines; simpl; [done|].
  assert (Hline : ClassManager.load_line classes line = Ok classes).
  { unfold ClassManager.load_line.
    destruct (Hlines line) as [-> | ->]; [left|done|].
    by rewrite andb_false_r. }
  rewrite Hline. simpl. apply IH. intros l Hl. apply Hlines. by right.
Qed.

(** X24. A catalog file without entries. A file that is read to its end
    and has no line with a comma (an empty file, or one of blank lines
    and remarks) is no failure: [load_classes] leaves the catalog as it
    was, so a new [ClassManager] has an empty catalog, not the built-in
    one, and every class id gets the name made for an unknown class. *)
Theorem load_classes_without_entries (classes : gmap Z string)
    (lines : list string) :
  (forall line, line ∈ lines ->
     Py.strip line = "" \/ Py.contains "," (Py.strip line) = false) ->
  ClassManager.load_classes classes (ClassManager.Lines lines true) = classes
  /\ ClassManager.init (ClassManager.Lines lines true) = ∅
  /\ ClassManager.init (ClassManager.Lines lines true)
     <> ClassManager.default_classes
  /\ forall class_id,
       ClassManager.get_class_name
         (ClassManager.init (ClassManager.Lines lines true)) class_id
       = "未知类别(" +:+ Py.str class_id +:+ ")".
Proof.
  intros Hlines.
  assert (H : forall classes,
            ClassManager.load_classes classes (ClassManager.Lines lines true)
            = classes).
  { intros c. unfold ClassManager.load_classes.
    by rewrite load_lines_skip. }
  split; [apply H|]. unfold ClassManager.init. rewrite H.
  split; [done|]. split.
  - intros Heq.
    apply (f_equal (fun c : gmap Z string => c !! 0)) in Heq.
    vm_compute in Heq. discriminate.
  - intros class_id. unfold ClassManager.get_class_name.
    by rewrite lookup_empty.
Qed.

Lemma contains_append (sep : ascii) (a b : string) :
  Py.contains sep (a +:+ String sep b) = true.
Proof.
  induction a as [|c a IH].
  - change ("" +:+ String sep b) with (String sep b). simpl.
    by rewrite Ascii.eqb_refl.
  - change (String c a +:+ String sep b) with (String c (a +:+ String sep b)).
    simpl. rewrite IH. by rewrite orb_true_r.
Qed.

(** The one cut of [split(sep, 1)] is at the first separator. *)
Lemma split1_first (sep : ascii) (a b : string) :
  Py.contains sep a = false ->
  Py.split1 sep (a +:+ String sep b) = [a; b].
Proof.
  induction a as [|c a IH]; intros Ha.
  - change ("" +:+ String sep b) with (String sep b). simpl.
    by rewrite Ascii.eqb_refl.
  - change (String c a +:+ String sep b) with (String c (a +:+ String sep b)).
    simpl in *. apply orb_false_iff in Ha as [Hc Ha].
    rewrite Hc, (IH Ha). done.
Qed.

(** X25. A line of the catalog file. A line that, without the white
    space around it, reads [id_text,rest] with no comma in [id_text] is
    cut at that first comma only: when [int] reads [id_text] as [n], the
    class [n] gets the name [rest] without the double quotes at its two
    ends, further commas included, replacing a name given to [n] before,
    and the other classes keep their names; when [int] does not read
    [id_text], the line raises [ValueError]. *)
Theorem load_line_entry (classes : gmap Z string)
    (line id_text rest : string) :
  Py.strip line = id_text +:+ "," +:+ rest ->
  Py.contains "," id_text = false ->
  match Py.int id_text with
  | Ok n =>
      let class_name := Py.strip_char Py.dquote rest in
      ClassManager.load_line classes line = Ok (<[n := class_name]> classes)
      /\ ClassManager.get_class_name (<[n := class_name]> classes) n
         = class_name
      /\ forall class_id, class_id <> n ->
           ClassManager.get_class_name (<[n := class_name]> classes) class_id
           = ClassManager.get_class_name classes class_id
  | Raise _ => ClassManager.load_line classes line = Raise ValueError
  end.
Proof.
  intros Hline Hid.
  change (id_text +:+ "," +:+ rest) with (id_text +:+ String "," rest)
    in Hline.
  assert (Hload : ClassManager.load_line classes line
                  = (class_id ← Py.int id_text;
                     Ok (<[class_id := Py.strip_char Py.dquote rest]>
                           classes))).
  { unfold ClassManager.load_line. rewrite Hline.
    rewrite contains_append, split1_first by done.
    assert (Hne : (id_text +:+ String "," rest =? "")%string = false)
      by (by destruct id_text).
    rewrite Hne. cbn [negb andb]. rewrite index_head. cbn [mbind result_bind].
    destruct (Py.int id_text); reflexivity. }
  rewrite Hload.
  destruct (Py.int id_text) as [n|e] eqn:Hint; cbn [mbind result_bind].
  - split; [done|]. unfold ClassManager.get_class_name. split.
    + by rewrite lookup_insert_eq.
    + intros class_id Hneq. by rewrite lookup_insert_ne.
  - by rewrite (int_raises _ _ Hint).
Qed.

(** ** The region list *)



(** * Instances

    Each property that has a premise, applied to the sample data. *)

Lemma zoom_clamped_witness :
  DetailDialog.image_label (Examples.dialog 0) = Some Examples.label
  /\ Spec.zoom_in_range (ImageLabel.zoom_factor Examples.label)
  /\ forall delta,
       Spec.zoom_in_range
         (ImageLabel.zoom_factor (ImageLabel.wheelEvent delta Examples.label)).
Proof.
  assert (Hl : DetailDialog.image_label (Examples.dialog 0)
               = Some Examples.label) by reflexivity.
  assert (Hr : Spec.zoom_in_range (ImageLabel.zoom_factor Examples.label))
    by (split; vm_compute; reflexivity).
  split; [exact Hl|]. split; [exact Hr|].
  intros delta.
  exact (proj1 (proj1 (zoom_clamped (Examples.dialog 0) Examples.label Hl Hr)
                  delta)).
Defined.

Lemma hit_test_first_region_witness :
  exists signal,
    ImageLabel.mouseReleaseEvent_click Examples.regions Examples.zoomed 90 90
    = Ok signal
    /\ signal = ImageLabel.region_clicked 0
    /\ ImageLabel.mouseReleaseEvent_click Examples.regions Examples.label
         90 90
       = Ok ImageLabel.region_unselected.
Proof.
  assert (Hok : Forall (fun r => exists box,
                          Spec.screen_box
                            (ImageLabel.scale_factor Examples.zoomed) r box)
                  Examples.regions).
  { apply Forall_cons. split.
    { exists (20, 20, 80, 80). apply screen_box_spec.
      vm_compute. reflexivity. }
    apply Forall_cons. split.
    { exists (60, 60, 80, 80). apply screen_box_spec.
      vm_compute. reflexivity. }
    apply Forall_cons. split; [|constructor].
    exists (400, 200, 100, 40). apply screen_box_spec.
    vm_compute. reflexivity. }
  destruct (hit_test_first_region Examples.regions Examples.zoomed 90 90 Hok)
    as (signal & Hclick & _).
  exists signal. split; [exact Hclick|].
  vm_compute in Hclick. split; [congruence|]. vm_compute. reflexivity.
Defined.

Lemma delete_current_region_reselects_witness :
  exists d',
    DetailDialog.delete_current_region Qt.Yes (Examples.dialog 2) = Ok d'
    /\ DetailDialog.current_region_index d' = 1
    /\ Py.len (DetailDialog.regions d') = 2.
Proof.
  destruct (delete_current_region_reselects (Examples.dialog 2) 2%nat)
    as (d' & Hd & _ & Hlen & Hsel).
  - reflexivity.
  - simpl. lia.
  - exists d'. split; [exact Hd|]. split; [exact Hsel|exact Hlen].
Defined.


Lemma partition_excludes_witness :
  Spec.excluded (Examples.pic "p1_77" 4)
  /\ (Examples.pic "p1_77" 4
      ∉ SilkLabelApp.front_pics (Examples.pic "p1_77" 4 :: Examples.two_columns)).
Proof.
  assert (Hex : Spec.excluded (Examples.pic "p1_77" 4)).
  { right. right. exists 77. split; [vm_compute; reflexivity|lia]. }
  split; [exact Hex|].
  exact (proj1 (partition_excludes
                  (Examples.pic "p1_77" 4 :: Examples.two_columns)
                  (Examples.pic "p1_77" 4) Hex)).
Defined.




Lemma refresh_button_display_agrees_witness :
  exists fresh,
    ImageButton.init "p1_1" Examples.pic_with_regions = Ok fresh
    /\ ImageButton.shown (SilkLabelApp.refresh_button_display Examples.button)
       = ImageButton.shown fresh.
Proof.
  destruct (refresh_button_display_agrees Examples.button
              Examples.pic_with_regions eq_refl)
    as (fresh & Hinit & Hshown & _).
  exists fresh. split; [exact Hinit|exact Hshown].
Defined.

Lemma click_or_drag_witness :
  ImageLabel.mouseReleaseEvent Examples.normalized ImageLabel.LeftButton
    (36, 36) Examples.regions
    (ImageLabel.mouseMoveEvent true (36, 36)
       (ImageLabel.mousePressEvent ImageLabel.LeftButton (35, 35)
          Examples.view))
  = Ok (ImageLabel.mousePressEvent ImageLabel.LeftButton (35, 35)
          Examples.view,
        ImageLabel.selection (ImageLabel.region_clicked 0)).
Proof.
  assert (Hnear : Forall (fun m => ImageLabel.manhattanLength m (35, 35) <= 5)
                    [(36, 36)]).
  { repeat constructor. vm_compute. discriminate. }
  destruct (click_or_drag Examples.normalized Examples.view Examples.regions
              (35, 35) (36, 36) [(36, 36)] eq_refl) as [H _].
  destruct (H Hnear) as [_ Hrelease].
  etransitivity; [exact Hrelease|]. vm_compute. reflexivity.
Defined.

Lemma pan_follows_mouse_witness :
  ImageLabel.value
    (ImageLabel.h_scrollbar
       (ImageLabel.area
          (foldl (fun s m => ImageLabel.mouseMoveEvent true m s)
             (ImageLabel.mousePressEvent ImageLabel.LeftButton (300, 200)
                Examples.view)
             [(302, 201); (290, 200); (280, 190)])))
  = 120.
Proof.
  assert (Hnear : Forall
                    (fun m => ImageLabel.manhattanLength m (300, 200) <= 5)
                    [(302, 201)]).
  { repeat constructor. vm_compute. discriminate. }
  assert (Hfar : 5 < ImageLabel.manhattanLength (290, 200) (300, 200))
    by reflexivity.
  assert (Hrange :
            Forall
              (fun m : Z * Z =>
                 0 <= 100 - (m.1 - 300) <= 400
                 /\ 0 <= 50 - (m.2 - 200) <= 300)
              [(290, 200); (280, 190)]).
  { repeat constructor; simpl; lia. }
  exact (proj1 (proj2
           (pan_follows_mouse Examples.view (300, 200) (290, 200)
              [(302, 201)] [(280, 190)] eq_refl eq_refl Hnear Hfar Hrange))).
Defined.

Lemma scroll_centres_region_witness :
  exists s',
    ImageLabel._scroll_to_region_center Examples.regions 2 true Examples.view
    = Ok s'
    /\ ImageLabel.h_scrollbar (ImageLabel.area s')
       = ImageLabel.mkScrollbar 0 400
    /\ ImageLabel.v_scrollbar (ImageLabel.area s')
       = ImageLabel.mkScrollbar 0 300.
Proof.
  assert (Hbox : ImageLabel.screen_box
                   (ImageLabel.scale_factor (ImageLabel.label Examples.view))
                   (Examples.detected 200 100 50 20 2)
                 = Ok (200, 100, 50, 20))
    by (vm_compute; reflexivity).
  assert (Hh : 0 <= ImageLabel.maximum
                      (ImageLabel.h_scrollbar (ImageLabel.area Examples.view)))
    by (simpl; lia).
  assert (Hv : 0 <= ImageLabel.maximum
                      (ImageLabel.v_scrollbar (ImageLabel.area Examples.view)))
    by (simpl; lia).
  destruct (scroll_centres_region Examples.regions 2
              (Examples.detected 200 100 50 20 2) 200 100 50 20
              Examples.view eq_refl Hbox Hh Hv)
    as [(s' & Hs & _ & Hhor & Hver & _) _].
  exists s'. split; [exact Hs|]. split; [exact Hhor|exact Hver].
Defined.

Lemma select_json_file_failure_witness :
  MainWindow.messages
    (MainWindow.select_json_file (fun _ => "/data") "missing.json"
       MainWindow.NotFound MainWindow.init)
  = [Qt.critical "文件错误"]
  /\ SilkLabelApp.selected_file_path
       (MainWindow.app
          (MainWindow.select_json_file (fun _ => "/data") "missing.json"
             MainWindow.NotFound MainWindow.init))
     = Some "missing.json".
Proof.
  assert (Hpath : "missing.json" <> "") by discriminate.
  assert (Hread : forall doc, MainWindow.NotFound <> MainWindow.Parsed doc)
    by discriminate.
  destruct (select_json_file_failure (fun _ => "/data") "missing.json"
              MainWindow.NotFound MainWindow.init Hpath Hread)
    as (_ & Hp & _ & _ & _ & _ & _ & Hm).
  split; [exact Hm|exact Hp].
Defined.

Lemma select_json_file_loads_witness :
  MainWindow.messages
    (MainWindow.select_json_file (fun _ => "/data") "/data/batch.json"
       (MainWindow.Parsed (SilkLabelApp.mkDocument None None ["foo"]))
       MainWindow.init)
  = [Qt.warning "数据错误"]
  /\ MainWindow.clear_btn
       (MainWindow.select_json_file (fun _ => "/data") "/data/batch.json"
          (MainWindow.Parsed (SilkLabelApp.mkDocument None None ["foo"]))
          MainWindow.init)
     = true.
Proof.
  assert (Hpath : "/data/batch.json" <> "") by discriminate.
  destruct (select_json_file_loads (fun _ => "/data") "/data/batch.json"
              (SilkLabelApp.mkDocument None None ["foo"])
              MainWindow.init Hpath)
    as (_ & _ & Hbtn & _ & Hcase).
  cbn [SilkLabelApp.currentBlackboard SilkLabelApp.batchName
       SilkLabelApp.other_keys] in Hcase.
  destruct Hcase as (_ & _ & Hm).
  split; [exact Hm|exact Hbtn].
Defined.

Lemma rows_in_grid_witness :
  exists placed,
    BoardView.add_buttons Examples.two_columns = Ok placed
    /\ forall pl, pl ∈ placed -> 1 <= BoardView.row pl <= 5.
Proof.
  assert (Hgroups : forall c camera, camera ∈ Spec.cameras ->
            (length (BoardView.pics_in_column Examples.two_columns c camera)
             <= 5)%nat).
  { intros c camera Hc. unfold BoardView.pics_in_column.
    rewrite sort_length.
    destruct (camera_cases _ Hc) as [-> | ->]; cbn -[Z.eqb];
      destruct (Z.eqb_spec 1 c), (Z.eqb_spec 3 c); cbn; lia. }
  eexists. split; [vm_compute; reflexivity|].
  apply (rows_in_grid Examples.two_columns); [exact Hgroups|].
  vm_compute. reflexivity.
Defined.

Lemma load_classes_without_entries_witness :
  ClassManager.init (ClassManager.Lines ["# classes"; ""] true) = ∅.
Proof.
  assert (Hlines : forall line, line ∈ ["# classes"; ""] ->
            Py.strip line = ""
            \/ Py.contains "," (Py.strip line) = false).
  { intros line Hin. right.
    apply elem_of_cons in Hin as [->|Hin]; [reflexivity|].
    apply elem_of_cons in Hin as [->|Hin]; [reflexivity|].
    by apply elem_of_nil in Hin. }
  exact (proj1 (proj2 (load_classes_without_entries ∅ _ Hlines))).
Defined.

Lemma load_line_entry_witness :
  ClassManager.load_line ∅ " 7,a,b" = Ok (<[7 := "a,b"]> ∅).
Proof.
  pose proof (load_line_entry ∅ " 7,a,b" "7" "a,b" eq_refl eq_refl) as H.
  change (Py.int "7") with (Ok 7 : result Z) in H.
  exact (proj1 H).
Defined.
